(** * A model of the parser-generating agent ([agent.py])

    The agent asks a text-completion oracle for a bank-statement parser,
    runs the returned program from a scratch file, compares the table it
    produces with a reference CSV, retries a bounded number of times and
    finally falls back to a fixed Camelot-based parser.

    The functions of [agent.py] are embedded as functions of a small
    state-and-exception monad over a [World] (file system, console, log of
    calls to the external collaborators).  pandas, difflib, Camelot, the
    oracle and the Python interpreter that executes candidate programs are
    external: they enter as the fields of two classes, [Libs] and [Host].

    Python [str] values are modelled as [string]; the character classes
    ([str.isspace], the regular expression class [\d]) are the ASCII ones. *)

From Stdlib Require Import Ascii String.
From stdpp Require Import gmap strings list fin_maps pretty.

Local Open Scope string_scope.

(** ** Python string operations *)

Module PyStr.

(** [str.isspace] on one ASCII character: TAB, LF, VT, FF, CR, the four
    separators FS GS RS US, and the space. *)
Definition is_space (c : ascii) : bool :=
  let n := nat_of_ascii c in
  (((9 <=? n) && (n <=? 13)) || ((28 <=? n) && (n <=? 32)))%nat.

Definition is_backtick (c : ascii) : bool := Ascii.eqb c "`".

(** ASCII decimal digit, the class [\d]. *)
Definition is_digit (c : ascii) : bool :=
  let n := nat_of_ascii c in ((48 <=? n) && (n <=? 57))%nat.

Definition is_empty (s : string) : bool :=
  match s with EmptyString => true | String _ _ => false end.

Fixpoint lstrip_by (p : ascii -> bool) (s : string) : string :=
  match s with
  | EmptyString => EmptyString
  | String c s' => if p c then lstrip_by p s' else s
  end.

Fixpoint rstrip_by (p : ascii -> bool) (s : string) : string :=
  match s with
  | EmptyString => EmptyString
  | String c s' =>
      let r := rstrip_by p s' in
      if is_empty r && p c then EmptyString else String c r
  end.

Definition strip_by (p : ascii -> bool) (s : string) : string :=
  rstrip_by p (lstrip_by p s).

(** [s.strip()] *)
Definition strip (s : string) : string := strip_by is_space s.

(** [s.strip] with the backtick as the only character to strip. *)
Definition strip_backticks (s : string) : string := strip_by is_backtick s.

(** [s.startswith(p)] *)
Definition startswith (p s : string) : bool := String.prefix p s.

(** [s[n:]] *)
Fixpoint slice_from (n : nat) (s : string) : string :=
  match n, s with
  | O, _ => s
  | S _, EmptyString => EmptyString
  | S n', String _ s' => slice_from n' s'
  end.

(** [sub in s] *)
Fixpoint contains (sub s : string) : bool :=
  String.prefix sub s ||
  match s with
  | EmptyString => false
  | String _ s' => contains sub s'
  end.

(** [s.replace(a, b)] for one-character [a] and [b]. *)
Fixpoint replace_char (a b : ascii) (s : string) : string :=
  match s with
  | EmptyString => EmptyString
  | String c s' => String (if Ascii.eqb c a then b else c) (replace_char a b s')
  end.

(** [sep.join(l)] *)
Fixpoint join (sep : string) (l : list string) : string :=
  match l with
  | [] => EmptyString
  | [x] => x
  | x :: l' => x +:+ sep +:+ join sep l'
  end.

(** [s.split(sep)] for a one-character separator: never the empty list. *)
Fixpoint split_char (sep : ascii) (s : string) : list string :=
  match s with
  | EmptyString => [EmptyString]
  | String c s' =>
      if Ascii.eqb c sep then EmptyString :: split_char sep s'
      else match split_char sep s' with
           | [] => [String c EmptyString]
           | x :: l => String c x :: l
           end
  end.

(** Line boundaries of [str.splitlines] in ASCII: LF, VT, FF, CR, FS, GS,
    RS (CR LF counts as one boundary). *)
Definition is_linebreak (c : ascii) : bool :=
  let n := nat_of_ascii c in
  (((10 <=? n) && (n <=? 13)) || ((28 <=? n) && (n <=? 30)))%nat.

(** [s.splitlines()]: [cur] is the line being read, reversed. *)
Fixpoint splitlines_aux (cur : list ascii) (s : string) : list string :=
  match s with
  | EmptyString =>
      match cur with [] => [] | _ => [string_of_list_ascii (rev cur)] end
  | String c s' =>
      if is_linebreak c then
        string_of_list_ascii (rev cur) ::
        match c, s' with
        | "013"%char, String "010"%char s'' => splitlines_aux [] s''
        | _, _ => splitlines_aux [] s'
        end
      else splitlines_aux (c :: cur) s'
  end.

Definition splitlines (s : string) : list string := splitlines_aux [] s.

(** The regular expression [\d{2}-\d{2}-\d{4}] applied with [re.match]:
    anchored at the start of the text, nothing is required of what
    follows the ten matched characters. *)
Definition date_match (s : string) : bool :=
  match s with
  | String d1 (String d2 (String h1 (String m1 (String m2 (String h2
      (String y1 (String y2 (String y3 (String y4 _))))))))) =>
      is_digit d1 && is_digit d2 && Ascii.eqb h1 "-" &&
      is_digit m1 && is_digit m2 && Ascii.eqb h2 "-" &&
      is_digit y1 && is_digit y2 && is_digit y3 && is_digit y4
  | _ => false
  end.

End PyStr.

(** ** Exceptions and results *)

(** The exception classes that occur.  [SystemExit] and [KeyboardInterrupt]
    derive from [BaseException] only: [except Exception] lets them pass. *)
Inductive exc_class :=
  | SystemExit (status : nat)
  | KeyboardInterrupt
  | SyntaxError
  | ImportError
  | ModuleNotFoundError
  | AttributeError
  | KeyError
  | ValueError
  | TypeError
  | RuntimeError
  | FileExistsError
  | FileNotFoundError
  | IsADirectoryError
  | NotADirectoryError
  | OtherException (name : string).

(** An exception value: its class and [str(e)]. *)
Record exn := Exn { exc_cls : exc_class; exc_str : string }.

(** [isinstance(e, Exception)] *)
Definition is_Exception (e : exn) : bool :=
  match exc_cls e with
  | SystemExit _ | KeyboardInterrupt => false
  | _ => true
  end.

(** [isinstance(e, ImportError)] ([ModuleNotFoundError] is a subclass). *)
Definition is_ImportError (e : exn) : bool :=
  match exc_cls e with
  | ImportError | ModuleNotFoundError => true
  | _ => false
  end.

(** [isinstance(e, RuntimeError)] *)
Definition is_RuntimeError (e : exn) : bool :=
  match exc_cls e with
  | RuntimeError => true
  | _ => false
  end.

Inductive res (A : Type) :=
  | Ok (a : A)
  | Raise (e : exn).
Arguments Ok {A} a.
Arguments Raise {A} e.

Definition res_bind {A B} (m : res A) (k : A -> res B) : res B :=
  match m with
  | Ok a => k a
  | Raise e => Raise e
  end.

Notation "'let+' x ':=' m 'in' k" := (res_bind m (fun x => k))
  (at level 10, x pattern, m at level 100, k at level 200).

Definition is_raise {A} (r : res A) : bool :=
  match r with Ok _ => false | Raise _ => true end.

(** ** Tables *)

(** A cell holds text, a number or the missing marker (NaN).  Numbers are
    values of a type [num] with decidable equality: the comparison of two
    numeric cells is exact. *)
Inductive cell (num : Type) :=
  | VStr (s : string)
  | VNum (x : num)
  | VNaN.
Arguments VStr {num} s.
Arguments VNum {num} x.
Arguments VNaN {num}.

(** How a column is stored. *)
Inductive dtype := DObject | DFloat64 | DInt64 | DBool.

(** A column or row label: a position of a default [RangeIndex], or a
    value. *)
Inductive label (num : Type) :=
  | LPos (n : nat)
  | LVal (c : cell num).
Arguments LPos {num} n.
Arguments LVal {num} c.

(** A [DataFrame], row by row. *)
Record DataFrame (num : Type) := Frame {
  columns : list (label num);
  dtypes : list dtype;
  index : list (label num);
  rows : list (list (cell num))
}.
Arguments Frame {num} _ _ _ _.
Arguments columns {num} _.
Arguments dtypes {num} _.
Arguments index {num} _.
Arguments rows {num} _.

(** What a candidate's entry point may return. *)
Inductive pyobj (num : Type) :=
  | PyFrame (df : DataFrame num)
  | PyOther (repr : string).
Arguments PyFrame {num} df.
Arguments PyOther {num} repr.

#[global] Instance exc_class_eq_dec : EqDecision exc_class.
Proof. solve_decision. Defined.
#[global] Instance exn_eq_dec : EqDecision exn.
Proof. solve_decision. Defined.
#[global] Instance dtype_eq_dec : EqDecision dtype.
Proof. solve_decision. Defined.
#[global] Instance cell_eq_dec {num} `{EqDecision num} : EqDecision (cell num).
Proof. solve_decision. Defined.
#[global] Instance label_eq_dec {num} `{EqDecision num} : EqDecision (label num).
Proof. solve_decision. Defined.
#[global] Instance DataFrame_eq_dec {num} `{EqDecision num} :
  EqDecision (DataFrame num).
Proof. solve_decision. Defined.

(** The library functions the agent calls and does not define. *)
Class Libs (num : Type) := {
  (** the numeric lexer of [pd.to_numeric]: the value of a text, if it
      reads as a number *)
  parse_number : string -> option num;
  (** the dtype [pd.to_numeric] gives a converted object column *)
  numeric_dtype : list (cell num) -> dtype;
  (** [pd.read_csv] on the text of a file *)
  pd_read_csv : string -> res (DataFrame num);
  (** [DataFrame.to_string()] *)
  to_string : DataFrame num -> string;
  (** [DataFrame.to_csv(index=False)] *)
  to_csv : DataFrame num -> string;
  (** [repr] of [columns.to_list()] *)
  labels_repr : list (label num) -> string;
  (** [str] of a number *)
  num_str : num -> string;
  (** [difflib.unified_diff(a, b)] with an empty [lineterm], as a list *)
  unified_diff : list string -> list string -> list string
}.

(** ** pandas operations used by the agent and by the fallback parser *)

Fixpoint res_mapM {A B} (f : A -> res B) (l : list A) : res (list B) :=
  match l with
  | [] => Ok []
  | x :: l' =>
      let+ y := f x in
      let+ ys := res_mapM f l' in
      Ok (y :: ys)
  end.

(** Keep the elements of [l] whose flag in [mask] is set. *)
Fixpoint select_by_mask {A} (mask : list bool) (l : list A) : list A :=
  match mask, l with
  | b :: mask', x :: l' =>
      if b then x :: select_by_mask mask' l' else select_by_mask mask' l'
  | _, _ => []
  end.

(** [errors=] of [pd.to_numeric]; the agent always passes ['coerce']. *)
Inductive errors_mode := ErrorsRaise | ErrorsCoerce.

(** The result of a label lookup [df[l]]: a column, or a sub-frame when the
    label is carried by several columns. *)
Inductive picked := OneColumn (pos : nat) | SubFrame (positions : list nat).

Section Tables.
Context {num : Type} `{EqDecision num} `{!Libs num}.

Definition str_label (s : string) : label num := LVal (VStr s).

(** The fixed five-column schema. *)
Definition schema_names : list string :=
  ["Date"; "Description"; "Debit Amt"; "Credit Amt"; "Balance"].
Definition schema : list (label num) := map str_label schema_names.

(** The three numeric columns. *)
Definition numeric_names : list string :=
  ["Debit Amt"; "Credit Amt"; "Balance"].

Definition range_index (n : nat) : list (label num) := map LPos (seq 0 n).

(** [df.reset_index(drop=True)] *)
Definition reset_index (df : DataFrame num) : DataFrame num :=
  Frame (columns df) (dtypes df) (range_index (length (rows df))) (rows df).

(** [df.shape[1]] *)
Definition ncols (df : DataFrame num) : nat := length (columns df).

(** [df.head(n)] *)
Definition head (n : nat) (df : DataFrame num) : DataFrame num :=
  Frame (columns df) (dtypes df) (take n (index df)) (take n (rows df)).

(** [str(x)] of a cell. *)
Definition py_str (c : cell num) : string :=
  match c with
  | VStr s => s
  | VNum x => num_str x
  | VNaN => "nan"
  end.

(** [str(KeyError(l))] *)
Definition key_repr (l : label num) : string :=
  match l with
  | LPos n => pretty n
  | LVal (VStr s) => "'" +:+ s +:+ "'"
  | LVal c => py_str c
  end.

Fixpoint positions_from (i : nat) (l : label num) (cs : list (label num))
  : list nat :=
  match cs with
  | [] => []
  | c :: cs' =>
      if decide (c = l) then i :: positions_from (S i) l cs'
      else positions_from (S i) l cs'
  end.

(** [df[l]] *)
Definition getitem (df : DataFrame num) (l : label num) : res picked :=
  match positions_from 0 l (columns df) with
  | [] => Raise (Exn KeyError (key_repr l))
  | [i] => Ok (OneColumn i)
  | ps => Ok (SubFrame ps)
  end.

Definition row_cell (i : nat) (r : list (cell num)) : cell num :=
  default VNaN (r !! i).

Definition column_cells (df : DataFrame num) (i : nat) : list (cell num) :=
  map (row_cell i) (rows df).

Definition column_dtype (df : DataFrame num) (i : nat) : dtype :=
  default DObject (dtypes df !! i).

Definition is_num_cell (c : cell num) : bool :=
  match c with VNum _ => true | _ => false end.

Definition is_nan_cell (c : cell num) : bool :=
  match c with VNaN => true | _ => false end.

(** The [.str] accessor of a selection: it wants one object column that
    does not consist of numbers only. *)
Definition str_accessor (df : DataFrame num) (p : picked) : res nat :=
  match p with
  | SubFrame _ =>
      Raise (Exn AttributeError "'DataFrame' object has no attribute 'str'")
  | OneColumn i =>
      let present := List.filter (fun c => negb (is_nan_cell c))
                                 (column_cells df i) in
      match column_dtype df i with
      | DObject =>
          if negb (bool_decide (present = [])) && forallb is_num_cell present
          then Raise (Exn AttributeError
                        "Can only use .str accessor with string values!")
          else Ok i
      | _ => Raise (Exn AttributeError
                      "Can only use .str accessor with string values!")
      end
  end.

(** One cell of [.str.match(r'\d{2}-\d{2}-\d{4}', na=False)]. *)
Definition str_match_cell (c : cell num) : bool :=
  match c with
  | VStr s => PyStr.date_match s
  | _ => false
  end.

(** One cell of [.str.replace('\n', ' ', regex=False).str.strip()]. *)
Definition clean_description (c : cell num) : cell num :=
  match c with
  | VStr s => VStr (PyStr.strip (PyStr.replace_char "010" " " s))
  | _ => VNaN
  end.

(** [df[mask]] for the mask that [keep] computes row by row. *)
Definition filter_rows (keep : list (cell num) -> bool) (df : DataFrame num)
  : DataFrame num :=
  Frame (columns df) (dtypes df)
        (select_by_mask (map keep (rows df)) (index df))
        (List.filter keep (rows df)).

(** [df.iloc[:, :n]] *)
Definition iloc_cols (n : nat) (df : DataFrame num) : DataFrame num :=
  Frame (take n (columns df)) (take n (dtypes df)) (index df)
        (map (take n) (rows df)).

(** [df.columns = names] *)
Definition set_columns (df : DataFrame num) (names : list (label num))
  : res (DataFrame num) :=
  if (length names =? ncols df)%nat
  then Ok (Frame names (dtypes df) (index df) (rows df))
  else Raise (Exn ValueError
         ("Length mismatch: Expected axis has " +:+ pretty (ncols df) +:+
          " elements, new values have " +:+ pretty (length names) +:+
          " elements")).

(** [df[col] = values] for an existing column at position [i]. *)
Definition set_column (df : DataFrame num) (i : nat) (dt : dtype)
  (values : list (cell num)) : DataFrame num :=
  Frame (columns df) (<[i:=dt]> (dtypes df)) (index df)
        (zip_with (fun r v => <[i:=v]> r) (rows df) values).

(** The cell that [errors='coerce'] is to give: a text becomes the number
    it reads as, or the missing marker. *)
Definition coerce_cell (c : cell num) : cell num :=
  match c with
  | VStr s =>
      match parse_number s with
      | Some x => VNum x
      | None => VNaN
      end
  | _ => c
  end.

(** [pd.to_numeric] on one cell. *)
Definition to_numeric_cell (errors : errors_mode) (c : cell num)
  : res (cell num) :=
  match c with
  | VStr s =>
      match parse_number s with
      | Some x => Ok (VNum x)
      | None =>
          match errors with
          | ErrorsCoerce => Ok VNaN
          | ErrorsRaise =>
              Raise (Exn ValueError ("Unable to parse string " +:+ s))
          end
      end
  | VNum x => Ok (VNum x)
  | VNaN => Ok VNaN
  end.

(** [pd.to_numeric(df[l], errors=...)]: a numeric column is returned as it
    is, an object column is converted cell by cell. *)
Definition to_numeric (errors : errors_mode) (df : DataFrame num) (p : picked)
  : res (nat * dtype * list (cell num)) :=
  match p with
  | SubFrame _ =>
      Raise (Exn TypeError "arg must be a list, tuple, 1-d array, or Series")
  | OneColumn i =>
      match column_dtype df i with
      | DObject =>
          let+ values := res_mapM (to_numeric_cell errors) (column_cells df i) in
          Ok (i, numeric_dtype (column_cells df i), values)
      | dt => Ok (i, dt, column_cells df i)
      end
  end.

(** [for col in names: df[col] = pd.to_numeric(df[col], errors='coerce')] *)
Fixpoint coerce_columns (names : list string) (df : DataFrame num)
  : res (DataFrame num) :=
  match names with
  | [] => Ok df
  | col :: names' =>
      let+ p := getitem df (str_label col) in
      let+ (i, dt, values) := to_numeric ErrorsCoerce df p in
      coerce_columns names' (set_column df i dt values)
  end.

(** [a.equals(b)]: same labels on both axes, same dtype column by column,
    and equal cells, where two missing markers in the same place count as
    equal. *)
Definition equals (a b : DataFrame num) : bool :=
  bool_decide (columns a = columns b) &&
  bool_decide (index a = index b) &&
  bool_decide (dtypes a = dtypes b) &&
  bool_decide (rows a = rows b).

End Tables.

(** ** The fallback parser: the program text that
    [make_fallback_parser_code] returns, as a function *)

(** A raw grid of the table-extraction collaborator: [gwidth] columns of
    text cells, every row of [gcells] having [gwidth] cells. *)
Record grid := Grid { gwidth : nat; gcells : list (list string) }.

Section Fallback.
Context {num : Type} `{EqDecision num} `{!Libs num}.

(** [pd.concat([table.df for table in tables], ignore_index=True)]: the
    columns are the union of the grids' positions, a narrower grid is
    filled with the missing marker on the right. *)
Definition concat (tables : list grid) : DataFrame num :=
  let w := foldr (fun g => Nat.max (gwidth g)) 0 tables in
  let rs := flat_map (fun g => map (fun r => resize w VNaN (map VStr r))
                                   (gcells g)) tables in
  Frame (range_index w) (replicate w DObject) (range_index (length rs)) rs.

(** [row[j]] on a row of the concatenated frame. *)
Definition row_getitem (r : list (cell num)) (j : nat) : res (cell num) :=
  match r !! j with
  | Some c => Ok c
  | None => Raise (Exn KeyError (pretty j))
  end.

(** The loop over [df.iterrows()] that looks for the header row; [-1] when
    there is none. *)
Fixpoint find_header (i : nat) (rs : list (list (cell num))) : res Z :=
  match rs with
  | [] => Ok (-1)%Z
  | row :: rs' =>
      let+ c0 := row_getitem row 0 in
      if PyStr.contains "Date" (py_str c0) then
        let+ c1 := row_getitem row 1 in
        if PyStr.contains "Description" (py_str c1)
        then Ok (Z.of_nat i)
        else find_header (S i) rs'
      else find_header (S i) rs'
  end.

(** [if header_index != -1: df.columns = df.iloc[header_index];
    df = df.iloc[header_index + 1:].reset_index(drop=True)] *)
Definition promote_header (header_index : Z) (df : DataFrame num)
  : DataFrame num :=
  if bool_decide (header_index <> (-1)%Z) then
    let h := Z.to_nat header_index in
    reset_index
      (Frame (map LVal (default [] (rows df !! h))) (dtypes df)
             (drop (S h) (index df)) (drop (S h) (rows df)))
  else df.

(** [if df.shape[1] == 5: ... else: ...] *)
Definition assign_schema (df : DataFrame num) : res (DataFrame num) :=
  if (ncols df =? 5)%nat then set_columns df schema
  else
    let+ p := getitem df (LPos 0) in
    let+ i := str_accessor df p in
    let df := filter_rows (fun r => str_match_cell (row_cell i r)) df in
    let df := iloc_cols 5 df in
    set_columns df schema.

(** The part of [parse] that selects the working rows and names the
    columns. *)
Definition select_rows (tables : list grid) : res (DataFrame num) :=
  match tables with
  | [] => Raise (Exn ValueError "No tables found in PDF")
  | _ =>
      let df := concat tables in
      let+ header_index := find_header 0 (rows df) in
      assign_schema (promote_header header_index df)
  end.

(** [df.dropna(subset=[l])] *)
Definition dropna (df : DataFrame num) (l : label num) : res (DataFrame num) :=
  let+ p := getitem df l in
  match p with
  | OneColumn i => Ok (filter_rows (fun r => negb (is_nan_cell (row_cell i r))) df)
  | SubFrame ps =>
      Ok (filter_rows
            (fun r => forallb (fun i => negb (is_nan_cell (row_cell i r))) ps) df)
  end.

(** The part of [parse] that cleans the named columns and drops the rows
    without a date. *)
Definition normalise (df : DataFrame num) : res (DataFrame num) :=
  let+ p := getitem df (str_label "Description") in
  let+ i := str_accessor df p in
  let df := set_column df i DObject
                       (map clean_description (column_cells df i)) in
  let+ df := coerce_columns numeric_names df in
  let+ df := dropna df (str_label "Date") in
  let+ p := getitem df (str_label "Date") in
  let+ i := str_accessor df p in
  Ok (reset_index (filter_rows (fun r => str_match_cell (row_cell i r)) df)).

(** The body of [parse] after [camelot.read_pdf] has returned [tables]. *)
Definition parse_tables (tables : list grid) : res (DataFrame num) :=
  let+ df := select_rows tables in
  normalise df.

(** [parse(pdf_path)], with [camelot.read_pdf(pdf_path, pages='all',
    flavor='stream')] as [read_pdf]. *)
Definition fallback_parse (read_pdf : string -> res (list grid))
  (pdf_path : string) : res (DataFrame num) :=
  let+ tables := read_pdf pdf_path in
  parse_tables tables.

End Fallback.

(** ** The world: file system, console and the log of calls *)

Inductive node := File (content : string) | Dir.

(** The calls a run makes, in order: [main] asking for a parser, the request
    that reaches the completion service, [run_test], [run_generated_code],
    and [main] taking the fallback program. *)
Inductive event :=
  | EvGenerate (attempt : nat)
  | EvOracle (prompt : string)
  | EvValidate (code : string)
  | EvSandbox (code : string)
  | EvFallback.

Record World := MkWorld {
  fs : gmap string node;
  stdout : list string;
  calls : list event;
  draws : nat;
  requests : nat;
  sys_modules : list string
}.

#[global] Instance node_eq_dec : EqDecision node.
Proof. solve_decision. Defined.
#[global] Instance event_eq_dec : EqDecision event.
Proof. solve_decision. Defined.

Definition set_fs (f : gmap string node) (w : World) : World :=
  MkWorld f (stdout w) (calls w) (draws w) (requests w) (sys_modules w).
Definition add_stdout (s : string) (w : World) : World :=
  MkWorld (fs w) (stdout w ++ [s]) (calls w) (draws w) (requests w)
          (sys_modules w).
Definition add_call (e : event) (w : World) : World :=
  MkWorld (fs w) (stdout w) (calls w ++ [e]) (draws w) (requests w)
          (sys_modules w).
Definition add_draw (w : World) : World :=
  MkWorld (fs w) (stdout w) (calls w) (S (draws w)) (requests w)
          (sys_modules w).
Definition add_request (w : World) : World :=
  MkWorld (fs w) (stdout w) (calls w) (draws w) (S (requests w))
          (sys_modules w).
Definition add_module (name : string) (w : World) : World :=
  MkWorld (fs w) (stdout w) (calls w) (draws w) (requests w)
          (name :: sys_modules w).

(** The entry point [parse] of a loaded candidate: it may change the file
    system, and returns or raises. *)
Definition entry_point (num : Type) : Type :=
  string -> gmap string node -> res (pyobj num) * gmap string node.

(** Executing a candidate module: its top-level code raises, or the module
    is loaded, with or without an attribute [parse]. *)
Inductive load_result (num : Type) :=
  | LoadRaise (e : exn) (fs' : gmap string node)
  | Loaded (fs' : gmap string node) (parse_attr : option (entry_point num)).
Arguments LoadRaise {num} e fs'.
Arguments Loaded {num} fs' parse_attr.

(** What the agent gets from its environment. *)
Class Host (num : Type) := {
  (** [os.urandom(4).hex()], by the number of earlier draws *)
  urandom_hex : nat -> string;
  (** [client.chat.completions.create(...)] up to
      [.choices[0].message.content], by the number of earlier requests and
      the prompt; the content may be [None] *)
  groq_complete : nat -> string -> res (option string);
  (** [spec.loader.exec_module(module)] for the module name and the file
      it is loaded from *)
  exec_module : string -> string -> gmap string node -> load_result num
}.

(** ** The monad of the agent: state and exceptions *)

Definition M (A : Type) : Type := World -> res A * World.

Definition ret {A} (a : A) : M A := fun w => (Ok a, w).

Definition bind {A B} (m : M A) (k : A -> M B) : M B := fun w =>
  match m w with
  | (Ok a, w1) => k a w1
  | (Raise e, w1) => (Raise e, w1)
  end.

Definition raise {A} (e : exn) : M A := fun w => (Raise e, w).

Definition lift {A} (r : res A) : M A := fun w => (r, w).

Notation "'let*' x ':=' m 'in' k" := (bind m (fun x => k))
  (at level 10, x pattern, m at level 100, k at level 200).
Notation "m ;; k" := (bind m (fun _ => k))
  (at level 100, k at level 200, right associativity).

(** [try: body finally: final] *)
Definition try_finally {A} (body : M A) (final : M unit) : M A := fun w =>
  let (r, w1) := body w in
  match final w1 with
  | (Ok _, w2) => (r, w2)
  | (Raise e, w2) => (Raise e, w2)
  end.

(** [try: body except Exception as e: handler e] *)
Definition try_except {A} (body : M A) (handler : exn -> M A) : M A := fun w =>
  match body w with
  | (Raise e, w1) => if is_Exception e then handler e w1 else (Raise e, w1)
  | (Ok a, w1) => (Ok a, w1)
  end.

Definition print (s : string) : M unit := fun w => (Ok tt, add_stdout s w).

Definition log (e : event) : M unit := fun w => (Ok tt, add_call e w).

(** [sys.exit(n)] *)
Definition sys_exit {A} (n : nat) : M A :=
  raise (Exn (SystemExit n) (pretty n)).

(** The exit status of the process for the result of [main]. *)
Definition exit_status (r : res unit) : nat :=
  match r with
  | Ok _ => 0
  | Raise e => match exc_cls e with SystemExit n => n | _ => 1 end
  end.

Definition nl : string := String "010" EmptyString.
Definition dq : string := String "034" EmptyString.

(** *** Paths and files *)

(** [Path(d) / name] as text. *)
Definition path_join (d name : string) : string := d +:+ "/" +:+ name.

(** The directory part of a path: the text before its last slash, empty
    for a path of the working directory. *)
Fixpoint dirname (p : string) : string :=
  match p with
  | EmptyString => EmptyString
  | String c p' =>
      if PyStr.contains "/" p' then String c (dirname p') else EmptyString
  end.

Definition no_such_file (p : string) : exn :=
  Exn FileNotFoundError ("[Errno 2] No such file or directory: '" +:+ p +:+ "'").
Definition is_a_directory (p : string) : exn :=
  Exn IsADirectoryError ("[Errno 21] Is a directory: '" +:+ p +:+ "'").
Definition not_a_directory (p : string) : exn :=
  Exn NotADirectoryError ("[Errno 20] Not a directory: '" +:+ p +:+ "'").
Definition file_exists (p : string) : exn :=
  Exn FileExistsError ("[Errno 17] File exists: '" +:+ p +:+ "'").

(** What keeps a new entry from being made under [p]: its directory part
    is missing, or is a regular file. *)
Definition parent_error (f : gmap string node) (p : string) : option exn :=
  if PyStr.is_empty (dirname p) then None
  else match f !! dirname p with
       | Some Dir => None
       | Some (File _) => Some (not_a_directory p)
       | None => Some (no_such_file p)
       end.

(** [Path(p).exists()] *)
Definition path_exists (p : string) : M bool := fun w =>
  (Ok (bool_decide (is_Some (fs w !! p))), w).

(** [Path(p).mkdir(exist_ok=True)] *)
Definition mkdir_exist_ok (p : string) : M unit := fun w =>
  match fs w !! p with
  | Some Dir => (Ok tt, w)
  | Some (File _) => (Raise (file_exists p), w)
  | None =>
      match parent_error (fs w) p with
      | None => (Ok tt, set_fs (<[p:=Dir]> (fs w)) w)
      | Some e => (Raise e, w)
      end
  end.

(** [Path(p).touch()] *)
Definition touch (p : string) : M unit := fun w =>
  match fs w !! p with
  | Some _ => (Ok tt, w)
  | None =>
      match parent_error (fs w) p with
      | None => (Ok tt, set_fs (<[p:=File EmptyString]> (fs w)) w)
      | Some e => (Raise e, w)
      end
  end.

(** Writing a whole file: [Path(p).write_text(text)], [df.to_csv(p)]. *)
Definition write_text (p text : string) : M unit := fun w =>
  match fs w !! p with
  | Some Dir => (Raise (is_a_directory p), w)
  | Some (File _) => (Ok tt, set_fs (<[p:=File text]> (fs w)) w)
  | None =>
      match parent_error (fs w) p with
      | None => (Ok tt, set_fs (<[p:=File text]> (fs w)) w)
      | Some e => (Raise e, w)
      end
  end.

(** [Path(p).unlink()] *)
Definition unlink (p : string) : M unit := fun w =>
  match fs w !! p with
  | Some (File _) => (Ok tt, set_fs (delete p (fs w)) w)
  | Some Dir => (Raise (is_a_directory p), w)
  | None => (Raise (no_such_file p), w)
  end.

(** Reading a whole file. *)
Definition read_text (p : string) : M string := fun w =>
  match fs w !! p with
  | Some (File text) => (Ok text, w)
  | Some Dir => (Raise (is_a_directory p), w)
  | None => (Raise (no_such_file p), w)
  end.

(** ** The agent *)

(** The text of the prompt. *)
Definition build_prompt (target expected_head : string) : string :=
  "
You are an expert Python developer specializing in data extraction from PDF files.
Your task is to write a Python script to parse a bank statement PDF and return a clean pandas DataFrame.

Target Bank: "
  +:+ target
  +:+ "

The parser MUST be a Python module containing one function: parse(pdf_path: str) -> pd.DataFrame

Follow these requirements precisely:
1.  Use the `camelot-py` library to extract tables. The PDF is stream-based, so use `flavor='stream'`.
2.  The PDF may have multiple pages. You MUST combine the tables from all pages into a single DataFrame.
3.  The raw table often contains header rows or garbage data. Identify and remove any rows that are not actual transactions. A row is likely a transaction if the first column contains a valid date.
4.  After cleaning, the DataFrame must have exactly these columns in this order: ['Date', 'Description', 'Debit Amt', 'Credit Amt', 'Balance']
5.  Data Cleaning:
    - 'Date' column should be a string in 'DD-MM-YYYY' format.
    - 'Description' column may have newlines (`\n`). Replace them with a space.
    - 'Debit Amt', 'Credit Amt', and 'Balance' columns MUST be numeric (float). Use `pd.to_numeric` with `errors='coerce'` to handle any non-numeric values, which will correctly convert them to `NaN`. Do NOT fill NaN with empty strings.

Here are the first few rows of the expected output DataFrame for guidance:
"
  +:+ expected_head
  +:+ "

Return ONLY the complete Python code for the parser module. Do not include any explanations, markdown, or introductory text.
    ".

(** [make_fallback_parser_code()] *)
Definition make_fallback_parser_code : string :=
  "
import pandas as pd
import camelot

def parse(pdf_path: str) -> pd.DataFrame:
    tables = camelot.read_pdf(pdf_path, pages="
  +:+ dq +:+
"all"
  +:+ dq +:+
", flavor="
  +:+ dq +:+
"stream"
  +:+ dq +:+
")
    if not tables:
        raise ValueError("
  +:+ dq +:+
"No tables found in PDF"
  +:+ dq +:+
")
    df = pd.concat([table.df for table in tables], ignore_index=True)
    header_index = -1
    for i, row in df.iterrows():
        if 'Date' in str(row[0]) and 'Description' in str(row[1]):
            header_index = i
            break
    if header_index != -1:
        df.columns = df.iloc[header_index]
        df = df.iloc[header_index + 1:].reset_index(drop=True)
    if df.shape[1] == 5:
        df.columns = ['Date', 'Description', 'Debit Amt', 'Credit Amt', 'Balance']
    else:
        df = df[df[0].str.match(r'\d{2}-\d{2}-\d{4}', na=False)]
        df = df.iloc[:, :5]
        df.columns = ['Date', 'Description', 'Debit Amt', 'Credit Amt', 'Balance']
    df['Description'] = df['Description'].str.replace('\n', ' ', regex=False).str.strip()
    for col in ['Debit Amt', 'Credit Amt', 'Balance']:
        df[col] = pd.to_numeric(df[col], errors='coerce')
    df.dropna(subset=['Date'], inplace=True)
    df = df[df['Date'].str.match(r'\d{2}-\d{2}-\d{4}', na=False)].reset_index(drop=True)
    return df
".

Section Agent.
Context {num : Type} `{EqDecision num} `{!Libs num} `{!Host num}.

(** [not code or not code.strip()] *)
Definition is_blank (code : string) : bool :=
  PyStr.is_empty code || PyStr.is_empty (PyStr.strip code).

(** [read_csv_as_df(csv_path)] *)
Definition read_csv_as_df (csv_path : string) : M (DataFrame num) :=
  let* text := read_text csv_path in
  let* df := lift (pd_read_csv text) in
  lift (coerce_columns numeric_names df).

(** Lines 40 to 48 of [run_generated_code]: the unique module name, the
    scratch directory and the scratch file, which receives [code]. *)
Definition prepare_scratch (code target : string) : M (string * string) :=
  let* suffix := (fun w => (Ok (urandom_hex (draws w)), add_draw w)) in
  let parser_module_name := target +:+ "_parser_" +:+ suffix in
  let temp_dir := "custom_parsers" in
  mkdir_exist_ok temp_dir ;;
  let parser_file := path_join temp_dir (parser_module_name +:+ ".py") in
  touch (path_join temp_dir "__init__.py") ;;
  write_text parser_file code ;;
  ret (parser_module_name, parser_file).

(** Lines 51 to 54: the module is registered in [sys.modules], then
    executed. *)
Definition load_module (name parser_file : string)
  : M (option (entry_point num)) := fun w =>
  let w := add_module name w in
  match exec_module name parser_file (fs w) with
  | LoadRaise e fs' => (Raise e, set_fs fs' w)
  | Loaded fs' parse_attr => (Ok parse_attr, set_fs fs' w)
  end.

(** Line 55: [module.parse(pdf_path)]. *)
Definition call_parse (name : string) (parse_attr : option (entry_point num))
  (pdf_path : string) : M (pyobj num) :=
  match parse_attr with
  | None =>
      raise (Exn AttributeError
               ("module '" +:+ name +:+ "' has no attribute 'parse'"))
  | Some parse => fun w =>
      let (r, fs') := parse pdf_path (fs w) in (r, set_fs fs' w)
  end.

(** Lines 58 and 59, the [finally] clause. *)
Definition remove_scratch (parser_file : string) : M unit :=
  let* there := path_exists parser_file in
  if there then unlink parser_file else ret tt.

(** [run_generated_code(code, pdf_path, target)] *)
Definition run_generated_code (code pdf_path target : string)
  : M (pyobj num) :=
  log (EvSandbox code) ;;
  let* (parser_module_name, parser_file) := prepare_scratch code target in
  try_finally
    (let name := "custom_parsers." +:+ parser_module_name in
     let* parse_attr := load_module name parser_file in
     call_parse name parse_attr pdf_path)
    (remove_scratch parser_file).

(** [ask_groq_for_parser(target, pdf_path, csv_path)] *)
Definition ask_groq_for_parser (target pdf_path csv_path : string)
  : M (option string) :=
  let* expected_df := read_csv_as_df csv_path in
  let expected_head := to_string (head 5 expected_df) in
  let prompt := build_prompt target expected_head in
  fun w =>
    (groq_complete (requests w) prompt, add_request (add_call (EvOracle prompt) w)).

Definition output_path (target : string) : string :=
  path_join "output" (target +:+ "_output.csv").

Definition success_message (target : string) : string :=
  "✅ Parser matched expected output!" +:+ nl +:+
  "   - Verification file saved to: " +:+ output_path target.

(** The lines of the diff that the failure message shows. *)
Definition diff_lines (expected df : DataFrame num) : list string :=
  take 40 (unified_diff (PyStr.splitlines (to_string expected))
                        (PyStr.splitlines (to_string df))).

Definition mismatch_message (expected df : DataFrame num) : string :=
  "Data mismatch. Debug:" +:+ nl +:+ PyStr.join nl (diff_lines expected df).

(** Lines 114 to 142 of [run_test]: the comparison of what the candidate
    returned with the reference. *)
Definition compare_with_reference (target csv_path : string) (result : pyobj num)
  : M (bool * string) :=
  let* expected := read_csv_as_df csv_path in
  match result with
  | PyOther repr =>
      raise (Exn AttributeError
               ("'" +:+ repr +:+ "' object has no attribute 'reset_index'"))
  | PyFrame df =>
      let df := reset_index df in
      let expected := reset_index expected in
      if bool_decide (columns df <> columns expected) then
        ret (false, "Mismatch columns." +:+ nl +:+
                    "Expected: " +:+ labels_repr (columns expected) +:+ nl +:+
                    "Got: " +:+ labels_repr (columns df))
      else if equals df expected then
        mkdir_exist_ok "output" ;;
        write_text (output_path target) (to_csv df) ;;
        ret (true, success_message target)
      else
        ret (false, mismatch_message expected df)
  end.

(** [run_test(target, pdf_path, csv_path, code)] *)
Definition run_test (target pdf_path csv_path code : string)
  : M (bool * string) :=
  log (EvValidate code) ;;
  if is_blank code then ret (false, "LLM returned empty code.")
  else
    let* ran :=
      try_except
        (let* df := run_generated_code code pdf_path target in ret (inl df))
        (fun e => ret (inr (false, "IMPORT/RUNTIME ERROR:" +:+ nl +:+ exc_str e)))
    in
    match ran with
    | inr verdict => ret verdict
    | inl df => compare_with_reference target csv_path df
    end.

Definition parser_path (target : string) : string :=
  path_join "custom_parsers" (target +:+ "_parser.py").

(** [save_parser_code(target, code)] *)
Definition save_parser_code (target code : string) : M unit :=
  if is_blank code then
    print "❌ ERROR: Attempted to save empty code. Aborting."
  else
    let output_dir := "custom_parsers" in
    mkdir_exist_ok output_dir ;;
    touch (path_join output_dir "__init__.py") ;;
    let parser_path := parser_path target in
    print (nl +:+ "Writing the following code to " +:+ parser_path +:+ ":") ;;
    print "--- CODE START ---" ;;
    print (PyStr.join nl (take 5 (PyStr.split_char "010" code))) ;;
    print "... (and more)" ;;
    print ("--- CODE END ---" +:+ nl) ;;
    write_text parser_path code ;;
    print ("✅ Successfully saved parser to " +:+ parser_path).

(** Lines 229 and 230 of [main]. *)
Definition strip_fence (code : string) : string :=
  if PyStr.startswith "```python" (PyStr.strip code)
  then PyStr.strip (PyStr.strip_backticks (PyStr.slice_from 9 (PyStr.strip code)))
  else code.

(** The body of the loop of [main] for one attempt; [true] when the loop
    is left with [success = True]. *)
Definition attempt (target pdf_path csv_path : string) (max_attempts n : nat)
  : M bool :=
  print ("--- ATTEMPT " +:+ pretty n +:+ "/" +:+ pretty max_attempts +:+ " ---") ;;
  try_except
    (log (EvGenerate n) ;;
     let* reply := ask_groq_for_parser target pdf_path csv_path in
     let* code :=
       match reply with
       | Some text => ret text
       | None => raise (Exn AttributeError
                          "'NoneType' object has no attribute 'strip'")
       end in
     let code := strip_fence code in
     let* (ok, message) := run_test target pdf_path csv_path code in
     if ok then
       print message ;;
       save_parser_code target code ;;
       ret true
     else
       print ("Attempt " +:+ pretty n +:+ " failed: " +:+ message) ;;
       ret false)
    (fun e =>
       print ("An unexpected error occurred in attempt " +:+ pretty n +:+ ": "
              +:+ exc_str e) ;;
       ret false).

(** [for attempt in range(1, max_attempts + 1)], with its [break]. *)
Fixpoint attempts (target pdf_path csv_path : string) (max_attempts : nat)
  (ns : list nat) : M bool :=
  match ns with
  | [] => ret false
  | n :: ns' =>
      let* success := attempt target pdf_path csv_path max_attempts n in
      if success then ret true
      else attempts target pdf_path csv_path max_attempts ns'
  end.

(** Lines 244 to 252 of [main]. *)
Definition fallback (target pdf_path csv_path : string) : M unit :=
  print (nl +:+ " LLM attempts exhausted — trying deterministic fallback parser.") ;;
  log EvFallback ;;
  let fb_code := make_fallback_parser_code in
  let* (ok, message) := run_test target pdf_path csv_path fb_code in
  if ok then
    print message ;;
    save_parser_code target fb_code
  else
    print ("❌ Fallback parser did NOT match expected CSV. Debug:" +:+ nl
           +:+ message).

(** Lines 215 and 216: where the sample and its reference are. *)
Definition sample_pdf_path (target : string) : string :=
  "data/" +:+ target +:+ "/" +:+ target +:+ "_sample.pdf".
Definition sample_csv_path (target : string) : string :=
  "data/" +:+ target +:+ "/" +:+ target +:+ "_sample.csv".

(** [main()], with [sys.argv] as [argv]. *)
Definition main (argv : list string) : M unit :=
  if (length argv <? 3)%nat
     || negb (String.eqb (nth 1 argv EmptyString) "--target") then
    print "Usage: python agent.py --target <bank_name>" ;;
    sys_exit 1
  else
    let target := nth 2 argv EmptyString in
    print (nl +:+ " Running agent for target: " +:+ target +:+ nl) ;;
    let pdf_path := sample_pdf_path target in
    let csv_path := sample_csv_path target in
    let* pdf_there := path_exists pdf_path in
    let* csv_there := if pdf_there then path_exists csv_path else ret false in
    if negb pdf_there || negb csv_there then
      print ("Error: Missing files. Ensure '" +:+ pdf_path +:+ "' and '"
             +:+ csv_path +:+ "' exist.") ;;
      sys_exit 1
    else
      let max_attempts := 3 in
      let* success :=
        attempts target pdf_path csv_path max_attempts (seq 1 max_attempts) in
      if negb success then fallback target pdf_path csv_path
      else ret tt.

End Agent.

(** ** A small instance, for the examples

    Numbers are integers; a text reads as a number when it is a decimal
    integer; a CSV file is read with all cells as text, an empty cell
    being the missing marker; the interpreter knows six programs. *)

Module Demo.

Fixpoint parse_digits (acc : Z) (s : string) : option Z :=
  match s with
  | EmptyString => Some acc
  | String c s' =>
      if PyStr.is_digit c
      then parse_digits (10 * acc + Z.of_nat (nat_of_ascii c - 48)) s'
      else None
  end.

Definition parse_int (s : string) : option Z :=
  match s with
  | EmptyString => None
  | String "-" (String c s') => Z.opp <$> parse_digits 0 (String c s')
  | _ => parse_digits 0 s
  end.

Definition show_cell (c : cell Z) : string :=
  match c with
  | VStr s => s
  | VNum x => pretty x
  | VNaN => "NaN"
  end.

Definition show_label (l : label Z) : string :=
  match l with
  | LPos n => pretty n
  | LVal c => show_cell c
  end.

Definition csv_cell (s : string) : cell Z :=
  if PyStr.is_empty s then VNaN else VStr s.

Definition read_csv (text : string) : res (DataFrame Z) :=
  match List.filter (fun l => negb (PyStr.is_empty l))
                    (PyStr.split_char "010" text) with
  | [] => Raise (Exn (OtherException "EmptyDataError")
                     "No columns to parse from file")
  | header :: lines =>
      let names := PyStr.split_char "," header in
      let rs := map (fun l => map csv_cell (PyStr.split_char "," l)) lines in
      Ok (Frame (map (fun n => LVal (VStr n)) names)
                (map (fun _ => DObject) names)
                (map LPos (seq 0 (length rs))) rs)
  end.

Definition render (sep : string) (df : DataFrame Z) : string :=
  PyStr.join nl
    (PyStr.join sep (map show_label (columns df)) ::
     map (fun r => PyStr.join sep (map show_cell r)) (rows df)).

Definition simple_diff (a b : list string) : list string :=
  if bool_decide (a = b) then []
  else ["--- "; "+++ "] ++ map (String.append "-") a
                        ++ map (String.append "+") b.

#[local] Instance libs : Libs Z := {|
  parse_number := parse_int;
  numeric_dtype := fun _ => DFloat64;
  pd_read_csv := read_csv;
  to_string := render " ";
  to_csv := render ",";
  labels_repr := fun ls => "[" +:+ PyStr.join ", " (map show_label ls) +:+ "]";
  num_str := pretty;
  unified_diff := simple_diff
|}.

(** The grids that the extraction collaborator finds in the sample. *)
Definition sample_grids : list grid :=
  [Grid 5 [["Date"; "Description"; "Debit Amt"; "Credit Amt"; "Balance"];
           ["01-04-2024"; "UPI Payment"; "500"; EmptyString; "10000"];
           ["Page 1 of 1"; EmptyString; EmptyString; EmptyString; EmptyString];
           ["02-04-2024"; "Salary" +:+ nl +:+ "April"; EmptyString; "n/a"; "12000"]]].

Definition sample_csv : string :=
  "Date,Description,Debit Amt,Credit Amt,Balance
01-04-2024,UPI Payment,500,,10000
02-04-2024,Salary April,,,12000
".

Definition load_error_program : string := "raise ValueError('boom')".
Definition run_error_program : string :=
  "def parse(pdf_path): raise ValueError('boom')".
Definition bad_syntax_program : string := "def parse(:".
Definition bad_import_program : string := "import nosuchmodule".
Definition no_entry_program : string := "x = 1".
Definition object_frame_program : string :=
  "def parse(pdf_path): return reference().astype(object)".

(** Two responses of an oracle: the program in a fence with the word
    python, and in a fence without it. *)
Definition python_fenced : string :=
  " " +:+ "```python" +:+ nl +:+ "x = 1" +:+ nl +:+ "```" +:+ nl.
Definition bare_fenced : string :=
  "```" +:+ nl +:+ "x = 1" +:+ nl +:+ "```".

(** The reference table of the sample, as [read_csv_as_df] loads it. *)
Definition reference : DataFrame Z :=
  Frame (map (fun n => LVal (VStr n))
             ["Date"; "Description"; "Debit Amt"; "Credit Amt"; "Balance"])
        [DObject; DObject; DFloat64; DFloat64; DFloat64]
        [LPos 0; LPos 1]
        [[VStr "01-04-2024"; VStr "UPI Payment"; VNum 500%Z; VNaN; VNum 10000%Z];
         [VStr "02-04-2024"; VStr "Salary April"; VNaN; VNaN; VNum 12000%Z]].

(** The same cells, every column stored as objects. *)
Definition object_frame : DataFrame Z :=
  Frame (columns reference) (map (fun _ => DObject) (dtypes reference))
        (index reference) (rows reference).

(** The interpreter, on the text of the file it is given. *)
Definition interpreter (name file : string) (f : gmap string node)
  : load_result Z :=
  match f !! file with
  | Some (File text) =>
      if String.eqb text load_error_program then
        LoadRaise (Exn ValueError "boom") f
      else if String.eqb text run_error_program then
        Loaded f (Some (fun _ f' => (Raise (Exn ValueError "boom"), f')))
      else if String.eqb text bad_syntax_program then
        LoadRaise (Exn SyntaxError "invalid syntax") f
      else if String.eqb text bad_import_program then
        LoadRaise (Exn ModuleNotFoundError "No module named 'nosuchmodule'") f
      else if String.eqb text object_frame_program then
        Loaded f (Some (fun _ f' => (Ok (PyFrame object_frame), f')))
      else if String.eqb text make_fallback_parser_code then
        Loaded f (Some (fun pdf_path f' =>
          (match fallback_parse (fun _ => Ok sample_grids) pdf_path with
           | Ok df => Ok (PyFrame df)
           | Raise e => Raise e
           end, f')))
      else Loaded f None
  | _ => LoadRaise (no_such_file file) f
  end.

(** A host whose oracle answers by [oracle]. *)
Definition host_with (oracle : nat -> string -> res (option string)) : Host Z := {|
  urandom_hex := fun n => "c0ffee0" +:+ pretty n;
  groq_complete := oracle;
  exec_module := interpreter
|}.

(** The oracle that always returns the empty text. *)
Definition silent_host : Host Z := host_with (fun _ _ => Ok (Some EmptyString)).

Definition empty_world : World := MkWorld ∅ [] [] 0 0 [].

(** A world with the sample and its reference. *)
Definition sample_world : World :=
  MkWorld {[ "data" := Dir;
             "data/icici" := Dir;
             "data/icici/icici_sample.pdf" := File "%PDF-1.4";
             "data/icici/icici_sample.csv" := File sample_csv ]}
          [] [] 0 0 [].

Definition sample_pdf : string := "data/icici/icici_sample.pdf".
Definition sample_ref : string := "data/icici/icici_sample.csv".
Definition scratch_name : string := "icici_parser_c0ffee00".
Definition scratch_file : string := "custom_parsers/icici_parser_c0ffee00.py".

(** The sample world when the fallback program has been run in the
    sandbox by [run_test]. *)
Definition after_fallback_run : World :=
  (run_generated_code (Host0 := silent_host) make_fallback_parser_code
     sample_pdf "icici"
     (add_call (EvValidate make_fallback_parser_code) sample_world)).2.

(** A world in which a parser was saved earlier. *)
Definition saved_world : World :=
  MkWorld {[ "custom_parsers" := Dir;
             "custom_parsers/icici_parser.py"
               := File "def parse(pdf_path): return frame" ]}
          [] [] 0 0 [].

End Demo.

(** ** Predicates of the statements *)

(** The text is empty or consists of whitespace only. *)
Definition whitespace_only (s : string) : Prop :=
  Forall (fun c => PyStr.is_space c = true) (list_ascii_of_string s).

(** A regular file is stored under the path. *)
Definition is_file (f : gmap string node) (p : string) : bool :=
  match f !! p with
  | Some (File _) => true
  | _ => false
  end.

Definition first_char (s : string) : option ascii :=
  match s with
  | EmptyString => None
  | String c _ => Some c
  end.

Fixpoint last_char (s : string) : option ascii :=
  match s with
  | EmptyString => None
  | String c EmptyString => Some c
  | String _ s' => last_char s'
  end.

(** The text neither starts nor ends with a whitespace character or a
    backtick. *)
Definition clean_edges (s : string) : Prop :=
  (forall c, first_char s = Some c ->
             PyStr.is_space c = false /\ PyStr.is_backtick c = false) /\
  (forall c, last_char s = Some c ->
             PyStr.is_space c = false /\ PyStr.is_backtick c = false).

(** The file system with the directory [p] made if nothing is stored
    under [p]. *)
Definition with_directory (p : string) (f : gmap string node)
  : gmap string node :=
  match f !! p with
  | None => <[p:=Dir]> f
  | Some _ => f
  end.

(** The errors of the file system. *)
Definition is_os_error (e : exn) : bool :=
  match exc_cls e with
  | FileExistsError | FileNotFoundError | IsADirectoryError
  | NotADirectoryError => true
  | _ => false
  end.

Section Statements.
Context {num : Type} `{EqDecision num} `{!Libs num} `{!Host num}.

(** The date cell of a row matches the pattern. *)
Definition date_ok (r : list (cell num)) : bool := str_match_cell (row_cell 0 r).

(** What the fallback parser is to make of a working row of five cells:
    the description is cleaned, the three amounts are cast. *)
Definition clean_row (r : list (cell num)) : list (cell num) :=
  match r with
  | [d; t; a; b; c] =>
      [d; clean_description t; coerce_cell a; coerce_cell b; coerce_cell c]
  | _ => r
  end.

(** The four column updates of [normalise], on one row. *)
Definition update_row (r : list (cell num)) : list (cell num) :=
  let r := <[1:=clean_description (row_cell 1 r)]> r in
  let r := <[2:=coerce_cell (row_cell 2 r)]> r in
  let r := <[3:=coerce_cell (row_cell 3 r)]> r in
  <[4:=coerce_cell (row_cell 4 r)]> r.

(** A frame of text: no cell holds a number. *)
Definition text_only (rs : list (list (cell num))) : Prop :=
  Forall (Forall (fun c => is_num_cell c = false)) rs.

(** An amount cell holds a number or the missing marker. *)
Definition is_amount (c : cell num) : bool :=
  match c with VStr _ => false | _ => true end.

(** The world of [run_test] when the candidate has been run, or has been
    refused as blank, and the comparison has not started. *)
Definition sandbox_world (code pdf_path target : string) (w : World) : World :=
  if is_blank code then add_call (EvValidate code) w
  else (run_generated_code code pdf_path target (add_call (EvValidate code) w)).2.

(** The candidate fails with [e], while its module is executed or in its
    entry point, and leaves the file system [f']. *)
Definition candidate_raises (name file pdf_path : string)
  (f : gmap string node) (e : exn) (f' : gmap string node) : Prop :=
  exec_module name file f = LoadRaise e f' \/
  exists f1 parse,
    exec_module name file f = Loaded f1 (Some parse) /\
    parse pdf_path f1 = (Raise e, f').

End Statements.

Definition is_generate (e : event) : bool :=
  match e with EvGenerate _ => true | _ => false end.

Definition is_fallback (e : event) : bool :=
  match e with EvFallback => true | _ => false end.

(** The computation leaves the log of calls as it is. *)
Definition keeps_calls {A} (m : M A) : Prop :=
  forall w, calls (m w).2 = calls w.

(** The computation adds to the log of calls only events of the kind [P]. *)
Definition emits {A} (P : event -> Prop) (m : M A) : Prop :=
  forall w, exists evs, calls (m w).2 = (calls w ++ evs)%list /\ Forall P evs.

Section Retry.
Context {num : Type} `{EqDecision num} `{!Libs num} `{!Host num}.

(** Every attempt of the list returns to the loop without success. *)
Fixpoint attempts_fail (target pdf_path csv_path : string) (max_attempts : nat)
  (ns : list nat) (w : World) : bool :=
  match ns with
  | [] => true
  | n :: ns' =>
      match attempt target pdf_path csv_path max_attempts n w with
      | (Ok false, w1) =>
          attempts_fail target pdf_path csv_path max_attempts ns' w1
      | _ => false
      end
  end.

(** The world in which the loop of [main] starts. *)
Definition loop_start (target : string) (w : World) : World :=
  add_stdout (nl +:+ " Running agent for target: " +:+ target +:+ nl) w.

(** Every generation attempt of the run of [main] from [w] fails. *)
Definition every_attempt_fails (target : string) (w : World) : bool :=
  attempts_fail target (sample_pdf_path target) (sample_csv_path target) 3
                (seq 1 3) (loop_start target w).

End Retry.

(** The events of one attempt, after the one that opens it. *)
Definition attempt_event (e : event) : Prop :=
  is_generate e = false /\ is_fallback e = false.

(** The program texts handed to the sandbox runner, in order. *)
Fixpoint sandboxed (evs : list event) : list string :=
  match evs with
  | [] => []
  | EvSandbox code :: evs' => code :: sandboxed evs'
  | _ :: evs' => sandboxed evs'
  end.

(** ** Predicates and models of the further properties *)

(** The banner of an attempt. *)
Definition attempt_banner (max_attempts n : nat) : string :=
  "--- ATTEMPT " +:+ pretty n +:+ "/" +:+ pretty max_attempts +:+ " ---".

Definition init_path : string := path_join "custom_parsers" "__init__.py".

Section Statements3.
Context {num : Type} `{EqDecision num} `{!Libs num} `{!Host num}.

(** The world in which [main] hands the fallback program to [run_test]. *)
Definition fallback_start (target : string) (w : World) : World :=
  add_call EvFallback
    (add_stdout (nl +:+ " LLM attempts exhausted — trying deterministic fallback parser.")
       (attempts target (sample_pdf_path target) (sample_csv_path target) 3
                 (seq 1 3) (loop_start target w)).2).

(** The candidate loaded from [file] leaves the file system [f] as it is,
    while its module is executed and in its entry point. *)
Definition candidate_neutral (name file pdf_path : string)
  (f : gmap string node) : Prop :=
  match exec_module name file f with
  | LoadRaise _ f' => f' = f
  | Loaded f' None => f' = f
  | Loaded f' (Some parse) => f' = f /\ (parse pdf_path f).2 = f
  end.

End Statements3.

Section Statements4.
Context {num : Type} `{EqDecision num} `{!Libs num}.

(** The number of columns of the frame that [pd.concat] builds. *)
Definition table_width (tables : list grid) : nat :=
  foldr (fun g => Nat.max (gwidth g)) 0 tables.

(** The test of line 159 on a row with two cells at least. *)
Definition is_header (r : list (cell num)) : bool :=
  PyStr.contains "Date" (py_str (row_cell 0 r)) &&
  PyStr.contains "Description" (py_str (row_cell 1 r)).

End Statements4.

(** ** The test of the saved parser, [test_parser.py] *)

Section TestParser.
Context {num : Type} `{EqDecision num} `{!Libs num}.

(** [test_icici_parser_output()], with the [parse] that line 5 imports from
    [custom_parsers.icici_parser].  A failed [assert] raises
    [AssertionError] with the message of line 30. *)
Definition test_icici_parser_output (parse : entry_point num) : M unit :=
  let pdf_path := "data/icici/icici_sample.pdf" in
  let csv_path := "data/icici/icici_sample.csv" in
  let* actual_df :=
    (fun w => let (r, fs') := parse pdf_path (fs w) in (r, set_fs fs' w)) in
  let* text := read_text csv_path in
  let* expected_df := lift (pd_read_csv text) in
  let* expected_df := lift (coerce_columns numeric_names expected_df) in
  match actual_df with
  | PyOther repr =>
      raise (Exn AttributeError
               ("'" +:+ repr +:+ "' object has no attribute 'reset_index'"))
  | PyFrame actual_df =>
      let actual_df := reset_index actual_df in
      let expected_df := reset_index expected_df in
      if equals actual_df expected_df then ret tt
      else raise (Exn (OtherException "AssertionError")
                      "Parsed DataFrame does not match the expected CSV.")
  end.

End TestParser.

(** ** The saved parser, [custom_parsers/icici_parser.py] *)

Module icici_parser.

(** [re.search] for the pattern [\d{2}-\d{2}-\d{4}]: the text from the
    first place at which the pattern matches. *)
Fixpoint date_search (s : string) : option string :=
  if PyStr.date_match s then Some s
  else match s with
       | EmptyString => None
       | String _ s' => date_search s'
       end.

Section Parser.
Context {num : Type} `{EqDecision num} `{!Libs num}.

(** [pd.concat(frames, ignore_index=True)]; an empty list is refused. *)
Definition pd_concat (tables : list grid) : res (DataFrame num) :=
  match tables with
  | [] => Raise (Exn ValueError "No objects to concatenate")
  | _ => Ok (concat tables)
  end.

(** [df.iloc[:, i]] *)
Definition iloc (df : DataFrame num) (i : nat) : res picked :=
  if (i <? ncols df)%nat then Ok (OneColumn i)
  else Raise (Exn (OtherException "IndexError")
                  "single positional indexer is out-of-bounds").

(** One cell of [.str.contains(r'\d{2}-\d{2}-\d{4}').fillna(False)]. *)
Definition str_contains_cell (c : cell num) : bool :=
  match c with
  | VStr s => bool_decide (is_Some (date_search s))
  | _ => false
  end.

(** One cell of [.str.extract(r'(\d{2}-\d{2}-\d{4})')]. *)
Definition str_extract_cell (c : cell num) : cell num :=
  match c with
  | VStr s =>
      match date_search s with
      | Some t => VStr (String.substring 0 10 t)
      | None => VNaN
      end
  | _ => VNaN
  end.

(** One cell of [.str.replace('\n', ' ')]. *)
Definition str_replace_cell (c : cell num) : cell num :=
  match c with
  | VStr s => VStr (PyStr.replace_char "010" " " s)
  | _ => VNaN
  end.

(** [df[name] = values]: the column of that name is replaced; a new name
    is appended as the last column. *)
Definition setitem (df : DataFrame num) (name : string) (dt : dtype)
  (values : list (cell num)) : DataFrame num :=
  match positions_from 0 (str_label name) (columns df) with
  | [] =>
      Frame (columns df ++ [str_label name])%list (dtypes df ++ [dt])%list (index df)
            (zip_with (fun r v => (r ++ [v])%list) (rows df) values)
  | ps => foldr (fun i d => set_column d i dt values) df ps
  end.

(** [df[names]] for a list of names. *)
Definition getitem_list (df : DataFrame num) (names : list string)
  : res (DataFrame num) :=
  let positions l := positions_from 0 (str_label l) (columns df) in
  let missing :=
    List.filter (fun l => bool_decide (positions l = [])) names in
  if bool_decide (missing = []) then
    let ps := flat_map positions names in
    Ok (Frame (flat_map (fun l => map (fun _ => str_label l) (positions l))
                        names)
              (map (column_dtype df) ps) (index df)
              (map (fun r => map (fun i => row_cell i r) ps) (rows df)))
  else if (length missing =? length names)%nat then
    Raise (Exn KeyError
             (dq +:+ "None of [Index(" +:+ labels_repr (map str_label names)
              +:+ ", dtype='object')] are in the [columns]" +:+ dq))
  else
    Raise (Exn KeyError
             (dq +:+ labels_repr (map str_label missing) +:+ " not in index"
              +:+ dq)).

(** Lines 9 to 19 of [parse]: the rows with a date are kept, the five named
    columns are appended, each read by position from the frame as it is by
    then, and selected. *)
Definition clean (df : DataFrame num) : res (DataFrame num) :=
  let+ p := iloc df 0 in
  let+ i := str_accessor df p in
  let df := filter_rows (fun r => str_contains_cell (row_cell i r)) df in
  let+ p := iloc df 0 in
  let+ i := str_accessor df p in
  let df := setitem df "Date" DObject
                    (map str_extract_cell (column_cells df i)) in
  let+ p := iloc df 1 in
  let+ i := str_accessor df p in
  let df := setitem df "Description" DObject
                    (map str_replace_cell (column_cells df i)) in
  let+ p := iloc df 2 in
  let+ (i, dt, values) := to_numeric ErrorsCoerce df p in
  let df := setitem df "Debit Amt" dt values in
  let+ p := iloc df 3 in
  let+ (i, dt, values) := to_numeric ErrorsCoerce df p in
  let df := setitem df "Credit Amt" dt values in
  let+ p := iloc df 4 in
  let+ (i, dt, values) := to_numeric ErrorsCoerce df p in
  let df := setitem df "Balance" dt values in
  getitem_list df schema_names.

(** The body of [parse] after [camelot.read_pdf] has returned [tables]. *)
Definition parse_tables (tables : list grid) : res (DataFrame num) :=
  let+ df := pd_concat tables in
  clean df.

(** [parse(pdf_path)], with [camelot.read_pdf(pdf_path, flavor='stream',
    pages='all')] as [read_pdf]. *)
Definition parse (read_pdf : string -> res (list grid)) (pdf_path : string)
  : res (DataFrame num) :=
  let+ tables := read_pdf pdf_path in
  parse_tables tables.

(** The cell that the assignment number [k] of [parse] computes from a
    row. *)
Definition new_cell (k : nat) (r : list (cell num)) : cell num :=
  match k with
  | 0 => str_extract_cell (row_cell 0 r)
  | 1 => str_replace_cell (row_cell 1 r)
  | _ => coerce_cell (row_cell k r)
  end.

(** A row after the first [k] assignments. *)
Fixpoint extend_row (k : nat) (r : list (cell num)) : list (cell num) :=
  match k with
  | 0 => r
  | S k' => (extend_row k' r ++ [new_cell k' (extend_row k' r)])%list
  end.

(** The five cells that [parse] makes of a row. *)
Definition parsed_row (r : list (cell num)) : list (cell num) :=
  drop (length r) (extend_row 5 r).

(** The row has a date somewhere in its first cell. *)
Definition has_date (r : list (cell num)) : bool :=
  str_contains_cell (row_cell 0 r).

(** What [parse] makes of a row of five cells or more. *)
Definition transaction_row (r : list (cell num)) : list (cell num) :=
  [str_extract_cell (row_cell 0 r); str_replace_cell (row_cell 1 r);
   coerce_cell (row_cell 2 r); coerce_cell (row_cell 3 r);
   coerce_cell (row_cell 4 r)].

End Parser.
End icici_parser.

(** ** More programs and tables, for the examples of the edge cases *)

Module Edge.

Definition exit_program : string := "import sys; sys.exit(2)".
Definition none_program : string := "def parse(pdf_path): return None".
Definition two_columns_program : string :=
  "def parse(pdf_path): return reference().iloc[:, :2]".

(** The first two columns of the reference. *)
Definition two_columns : DataFrame Z :=
  Frame (take 2 (columns Demo.reference)) (take 2 (dtypes Demo.reference))
        (index Demo.reference) (map (take 2) (rows Demo.reference)).

(** The interpreter of [Demo], which knows three programs more. *)
Definition interpreter (name file : string) (f : gmap string node)
  : load_result Z :=
  match f !! file with
  | Some (File text) =>
      if String.eqb text exit_program then
        LoadRaise (Exn (SystemExit 2) "2") f
      else if String.eqb text none_program then
        Loaded f (Some (fun _ f' => (Ok (PyOther "NoneType"), f')))
      else if String.eqb text two_columns_program then
        Loaded f (Some (fun _ f' => (Ok (PyFrame two_columns), f')))
      else Demo.interpreter name file f
  | _ => Demo.interpreter name file f
  end.

Definition host_with (oracle : nat -> string -> res (option string)) : Host Z := {|
  urandom_hex := fun n => "c0ffee0" +:+ pretty n;
  groq_complete := oracle;
  exec_module := interpreter
|}.

(** The oracle whose first answer is empty and whose later answers are the
    fallback program. *)
Definition second_time (n : nat) (prompt : string) : res (option string) :=
  match n with
  | 0 => Ok (Some EmptyString)
  | _ => Ok (Some make_fallback_parser_code)
  end.

(** A reference without the amount columns. *)
Definition short_csv : string :=
  "Date,Description
01-04-2024,UPI Payment
".

Definition short_world : World :=
  MkWorld {[ "data" := Dir;
             "data/icici" := Dir;
             "data/icici/icici_sample.pdf" := File "%PDF-1.4";
             "data/icici/icici_sample.csv" := File short_csv ]}
          [] [] 0 0 [].

(** A reference that the sample does not match. *)
Definition other_csv : string :=
  "Date,Description,Debit Amt,Credit Amt,Balance
01-04-2024,UPI Payment,1,,10000
".

Definition other_world : World :=
  MkWorld {[ "data" := Dir;
             "data/icici" := Dir;
             "data/icici/icici_sample.pdf" := File "%PDF-1.4";
             "data/icici/icici_sample.csv" := File other_csv ]}
          [] [] 0 0 [].

(** Tables of six columns with a header row, of three columns, and of six
    columns without a header row. *)
Definition header_grids : list grid :=
  [Grid 6 [["Date"; "Description"; "Debit Amt"; "Credit Amt"; "Balance"; "Ref"];
           ["01-04-2024"; "UPI Payment"; "500"; EmptyString; "10000"; "a1"]]].

Definition narrow_grids : list grid :=
  [Grid 3 [["01-04-2024"; "UPI Payment"; "500"]]].

Definition wide_grids : list grid :=
  [Grid 6 [["01-04-2024"; "UPI Payment"; "500"; EmptyString; "10000"; "a1"];
           ["Page 1 of 1"; EmptyString; EmptyString; EmptyString; EmptyString;
            EmptyString];
           ["Paid on 02-04-2024"; "Salary"; EmptyString; "2000"; "12000"; "a2"]]].

(** The sample reference as [Demo.read_csv] reads it: every cell a text or
    the missing marker. *)
Definition raw_reference : DataFrame Z :=
  Frame (columns Demo.reference) [DObject; DObject; DObject; DObject; DObject]
        [LPos 0; LPos 1]
        [[VStr "01-04-2024"; VStr "UPI Payment"; VStr "500"; VNaN; VStr "10000"];
         [VStr "02-04-2024"; VStr "Salary April"; VNaN; VNaN; VStr "12000"]].

(** What the saved parser makes of the sample. *)
Definition icici_frame : DataFrame Z :=
  Frame (columns Demo.reference) (dtypes Demo.reference) [LPos 1; LPos 3]
        (rows Demo.reference).

End Edge.

(** * Properties *)

(** ** Whitespace and stripping *)

Lemma lstrip_by_all p s :
  Forall (fun c => p c = true) (list_ascii_of_string s) ->
  PyStr.lstrip_by p s = EmptyString.
Proof.
  induction s as [|c s IH]; simpl; [done|].
  intros Hall. inversion Hall as [|? ? Hc Hs]; subst.
  rewrite Hc. by apply IH.
Qed.

Lemma strip_whitespace_only s :
  whitespace_only s -> PyStr.strip s = EmptyString.
Proof.
  intros Hs. unfold PyStr.strip, PyStr.strip_by.
  by rewrite (lstrip_by_all _ _ Hs).
Qed.

Lemma is_blank_whitespace_only s : whitespace_only s -> is_blank s = true.
Proof.
  intros Hs. unfold is_blank. rewrite (strip_whitespace_only _ Hs).
  simpl. by rewrite orb_true_r.
Qed.

(** ** [save_parser_code] *)

(** C10. For every empty or whitespace-only code text, [save_parser_code]
    returns after printing its error line only: the file system is the one
    it started from, so [custom_parsers/<target>_parser.py] is neither
    created nor overwritten and a parser saved earlier keeps its text. *)
Theorem save_parser_code_blank_keeps_files (target code : string) (w : World) :
  whitespace_only code ->
  save_parser_code target code w
  = (Ok tt, add_stdout "❌ ERROR: Attempted to save empty code. Aborting." w)
  /\ fs (save_parser_code target code w).2 = fs w
  /\ (save_parser_code target code w).2.(fs) !! parser_path target
     = fs w !! parser_path target.
Proof.
  intros Hs. unfold save_parser_code.
  rewrite (is_blank_whitespace_only _ Hs). done.
Qed.

Lemma save_parser_code_blank_witness :
  whitespace_only ("  " +:+ nl) /\
  fs (save_parser_code "icici" ("  " +:+ nl) Demo.saved_world).2
    !! parser_path "icici"
  = Some (File "def parse(pdf_path): return frame").
Proof.
  assert (Hws : whitespace_only ("  " +:+ nl)) by (repeat constructor).
  split; [exact Hws|].
  destruct (save_parser_code_blank_keeps_files "icici" _ Demo.saved_world Hws)
    as (_ & _ & ->).
  reflexivity.
Defined.

(** ** [main] and missing input *)

Section Main.
Context {num : Type} `{EqDecision num} `{!Libs num} `{!Host num}.

(** C7. If the input artifact or the reference file of the target does not
    exist, [main] prints its banner and the message about the missing files
    and exits with status 1; the log of calls (requests to the oracle,
    sandbox runs, validations) and the file system are as before. *)
Theorem main_missing_input (prog target : string) (rest : list string)
  (w : World) :
  fs w !! sample_pdf_path target = None \/
  fs w !! sample_csv_path target = None ->
  exit_status (main (prog :: "--target" :: target :: rest) w).1 = 1 /\
  stdout (main (prog :: "--target" :: target :: rest) w).2
  = (stdout w ++
     [nl +:+ " Running agent for target: " +:+ target +:+ nl;
      "Error: Missing files. Ensure '" +:+ sample_pdf_path target +:+ "' and '"
        +:+ sample_csv_path target +:+ "' exist."])%list /\
  calls (main (prog :: "--target" :: target :: rest) w).2 = calls w /\
  fs (main (prog :: "--target" :: target :: rest) w).2 = fs w.
Proof.
  intros Hmissing.
  unfold main, bind, print, path_exists, sys_exit, raise. cbn.
  destruct (fs w !! sample_pdf_path target) as [n1|] eqn:Hpdf; cbn.
  - destruct Hmissing as [?|Hcsv]; [done|].
    unfold ret. cbn. rewrite Hcsv. cbn.
    by rewrite <- app_assoc.
  - by rewrite <- app_assoc.
Qed.

End Main.

Lemma main_missing_input_witness :
  (fs Demo.empty_world !! sample_pdf_path "icici" = None \/
   fs Demo.empty_world !! sample_csv_path "icici" = None) /\
  exit_status
    (main (Libs0 := Demo.libs) (Host0 := Demo.silent_host)
          ["agent.py"; "--target"; "icici"] Demo.empty_world).1 = 1.
Proof.
  assert (Hmissing : fs Demo.empty_world !! sample_pdf_path "icici" = None \/
                     fs Demo.empty_world !! sample_csv_path "icici" = None)
    by (left; reflexivity).
  split; [exact Hmissing|].
  exact (proj1 (main_missing_input (Libs0 := Demo.libs)
                  (Host0 := Demo.silent_host)
                  "agent.py" "icici" [] Demo.empty_world Hmissing)).
Defined.

(** ** The numeric cast *)

Section Cast.
Context {num : Type} `{EqDecision num} `{!Libs num}.

(** What the cast makes of a cell: a text that reads as a number becomes
    that number, any other text the missing marker; numbers and missing
    markers stay. *)
Lemma to_numeric_cell_coerce (c : cell num) :
  to_numeric_cell ErrorsCoerce c = Ok (coerce_cell c).
Proof.
  destruct c as [s|x|]; simpl; [|done..].
  by destruct (parse_number s).
Qed.

Lemma res_mapM_coerce (cs : list (cell num)) :
  res_mapM (to_numeric_cell ErrorsCoerce) cs = Ok (map coerce_cell cs).
Proof.
  induction cs as [|c cs IH]; simpl; [done|].
  by rewrite to_numeric_cell_coerce, IH.
Qed.

End Cast.

(** ** Fence stripping *)

Lemma lstrip_by_app_all p a b :
  Forall (fun c => p c = true) (list_ascii_of_string a) ->
  PyStr.lstrip_by p (a +:+ b) = PyStr.lstrip_by p b.
Proof.
  induction a as [|c a IH]; simpl; [done|].
  intros Hall. inversion Hall as [|? ? Hc Ha]; subst.
  rewrite Hc. by apply IH.
Qed.

Lemma lstrip_by_first p s :
  (forall c, first_char s = Some c -> p c = false) ->
  PyStr.lstrip_by p s = s.
Proof.
  destruct s as [|c s]; simpl; [done|].
  intros Hc. by rewrite (Hc c eq_refl).
Qed.

Lemma rstrip_by_all p s :
  Forall (fun c => p c = true) (list_ascii_of_string s) ->
  PyStr.rstrip_by p s = EmptyString.
Proof.
  induction s as [|c s IH]; simpl; [done|].
  intros Hall. inversion Hall as [|? ? Hc Hs]; subst.
  by rewrite (IH Hs), Hc.
Qed.

Lemma rstrip_by_app_all p a b :
  Forall (fun c => p c = true) (list_ascii_of_string b) ->
  PyStr.rstrip_by p (a +:+ b) = PyStr.rstrip_by p a.
Proof.
  intros Hb. induction a as [|c a IH]; simpl.
  - by apply rstrip_by_all.
  - by rewrite IH.
Qed.

Lemma rstrip_by_last p s :
  (forall c, last_char s = Some c -> p c = false) ->
  PyStr.rstrip_by p s = s.
Proof.
  induction s as [|c s IH]; [done|].
  intros Hlast. simpl. destruct s as [|c' s].
  - simpl. by rewrite (Hlast c eq_refl).
  - rewrite IH by (intros c0 Hc0; by apply Hlast). done.
Qed.

Lemma first_char_app a b :
  first_char (a +:+ b) = match first_char a with
                         | Some c => Some c
                         | None => first_char b
                         end.
Proof. by destruct a. Qed.

Lemma append_empty_l (b : string) : EmptyString +:+ b = b.
Proof. reflexivity. Qed.

Lemma append_cons (c : ascii) (a b : string) :
  String c a +:+ b = String c (a +:+ b).
Proof. reflexivity. Qed.

Lemma last_char_cons (c : ascii) (s : string) :
  last_char (String c s) <> None.
Proof.
  revert c. induction s as [|c' s IH]; intros c; [done|].
  change (last_char (String c (String c' s))) with (last_char (String c' s)).
  apply IH.
Qed.

Lemma last_char_app a b :
  last_char (a +:+ b) = match last_char b with
                        | Some c => Some c
                        | None => last_char a
                        end.
Proof.
  induction a as [|c a IH].
  - rewrite append_empty_l. by destruct (last_char b).
  - rewrite append_cons.
    destruct a as [|c' a].
    + rewrite append_empty_l in *. simpl.
      destruct b as [|cb b]; [done|].
      change (last_char (String c (String cb b)))
        with (last_char (String cb b)).
      destruct (last_char (String cb b)) eqn:Hl; [done|].
      by apply last_char_cons in Hl.
    + rewrite append_cons in *.
      change (last_char (String c (String c' (a +:+ b))))
        with (last_char (String c' (a +:+ b))).
      rewrite IH. by destruct (last_char b).
Qed.

Lemma first_char_all p s c :
  Forall (fun c => p c = true) (list_ascii_of_string s) ->
  first_char s = Some c -> p c = true.
Proof.
  destruct s as [|c' s]; simpl; [done|].
  intros Hall [= <-]. by inversion Hall.
Qed.

Lemma last_char_all p s c :
  Forall (fun c => p c = true) (list_ascii_of_string s) ->
  last_char s = Some c -> p c = true.
Proof.
  induction s as [|c' s IH]; [done|].
  intros Hall Hlast. inversion Hall as [|? ? Hc Hs]; subst.
  destruct s as [|c'' s]; simpl in Hlast.
  - by injection Hlast as <-.
  - by apply IH.
Qed.

(** Stripping takes away a prefix and a suffix made of characters of the
    class, down to a text whose edges are not of the class. *)
Lemma strip_by_surround p a x b :
  Forall (fun c => p c = true) (list_ascii_of_string a) ->
  Forall (fun c => p c = true) (list_ascii_of_string b) ->
  (forall c, first_char x = Some c -> p c = false) ->
  (forall c, last_char x = Some c -> p c = false) ->
  PyStr.strip_by p (a +:+ x +:+ b) = x.
Proof.
  intros Ha Hb Hfirst Hlast. unfold PyStr.strip_by.
  rewrite lstrip_by_app_all by done.
  destruct x as [|c x].
  - rewrite append_empty_l. by rewrite (lstrip_by_all _ _ Hb).
  - rewrite append_cons, lstrip_by_first, <- append_cons.
    + rewrite rstrip_by_app_all by done. by apply rstrip_by_last.
    + intros c0 [= <-]. by apply Hfirst.
Qed.

Lemma space_not_backtick c :
  PyStr.is_space c = true -> PyStr.is_backtick c = false.
Proof.
  unfold PyStr.is_backtick. destruct (Ascii.eqb_spec c "`") as [->|]; [|done].
  by vm_compute.
Qed.

Lemma append_assoc (a b c : string) : (a +:+ b) +:+ c = a +:+ b +:+ c.
Proof.
  induction a as [|x a IH]; [done|].
  by rewrite !append_cons, IH.
Qed.

Lemma startswith_app (a b : string) : PyStr.startswith a (a +:+ b) = true.
Proof.
  unfold PyStr.startswith. induction a as [|c a IH].
  - rewrite append_empty_l. by destruct b.
  - rewrite append_cons. simpl. by destruct (ascii_dec c c).
Qed.

Lemma edges_not_backtick ws1 inner ws2 :
  whitespace_only ws1 -> whitespace_only ws2 -> clean_edges inner ->
  (forall c, first_char (ws1 +:+ inner +:+ ws2) = Some c ->
             PyStr.is_backtick c = false) /\
  (forall c, last_char (ws1 +:+ inner +:+ ws2) = Some c ->
             PyStr.is_backtick c = false).
Proof.
  intros H1 H2 [Hfirst Hlast]. split; intros c.
  - rewrite !first_char_app.
    destruct (first_char ws1) as [c1|] eqn:E1.
    { intros [= <-]. eauto using space_not_backtick, first_char_all. }
    destruct (first_char inner) as [ci|] eqn:Ei.
    { intros [= <-]. by apply Hfirst. }
    intros E2. eauto using space_not_backtick, first_char_all.
  - rewrite !last_char_app.
    destruct (last_char ws2) as [c2|] eqn:E2.
    { intros [= <-]. eauto using space_not_backtick, last_char_all. }
    destruct (last_char inner) as [ci|] eqn:Ei.
    { intros [= <-]. by apply Hlast. }
    intros E1. eauto using space_not_backtick, last_char_all.
Qed.

(** A response that consists of a fence opened by three backticks and the
    word python and closed by three backticks, with whitespace around the
    fence and around the program, is reduced to the program text between;
    the program text is taken without surrounding whitespace or backticks.
    (A response that does not start with such an opening is passed on as it
    is.) *)
Lemma strip_fence_python (pre ws1 inner ws2 post : string) :
  whitespace_only pre -> whitespace_only ws1 ->
  whitespace_only ws2 -> whitespace_only post ->
  clean_edges inner ->
  strip_fence (pre +:+ "```python" +:+ ws1 +:+ inner +:+ ws2 +:+ "```" +:+ post)
  = inner.
Proof.
  intros Hpre H1 H2 Hpost Hinner.
  set (body := ws1 +:+ inner +:+ ws2).
  set (fenced := "```python" +:+ body +:+ "```").
  assert (Hshape :
    pre +:+ "```python" +:+ ws1 +:+ inner +:+ ws2 +:+ "```" +:+ post
    = pre +:+ fenced +:+ post).
  { unfold fenced, body. by rewrite !append_assoc. }
  assert (Hstrip : PyStr.strip (pre +:+ fenced +:+ post) = fenced).
  { apply strip_by_surround; [done|done|..].
    - intros c [= <-]. done.
    - intros c. unfold fenced.
      rewrite (last_char_app "```python" (body +:+ "```")).
      rewrite (last_char_app body "```"). simpl. by intros [= <-]. }
  unfold strip_fence. rewrite Hshape, Hstrip.
  unfold fenced at 1. rewrite startswith_app.
  change (PyStr.slice_from 9 fenced) with (body +:+ "```").
  destruct (edges_not_backtick ws1 inner ws2 H1 H2 Hinner) as [Hf Hl].
  assert (Hticks : PyStr.strip_backticks (body +:+ "```") = body).
  { rewrite <- (append_empty_l (body +:+ "```")).
    apply strip_by_surround; [constructor|repeat constructor|done|done]. }
  rewrite Hticks. unfold body.
  destruct Hinner as [Hfirst Hlast].
  apply strip_by_surround; [done|done|..]; intros c Hc.
  - by apply Hfirst.
  - by apply Hlast.
Qed.

Example strip_fence_python_example :
  (whitespace_only " " /\ whitespace_only nl /\ clean_edges "x = 1") /\
  strip_fence (" " +:+ "```python" +:+ nl +:+ "x = 1" +:+ nl +:+ "```" +:+ nl)
  = "x = 1".
Proof.
  assert (Hsp : whitespace_only " ") by (repeat constructor).
  assert (Hnl : whitespace_only nl) by (repeat constructor).
  assert (Hin : clean_edges "x = 1").
  { split; intros c [= <-]; by vm_compute. }
  split; [done|].
  exact (strip_fence_python " " nl "x = 1" nl nl Hsp Hnl Hnl Hnl Hin).
Qed.

(** A response wrapped in a fence without the word python keeps its
    fence. *)
Lemma strip_fence_bare_fence_kept :
  strip_fence ("```" +:+ nl +:+ "x = 1" +:+ nl +:+ "```")
  = "```" +:+ nl +:+ "x = 1" +:+ nl +:+ "```" /\
  strip_fence ("```" +:+ nl +:+ "x = 1" +:+ nl +:+ "```") <> "x = 1".
Proof. split; [reflexivity|by vm_compute]. Qed.

(** ** The sandbox runner *)

Section Sandbox.
Context {num : Type} `{EqDecision num} `{!Libs num} `{!Host num}.

Lemma try_finally_world {A} (body : M A) (final : M unit) (w : World) :
  (try_finally body final w).2 = (final (body w).2).2.
Proof.
  unfold try_finally. destruct (body w) as [r w1]. simpl.
  by destruct (final w1) as [[[]|e] w2].
Qed.

Lemma remove_scratch_removes (file : string) (w : World) :
  is_file (fs (remove_scratch file w).2) file = false.
Proof.
  unfold remove_scratch, bind, path_exists, unlink, ret, is_file. simpl.
  destruct (fs w !! file) as [[text|]|] eqn:Hfile; simpl.
  - rewrite Hfile. simpl. by rewrite lookup_delete_eq.
  - rewrite Hfile. simpl. by rewrite Hfile.
  - by rewrite Hfile.
Qed.

(** The scratch file is prepared from the file system and the count of
    random draws alone. *)
Lemma prepare_scratch_add_call (code target : string) (e : event) (w : World) :
  prepare_scratch code target (add_call e w)
  = ((prepare_scratch code target w).1,
     add_call e (prepare_scratch code target w).2).
Proof.
  unfold prepare_scratch, bind, mkdir_exist_ok, touch, write_text, ret. simpl.
  repeat (case_match; simplify_eq/=; try done).
Qed.

(** When the scratch file cannot be prepared, the call raises the error of
    the preparation: the module is not loaded and nothing is cleaned up. *)
Lemma run_generated_code_prepare_fails (code pdf_path target : string)
  (w w1 : World) (e : exn) :
  prepare_scratch code target w = (Raise e, w1) ->
  run_generated_code code pdf_path target w
  = (Raise e, add_call (EvSandbox code) w1).
Proof.
  intros Hprep. unfold run_generated_code, bind, log. simpl.
  by rewrite prepare_scratch_add_call, Hprep.
Qed.


End Sandbox.

(** ** The validator *)

Section Validator.
Context {num : Type} `{EqDecision num} `{!Libs num} `{!Host num}.

Lemma read_csv_as_df_world (csv_path : string) (w : World) :
  (read_csv_as_df csv_path w).2 = w.
Proof.
  unfold read_csv_as_df, bind, read_text, lift.
  destruct (fs w !! csv_path) as [[text|]|]; simpl; try done.
  by destruct (pd_read_csv text).
Qed.

(** [run_test], step by step. *)
Lemma run_test_unfold (target pdf_path csv_path code : string) (w : World) :
  run_test target pdf_path csv_path code w
  = let w0 := add_call (EvValidate code) w in
    if is_blank code then (Ok (false, "LLM returned empty code."), w0)
    else match run_generated_code code pdf_path target w0 with
         | (Ok result, w1) => compare_with_reference target csv_path result w1
         | (Raise e, w1) =>
             if is_Exception e
             then (Ok (false, "IMPORT/RUNTIME ERROR:" +:+ nl +:+ exc_str e), w1)
             else (Raise e, w1)
         end.
Proof.
  unfold run_test, bind, log, try_except, ret. simpl.
  destruct (is_blank code); [done|].
  destruct (run_generated_code code pdf_path target _) as [[result|e] w1];
    simpl; [done|].
  by destruct (is_Exception e).
Qed.

(** The comparison, once the reference is loaded. *)
Lemma compare_with_reference_unfold (target csv_path : string)
  (df expected : DataFrame num) (w : World) :
  read_csv_as_df csv_path w = (Ok expected, w) ->
  compare_with_reference target csv_path (PyFrame df) w
  = if bool_decide (columns df <> columns expected) then
      (Ok (false, "Mismatch columns." +:+ nl +:+
                  "Expected: " +:+ labels_repr (columns expected) +:+ nl +:+
                  "Got: " +:+ labels_repr (columns df)), w)
    else if equals (reset_index df) (reset_index expected) then
      (mkdir_exist_ok "output" ;;
       write_text (output_path target) (to_csv (reset_index df)) ;;
       ret (true, success_message target)) w
    else (Ok (false, mismatch_message (reset_index expected) (reset_index df)), w).
Proof.
  intros Href. unfold compare_with_reference, bind at 1. rewrite Href.
  simpl. by repeat case_match.
Qed.

(** Saving the output either raises an error of the file system and
    changes no file, or writes the file, making the directory if it is not
    there. *)
Lemma save_output_cases (target text : string) (w : World) :
  let r := (mkdir_exist_ok "output" ;;
            write_text (output_path target) text ;;
            ret (true, success_message target)) w in
  (exists e, r.1 = Raise e /\ is_os_error e = true) \/
  (r.1 = Ok (true, success_message target) /\
   r.2 = set_fs (<[output_path target := File text]>
                   (with_directory "output" (fs w))) w).
Proof.
  assert (Hparent : forall f p e, parent_error f p = Some e ->
                                  is_os_error e = true).
  { intros f p e. unfold parent_error. by repeat case_match; intros [= <-]. }
  unfold bind, mkdir_exist_ok, write_text, ret, with_directory. simpl.
  destruct (fs w !! "output") as [[?|]|] eqn:Hout; simpl.
  - left. by eexists.
  - destruct (fs w !! output_path target) as [[?|]|] eqn:Hfile; simpl.
    + right. by destruct w.
    + left. by eexists.
    + destruct (parent_error (fs w) (output_path target)) eqn:Hp; simpl.
      * left. eauto.
      * right. by destruct w.
  - change (parent_error (fs w) "output") with (@None exn). simpl.
    destruct (<["output":=Dir]> (fs w) !! output_path target)
      as [[?|]|] eqn:Hfile; simpl.
    + right. done.
    + left. by eexists.
    + destruct (parent_error _ (output_path target)) eqn:Hp; simpl.
      * left. eauto.
      * right. done.
Qed.

(** C9. A pass verdict of [run_test] comes with a write: the candidate
    returned a table, and the world is the one left by the sandbox run with
    the CSV text of that table stored under [output/<target>_output.csv],
    the directory [output] being made if it was not there.  With a fail
    verdict the world is the one left by the sandbox run (or, for a blank
    candidate, the one at the start): the validator has written nothing. *)
Theorem validator_output_written (target pdf_path csv_path code : string)
  (verdict : bool) (message : string) (w w' : World) :
  run_test target pdf_path csv_path code w = (Ok (verdict, message), w') ->
  if verdict then
    exists df,
      (run_generated_code code pdf_path target
         (add_call (EvValidate code) w)).1 = Ok (PyFrame df) /\
      message = success_message target /\
      w' = set_fs (<[output_path target := File (to_csv (reset_index df))]>
                     (with_directory "output"
                        (fs (sandbox_world code pdf_path target w))))
                  (sandbox_world code pdf_path target w)
  else w' = sandbox_world code pdf_path target w.
Proof.
  rewrite run_test_unfold. unfold sandbox_world. simpl.
  destruct (is_blank code); [by intros [= <- <- <-]|].
  destruct (run_generated_code code pdf_path target _)
    as [[result|e] w1] eqn:Hrun; simpl.
  - pose proof (read_csv_as_df_world csv_path w1) as Hw.
    destruct (read_csv_as_df csv_path w1) as [[expected|e] w2] eqn:Href;
      simpl in Hw; subst w2.
    + destruct result as [df|repr].
      * rewrite (compare_with_reference_unfold _ _ _ _ _ Href).
        destruct (bool_decide (columns df <> columns expected));
          [by intros [= <- <- <-]|].
        destruct (equals (reset_index df) (reset_index expected));
          [|by intros [= <- <- <-]].
        destruct (save_output_cases target (to_csv (reset_index df)) w1)
          as [(e & He & _)|[Hok Hw1]]; intros Hres.
        -- rewrite Hres in He. done.
        -- rewrite Hres in Hok, Hw1. simpl in *. simplify_eq.
           by exists df.
      * unfold compare_with_reference, bind. by rewrite Href.
    + unfold compare_with_reference, bind. by rewrite Href.
  - destruct (is_Exception e); [by intros [= <- <- <-]|done].
Qed.

Lemma diff_lines_bounded (expected df : DataFrame num) :
  length (diff_lines expected df) <= 40.
Proof. unfold diff_lines. rewrite length_take. lia. Qed.

(** C3, as the code has it.  Let the candidate return a table whose column
    labels are those of the reference.  If the two tables also agree in the
    dtype of every column and in every cell (row positions apart, two
    missing markers being equal), [run_test] passes, unless saving the
    output raises an error of the file system.  If they differ in a dtype
    or in a cell, [run_test] fails with the message that shows the first 40
    lines, at most, of the unified diff of the two renderings. *)
Theorem validator_verdict (target pdf_path csv_path code : string)
  (df expected : DataFrame num) (w w1 : World) :
  is_blank code = false ->
  run_generated_code code pdf_path target (add_call (EvValidate code) w)
  = (Ok (PyFrame df), w1) ->
  read_csv_as_df csv_path w1 = (Ok expected, w1) ->
  columns df = columns expected ->
  (dtypes df = dtypes expected -> rows df = rows expected ->
   match (run_test target pdf_path csv_path code w).1 with
   | Ok v => v = (true, success_message target)
   | Raise e => is_os_error e = true
   end) /\
  (dtypes df <> dtypes expected \/ rows df <> rows expected ->
   run_test target pdf_path csv_path code w
   = (Ok (false, "Data mismatch. Debug:" +:+ nl +:+
                 PyStr.join nl (diff_lines (reset_index expected)
                                           (reset_index df))), w1) /\
   length (diff_lines (reset_index expected) (reset_index df)) <= 40).
Proof.
  intros Hcode Hrun Href Hcols.
  rewrite run_test_unfold. simpl. rewrite Hcode, Hrun.
  rewrite (compare_with_reference_unfold _ _ _ _ _ Href).
  rewrite bool_decide_eq_false_2 by (by intros []).
  split.
  - intros Hdt Hrows. unfold equals, reset_index. simpl.
    rewrite Hcols, Hdt, Hrows, !bool_decide_eq_true_2 by done. simpl.
    destruct (save_output_cases target (to_csv (reset_index df)) w1)
      as [(e & He & Hos)|[Hok _]].
    + unfold reset_index in He. simpl in He.
      rewrite Hcols, Hdt, Hrows in He. by rewrite He.
    + unfold reset_index in Hok. simpl in Hok.
      rewrite Hcols, Hdt, Hrows in Hok. by rewrite Hok.
  - intros Hdiff. split; [|apply diff_lines_bounded].
    assert (equals (reset_index df) (reset_index expected) = false) as ->; [|done].
    unfold equals, reset_index. simpl.
    destruct Hdiff as [Hdt|Hrows].
    + rewrite (bool_decide_eq_false_2 (dtypes df = dtypes expected)) by done.
      by rewrite andb_false_r.
    + rewrite (bool_decide_eq_false_2 (rows df = rows expected)) by done.
      by rewrite andb_false_r.
Qed.

Lemma run_generated_code_candidate_raises (code pdf_path target name file : string)
  (w w1 : World) (e : exn) (f' : gmap string node) :
  prepare_scratch code target w = (Ok (name, file), w1) ->
  candidate_raises ("custom_parsers." +:+ name) file pdf_path (fs w1) e f' ->
  f' !! file <> Some Dir ->
  (run_generated_code code pdf_path target w).1 = Raise e.
Proof.
  intros Hprep Hcand Hdir.
  unfold run_generated_code, bind, log. simpl.
  rewrite prepare_scratch_add_call, Hprep. simpl.
  unfold try_finally, bind, load_module, call_parse, remove_scratch, bind,
    path_exists, unlink, ret. simpl.
  destruct Hcand as [Hload|(f1 & parse & Hload & Hparse)]; rewrite Hload; simpl.
  - destruct (f' !! file) as [[?|]|] eqn:Hfile; simpl; try done.
    by rewrite Hfile.
  - rewrite Hparse. simpl.
    destruct (f' !! file) as [[?|]|] eqn:Hfile; simpl; try done.
    by rewrite Hfile.
Qed.

(** C6, as the code has it.  When the candidate raises [e], be it while
    its module is loaded or in its entry point, [run_generated_code] raises
    that same [e], of whatever class (provided the clean-up finds no
    directory under the scratch name); and [run_test] reports an [e] that
    is an [Exception] by the verdict fail and one message for both kinds,
    made of a fixed label and the text of [e]. *)
Theorem sandbox_failure_report (target pdf_path csv_path code name file : string)
  (w w1 : World) (e : exn) (f' : gmap string node) :
  prepare_scratch code target w = (Ok (name, file), w1) ->
  candidate_raises ("custom_parsers." +:+ name) file pdf_path (fs w1) e f' ->
  f' !! file <> Some Dir ->
  (run_generated_code code pdf_path target w).1 = Raise e /\
  (is_blank code = false -> is_Exception e = true ->
   (run_test target pdf_path csv_path code w).1
   = Ok (false, "IMPORT/RUNTIME ERROR:" +:+ nl +:+ exc_str e)).
Proof.
  intros Hprep Hcand Hdir. split.
  - by eapply run_generated_code_candidate_raises.
  - intros Hcode Hexc. rewrite run_test_unfold. simpl. rewrite Hcode.
    pose proof (run_generated_code_candidate_raises code pdf_path target
                  name file (add_call (EvValidate code) w)
                  (add_call (EvValidate code) w1) e f') as Hrun.
    rewrite prepare_scratch_add_call, Hprep in Hrun.
    specialize (Hrun eq_refl Hcand Hdir).
    destruct (run_generated_code code pdf_path target _) as [r w2].
    simpl in Hrun. subst r. by rewrite Hexc.
Qed.

End Validator.


(** ** The fallback parser *)

Section FallbackProps.
Context {num : Type} `{EqDecision num} `{!Libs num}.

Lemma zip_with_map_r {A B C} (f : A -> B -> C) (g : A -> B) (l : list A) :
  zip_with f l (map g l) = map (fun x => f x (g x)) l.
Proof. induction l as [|x l IH]; simpl; [done|]. by rewrite IH. Qed.

Lemma column_dtype_object (dts : list dtype) (cols idx : _) (rs : _) (i : nat) :
  Forall (fun d => d = DObject) dts ->
  column_dtype (Frame (num:=num) cols dts idx rs) i = DObject.
Proof.
  intros Hall. unfold column_dtype. simpl.
  destruct (dts !! i) as [d|] eqn:Hd; [|done].
  simpl. by eapply (Forall_lookup_1 _ _ _ _ Hall).
Qed.

(** The frame that [pd.concat] builds has [w] object columns and rows of
    [w] cells. *)
Lemma concat_shape (tables : list grid) :
  exists w,
    columns (concat (num:=num) tables) = range_index w /\
    dtypes (concat (num:=num) tables) = replicate w DObject /\
    Forall (fun r => length r = w) (rows (concat (num:=num) tables)).
Proof.
  unfold concat. eexists. split; [reflexivity|]. split; [reflexivity|].
  simpl. apply Forall_forall. intros r Hr.
  apply list_elem_of_In, in_flat_map in Hr as (g & _ & Hr).
  apply in_map_iff in Hr as (r0 & <- & _). by rewrite length_resize.
Qed.

Lemma positions_from_LPos_LVal (i n : nat) (cs : list (cell num)) :
  positions_from i (LPos n) (map LVal cs) = [].
Proof.
  revert i. induction cs as [|c cs IH]; intros i; simpl; [done|].
  destruct (decide (LVal c = LPos n)); [done|]. apply IH.
Qed.

Lemma length_range_index (w : nat) : length (range_index (num:=num) w) = w.
Proof. unfold range_index. by rewrite length_map, length_seq. Qed.

Lemma set_columns_ok (df df' : DataFrame num) (names : list (label num)) :
  set_columns df names = Ok df' ->
  length names = ncols df /\
  df' = Frame names (dtypes df) (index df) (rows df).
Proof.
  unfold set_columns.
  destruct (length names =? ncols df)%nat eqn:Hlen; [|done].
  apply Nat.eqb_eq in Hlen. by intros [= <-].
Qed.

Lemma assign_schema_inv (df mid : DataFrame num) (w : nat) :
  ncols df = w ->
  Forall (fun d => d = DObject) (dtypes df) ->
  Forall (fun r => length r = w) (rows df) ->
  assign_schema df = Ok mid ->
  columns mid = schema /\
  Forall (fun d => d = DObject) (dtypes mid) /\
  Forall (fun r => length r = 5) (rows mid).
Proof.
  intros Hw Hdt Hrows. unfold assign_schema.
  destruct (ncols df =? 5)%nat eqn:Hfive.
  - apply Nat.eqb_eq in Hfive. intros [_ ->]%set_columns_ok. simpl.
    split; [done|]. split; [done|]. subst w. by rewrite Hfive in Hrows.
  - destruct (getitem df (LPos 0)) as [p|e]; simpl; [|done].
    destruct (str_accessor df p) as [i|e]; simpl; [|done].
    intros [Hlen ->]%set_columns_ok. simpl in *.
    unfold ncols in Hlen. simpl in Hlen. rewrite length_take in Hlen.
    unfold ncols in Hw.
    split; [done|]. split; [by apply Forall_take|].
    apply Forall_map. eapply Forall_impl.
    { apply Forall_forall. intros r Hr. 
      apply list_elem_of_In, filter_In in Hr as [Hr _].
      apply list_elem_of_In in Hr.
      exact (proj1 (Forall_forall _ _) Hrows r Hr). }
    simpl. intros r Hr. rewrite length_take. 
    change (length schema) with 5 in Hlen. lia.
Qed.

Lemma select_rows_inv (tables : list grid) (mid : DataFrame num) :
  select_rows tables = Ok mid ->
  columns mid = schema /\
  Forall (fun d => d = DObject) (dtypes mid) /\
  Forall (fun r => length r = 5) (rows mid).
Proof.
  unfold select_rows. destruct tables as [|g tables]; [done|].
  destruct (concat_shape (g :: tables)) as (w & Hcols & Hdts & Hrows).
  set (df := concat (g :: tables)) in *.
  destruct (find_header 0 (rows df)) as [h|e]; simpl; [|done].
  unfold promote_header. case_bool_decide as Hh.
  - destruct (rows df !! Z.to_nat h) as [hr|] eqn:Hhr; simpl.
    + apply (assign_schema_inv _ _ w); simpl.
      * unfold ncols. simpl. rewrite length_map.
        exact (Forall_lookup_1 _ _ _ _ Hrows Hhr).
      * by apply Forall_replicate.
      * by apply Forall_drop.
    + unfold assign_schema. simpl. done.
  - apply (assign_schema_inv _ _ w).
    + unfold ncols. by rewrite Hcols, length_range_index.
    + rewrite Hdts. by apply Forall_replicate.
    + done.
Qed.


Lemma schema_positions :
  positions_from 0 (str_label "Date") (schema (num:=num)) = [0] /\
  positions_from 0 (str_label "Description") (schema (num:=num)) = [1] /\
  positions_from 0 (str_label "Debit Amt") (schema (num:=num)) = [2] /\
  positions_from 0 (str_label "Credit Amt") (schema (num:=num)) = [3] /\
  positions_from 0 (str_label "Balance") (schema (num:=num)) = [4].
Proof. repeat split; reflexivity. Qed.

Lemma str_accessor_ok (df : DataFrame num) (i j : nat) :
  str_accessor df (OneColumn i) = Ok j -> j = i.
Proof.
  unfold str_accessor. repeat case_match; congruence.
Qed.

Lemma coerce_columns_cons (col : string) (names : list string)
  (cols : list (label num)) (dts : list dtype) (idx : list (label num))
  (rs : list (list (cell num))) (i : nat) :
  positions_from 0 (str_label col) cols = [i] ->
  default DObject (dts !! i) = DObject ->
  coerce_columns (col :: names) (Frame cols dts idx rs)
  = coerce_columns names
      (Frame cols (<[i:=numeric_dtype (map (row_cell i) rs)]> dts) idx
             (map (fun r => <[i:=coerce_cell (row_cell i r)]> r) rs)).
Proof.
  intros Hpos Hdt. simpl. unfold getitem. simpl. rewrite Hpos. simpl.
  unfold to_numeric, column_dtype, column_cells. simpl. rewrite Hdt.
  rewrite res_mapM_coerce. simpl. unfold set_column. simpl.
  by rewrite map_map, zip_with_map_r.
Qed.

Lemma default_object (dts : list dtype) (i : nat) :
  Forall (fun d => d = DObject) dts -> default DObject (dts !! i) = DObject.
Proof.
  intros Hall. destruct (dts !! i) as [d|] eqn:Hd; [|done].
  simpl. exact (Forall_lookup_1 _ _ _ _ Hall Hd).
Qed.


Lemma update_row_five (r : list (cell num)) :
  length r = 5 ->
  update_row r = clean_row r /\ row_cell 0 (update_row r) = row_cell 0 r.
Proof.
  intros Hlen.
  destruct r as [|d [|t [|a [|b [|c [|? ?]]]]]]; simpl in Hlen; try lia.
  done.
Qed.

Lemma filter_update_rows (rs : list (list (cell num))) :
  Forall (fun r => length r = 5) rs ->
  List.filter (fun r => str_match_cell (row_cell 0 r))
    (List.filter (fun r => negb (is_nan_cell (row_cell 0 r)))
       (map update_row rs))
  = map clean_row (List.filter date_ok rs).
Proof.
  induction 1 as [|r rs Hr Hrs IH]; [done|].
  destruct (update_row_five r Hr) as [Hclean Hdate].
  cbn [List.filter map]. rewrite Hdate. unfold date_ok at 1.
  destruct (row_cell 0 r) as [s|x|] eqn:Hcell; cbn [is_nan_cell negb].
  - cbn [List.filter]. rewrite Hdate.
    destruct (str_match_cell (VStr s)); [|done].
    cbn [map]. by rewrite Hclean, IH.
  - cbn [List.filter]. rewrite Hdate. by cbn [str_match_cell].
  - by cbn [str_match_cell].
Qed.

Lemma normalise_spec (mid df : DataFrame num) :
  columns mid = schema ->
  Forall (fun d => d = DObject) (dtypes mid) ->
  Forall (fun r => length r = 5) (rows mid) ->
  normalise mid = Ok df ->
  columns df = schema /\
  rows df = map clean_row (List.filter date_ok (rows mid)).
Proof.
  destruct mid as [cols dts idx rs]. simpl. intros -> Hdts Hrows.
  destruct schema_positions as (Hp0 & Hp1 & Hp2 & Hp3 & Hp4).
  unfold normalise, getitem at 1. cbn [columns]. rewrite Hp1. cbn [res_bind].
  destruct (str_accessor _ (OneColumn 1)) as [i|e] eqn:Hacc; cbn [res_bind];
    [|done].
  apply str_accessor_ok in Hacc as ->.
  unfold set_column, column_cells. cbn [columns dtypes index rows].
  rewrite map_map, zip_with_map_r.
  unfold numeric_names.
  rewrite (coerce_columns_cons _ _ _ _ _ _ 2 Hp2)
    by (rewrite !list_lookup_insert_ne by done; by apply default_object).
  rewrite (coerce_columns_cons _ _ _ _ _ _ 3 Hp3)
    by (rewrite !list_lookup_insert_ne by done; by apply default_object).
  rewrite (coerce_columns_cons _ _ _ _ _ _ 4 Hp4)
    by (rewrite !list_lookup_insert_ne by done; by apply default_object).
  cbn [coerce_columns res_bind].
  unfold dropna, getitem. cbn [columns]. rewrite Hp0. cbn [res_bind].
  unfold filter_rows. cbn [columns]. rewrite Hp0. cbn [res_bind].
  destruct (str_accessor _ (OneColumn 0)) as [i|e] eqn:Hacc; cbn [res_bind];
    [|done].
  apply str_accessor_ok in Hacc as ->.
  intros [= <-]. unfold reset_index, filter_rows. cbn [columns rows].
  split; [done|].
  rewrite !map_map. by apply filter_update_rows.
Qed.



Lemma row_cell_text (r : list (cell num)) (i : nat) :
  Forall (fun c => is_num_cell c = false) r ->
  is_num_cell (row_cell i r) = false.
Proof.
  intros Hr. unfold row_cell. destruct (r !! i) as [c|] eqn:Hc; [|done].
  exact (Forall_lookup_1 _ _ _ _ Hr Hc).
Qed.

Lemma str_accessor_text (df : DataFrame num) (i : nat) :
  column_dtype df i = DObject ->
  Forall (fun c => is_num_cell c = false) (column_cells df i) ->
  str_accessor df (OneColumn i) = Ok i.
Proof.
  intros Hdt Hcells. unfold str_accessor. rewrite Hdt.
  destruct (List.filter _ (column_cells df i)) as [|c present] eqn:Hpresent;
    [done|].
  assert (Hc : In c (List.filter (fun c => negb (is_nan_cell c))
                                 (column_cells df i)))
    by (rewrite Hpresent; by left).
  apply filter_In in Hc as [Hc _]. apply list_elem_of_In in Hc.
  rewrite Forall_forall in Hcells. cbn [forallb].
  by rewrite (Hcells c Hc), andb_false_r.
Qed.

Lemma concat_text (tables : list grid) :
  text_only (rows (concat (num:=num) tables)).
Proof.
  unfold concat, text_only. simpl. apply Forall_forall. intros r Hr.
  apply list_elem_of_In, in_flat_map in Hr as (g & _ & Hr).
  apply in_map_iff in Hr as (r0 & <- & _).
  apply Forall_resize; [done|]. apply Forall_map. by apply Forall_true.
Qed.

Lemma filter_text (keep : list (cell num) -> bool) rs :
  text_only rs -> text_only (List.filter keep rs).
Proof.
  unfold text_only. rewrite !Forall_forall. intros Hrs r Hr.
  apply list_elem_of_In, filter_In in Hr as [Hr _].
  by apply Hrs, list_elem_of_In.
Qed.

Lemma assign_schema_text (df mid : DataFrame num) :
  text_only (rows df) -> assign_schema df = Ok mid -> text_only (rows mid).
Proof.
  intros Htext. unfold assign_schema.
  destruct (ncols df =? 5)%nat.
  - by intros [_ ->]%set_columns_ok.
  - destruct (getitem df (LPos 0)) as [p|e]; simpl; [|done].
    destruct (str_accessor df p) as [i|e]; simpl; [|done].
    intros [_ ->]%set_columns_ok. simpl.
    apply Forall_map. eapply Forall_impl; [by apply filter_text|].
    simpl. intros r Hr. by apply Forall_take.
Qed.

Lemma select_rows_text (tables : list grid) (mid : DataFrame num) :
  select_rows tables = Ok mid -> text_only (rows mid).
Proof.
  unfold select_rows. destruct tables as [|g tables]; [done|].
  pose proof (concat_text (g :: tables)) as Htext.
  set (df := concat (g :: tables)) in *.
  destruct (find_header 0 (rows df)) as [h|e]; cbn [res_bind]; [|done].
  apply assign_schema_text. unfold promote_header.
  case_bool_decide; [|done]. simpl. by apply Forall_drop.
Qed.

(** On the frames that [select_rows] returns, [normalise] returns. *)
Lemma normalise_total (mid : DataFrame num) :
  columns mid = schema ->
  Forall (fun d => d = DObject) (dtypes mid) ->
  Forall (fun r => length r = 5) (rows mid) ->
  text_only (rows mid) ->
  exists df, normalise mid = Ok df.
Proof.
  destruct mid as [cols dts idx rs]. simpl. intros -> Hdts Hrows Htext.
  destruct schema_positions as (Hp0 & Hp1 & Hp2 & Hp3 & Hp4).
  unfold normalise, getitem at 1. cbn [columns]. rewrite Hp1. cbn [res_bind].
  rewrite str_accessor_text; cycle 1.
  { by apply column_dtype_object. }
  { unfold column_cells. simpl. apply Forall_map.
    eapply Forall_impl; [exact Htext|]. intros r Hr. by apply row_cell_text. }
  cbn [res_bind].
  unfold set_column, column_cells. cbn [columns dtypes index rows].
  rewrite map_map, zip_with_map_r.
  unfold numeric_names.
  rewrite (coerce_columns_cons _ _ _ _ _ _ 2 Hp2)
    by (rewrite !list_lookup_insert_ne by done; by apply default_object).
  rewrite (coerce_columns_cons _ _ _ _ _ _ 3 Hp3)
    by (rewrite !list_lookup_insert_ne by done; by apply default_object).
  rewrite (coerce_columns_cons _ _ _ _ _ _ 4 Hp4)
    by (rewrite !list_lookup_insert_ne by done; by apply default_object).
  cbn [coerce_columns res_bind].
  unfold dropna, getitem. cbn [columns]. rewrite Hp0. cbn [res_bind].
  unfold filter_rows. cbn [columns]. rewrite Hp0. cbn [res_bind].
  rewrite str_accessor_text; [by eexists|..].
  - unfold column_dtype. cbn [dtypes].
    rewrite !list_lookup_insert_ne by done. by apply default_object.
  - unfold column_cells. cbn [rows]. rewrite !map_map.
    apply Forall_map, Forall_forall. intros r' Hr'.
    apply list_elem_of_In, filter_In in Hr' as [Hr' _].
    apply in_map_iff in Hr' as (r & <- & Hr). apply list_elem_of_In in Hr.
    rewrite Forall_forall in Hrows. unfold text_only in Htext.
    rewrite Forall_forall in Htext.
    destruct (update_row_five r (Hrows r Hr)) as [_ Hdate].
    unfold update_row in Hdate. rewrite Hdate.
    by apply row_cell_text, Htext.
Qed.



Lemma coerce_cell_amount (c : cell num) : is_amount (coerce_cell c) = true.
Proof. destruct c as [s|x|]; simpl; [|done..]. by destruct (parse_number s). Qed.


Lemma parse_tables_returns (tables : list grid) (mid : DataFrame num) :
  select_rows tables = Ok mid -> exists df, parse_tables tables = Ok df.
Proof.
  intros Hsel. unfold parse_tables. rewrite Hsel. cbn [res_bind].
  destruct (select_rows_inv _ _ Hsel) as (Hcols & Hdts & Hrows).
  apply normalise_total; [done..|]. by eapply select_rows_text.
Qed.

Lemma find_header_total (rs : list (list (cell num))) (i : nat) :
  Forall (fun r => 2 <= length r) rs ->
  exists h, find_header i rs = Ok h /\
            (h = (-1)%Z \/ exists r, rs !! (Z.to_nat h - i) = Some r /\ (i <= Z.to_nat h)).
Proof.
  intros Hrs. revert i. induction Hrs as [|r rs Hr Hrs IH]; intros i.
  - exists (-1)%Z. by split; [|left].
  - cbn [find_header]. unfold row_getitem.
    destruct r as [|c0 [|c1 r]]; simpl in Hr; try lia. simpl.
    assert (Hnext : exists h, find_header (S i) rs = Ok h /\
              (h = (-1)%Z \/ exists r0, ((c0 :: c1 :: r) :: rs) !! (Z.to_nat h - i) = Some r0
                                         /\ i <= Z.to_nat h)).
    { destruct (IH (S i)) as (h & Hh & [->|(r0 & Hr0 & Hle)]).
      - exists (-1)%Z. by split; [|left].
      - exists h. split; [done|]. right. exists r0. split; [|lia].
        replace (Z.to_nat h - i) with (S (Z.to_nat h - S i)) by lia. done. }
    destruct (PyStr.contains "Date" (py_str c0)); [|done].
    destruct (PyStr.contains "Description" (py_str c1)); [|done].
    exists (Z.of_nat i). split; [done|]. right.
    exists (c0 :: c1 :: r). rewrite Nat2Z.id, Nat.sub_diag. done.
Qed.


Lemma assign_schema_five (df : DataFrame num) :
  ncols df = 5 -> exists mid, assign_schema df = Ok mid.
Proof.
  intros Hfive. unfold assign_schema, set_columns. rewrite Hfive. cbn.
  by eexists.
Qed.

(** For a sequence of grids, not empty, whose widest grid has five columns,
    the parser returns a table. *)
Lemma parse_tables_five_wide (tables : list grid) :
  tables <> [] ->
  foldr (fun g => Nat.max (gwidth g)) 0 tables = 5 ->
  exists df, parse_tables (num:=num) tables = Ok df.
Proof.
  intros Hne Hwide.
  assert (exists mid, select_rows (num:=num) tables = Ok mid) as [mid Hmid];
    [|by eapply parse_tables_returns].
  unfold select_rows. destruct tables as [|g tables]; [done|].
  destruct (concat_shape (g :: tables)) as (w & Hcols & Hdts & Hrows).
  assert (w = 5) as ->.
  { unfold concat in Hcols. cbn [columns] in Hcols. rewrite Hwide in Hcols.
    apply (f_equal length) in Hcols. by rewrite !length_range_index in Hcols. }
  set (df := concat (g :: tables)) in *.
  destruct (find_header_total (rows df) 0) as (h & -> & Hh).
  { eapply Forall_impl; [exact Hrows|]. simpl. lia. }
  cbn [res_bind]. apply assign_schema_five. unfold promote_header.
  case_bool_decide as Hneg.
  - destruct Hh as [->|(r & Hr & _)]; [done|].
    rewrite Nat.sub_0_r in Hr. rewrite Hr. unfold ncols. cbn.
    by rewrite length_map, (Forall_lookup_1 _ _ _ _ Hrows Hr).
  - unfold ncols. by rewrite Hcols, length_range_index.
Qed.

End FallbackProps.

(** ** The retry controller *)

Section Controller.
Context {num : Type} `{EqDecision num} `{!Libs num} `{!Host num}.

Lemma keeps_calls_ret {A} (a : A) : keeps_calls (ret a).
Proof. done. Qed.

Lemma keeps_calls_raise {A} (e : exn) : keeps_calls (raise (A:=A) e).
Proof. done. Qed.

Lemma keeps_calls_lift {A} (r : res A) : keeps_calls (lift r).
Proof. done. Qed.

Lemma keeps_calls_bind {A B} (m : M A) (k : A -> M B) :
  keeps_calls m -> (forall a, keeps_calls (k a)) -> keeps_calls (bind m k).
Proof.
  intros Hm Hk w. unfold bind. specialize (Hm w).
  destruct (m w) as [[a|e] w1]; simpl in *; [|done].
  by rewrite Hk.
Qed.

Lemma keeps_calls_try_finally {A} (body : M A) (final : M unit) :
  keeps_calls body -> keeps_calls final -> keeps_calls (try_finally body final).
Proof. intros Hb Hf w. by rewrite try_finally_world, Hf, Hb. Qed.

Lemma keeps_calls_print (s : string) : keeps_calls (print s).
Proof. done. Qed.

Lemma keeps_calls_path_exists (p : string) : keeps_calls (path_exists p).
Proof. done. Qed.

Lemma keeps_calls_mkdir (p : string) : keeps_calls (mkdir_exist_ok p).
Proof. intros w. unfold mkdir_exist_ok. by repeat case_match. Qed.

Lemma keeps_calls_touch (p : string) : keeps_calls (touch p).
Proof. intros w. unfold touch. by repeat case_match. Qed.

Lemma keeps_calls_write_text (p text : string) : keeps_calls (write_text p text).
Proof. intros w. unfold write_text. by repeat case_match. Qed.

Lemma keeps_calls_unlink (p : string) : keeps_calls (unlink p).
Proof. intros w. unfold unlink. by repeat case_match. Qed.

Lemma keeps_calls_read_csv_as_df (csv_path : string) :
  keeps_calls (read_csv_as_df csv_path).
Proof. intros w. by rewrite read_csv_as_df_world. Qed.

Create HintDb calls.
#[local] Hint Resolve keeps_calls_ret keeps_calls_raise keeps_calls_lift
  keeps_calls_print keeps_calls_path_exists keeps_calls_mkdir
  keeps_calls_touch keeps_calls_write_text keeps_calls_unlink
  keeps_calls_read_csv_as_df : calls.

Ltac keeps :=
  repeat first
    [ progress auto with calls
    | apply keeps_calls_bind; [|intros ?]
    | apply keeps_calls_try_finally
    | match goal with
      | |- keeps_calls (match ?x with _ => _ end) => destruct x
      | |- keeps_calls (if ?x then _ else _) => destruct x
      end ].

Lemma keeps_calls_prepare_scratch (code target : string) :
  keeps_calls (prepare_scratch code target).
Proof. unfold prepare_scratch. keeps. done. Qed.

Lemma keeps_calls_remove_scratch (file : string) :
  keeps_calls (remove_scratch file).
Proof. unfold remove_scratch. keeps. Qed.

Lemma keeps_calls_load_module (name file : string) :
  keeps_calls (load_module name file).
Proof. intros w. unfold load_module. by case_match. Qed.

Lemma keeps_calls_call_parse (name : string) (attr : option (entry_point num))
  (pdf_path : string) : keeps_calls (call_parse name attr pdf_path).
Proof.
  intros w. unfold call_parse. destruct attr as [parse|]; [|done].
  by destruct (parse pdf_path (fs w)).
Qed.

Lemma keeps_calls_save_parser_code (target code : string) :
  keeps_calls (save_parser_code target code).
Proof. unfold save_parser_code. keeps. Qed.

Lemma keeps_calls_compare (target csv_path : string) (result : pyobj num) :
  keeps_calls (compare_with_reference target csv_path result).
Proof. unfold compare_with_reference. keeps. Qed.


#[local] Hint Resolve keeps_calls_prepare_scratch keeps_calls_remove_scratch
  keeps_calls_load_module keeps_calls_call_parse keeps_calls_save_parser_code
  keeps_calls_compare : calls.

Lemma log_then_calls {A} (e : event) (k : M A) (w : World) :
  keeps_calls k -> calls ((log e ;; k) w).2 = (calls w ++ [e])%list.
Proof. intros Hk. unfold bind, log. simpl. by rewrite Hk. Qed.

Lemma run_generated_code_calls (code pdf_path target : string) (w : World) :
  calls (run_generated_code code pdf_path target w).2
  = (calls w ++ [EvSandbox code])%list.
Proof.
  unfold run_generated_code. apply log_then_calls. keeps.
Qed.

Lemma run_test_calls (target pdf_path csv_path code : string) (w : World) :
  calls (run_test target pdf_path csv_path code w).2
  = (calls w ++ EvValidate code ::
       (if is_blank code then [] else [EvSandbox code]))%list.
Proof.
  rewrite run_test_unfold. cbn zeta.
  destruct (is_blank code); [done|].
  pose proof (run_generated_code_calls code pdf_path target
                (add_call (EvValidate code) w)) as Hrun.
  destruct (run_generated_code code pdf_path target _) as [[result|e] w1];
    simpl in Hrun.
  - rewrite keeps_calls_compare, Hrun. simpl. by rewrite <- app_assoc.
  - destruct (is_Exception e); simpl; rewrite Hrun; simpl;
      by rewrite <- app_assoc.
Qed.

Lemma try_except_calls {A} (body : M A) (handler : exn -> M A) (w : World) :
  (forall e, keeps_calls (handler e)) ->
  calls (try_except body handler w).2 = calls (body w).2.
Proof.
  intros Hh. unfold try_except.
  destruct (body w) as [[a|e] w1]; [done|].
  destruct (is_Exception e); [|done]. by rewrite Hh.
Qed.

Lemma emits_keeps {A} (P : event -> Prop) (m : M A) :
  keeps_calls m -> emits P m.
Proof. intros Hm w. exists []. by rewrite Hm, app_nil_r. Qed.

Lemma emits_bind {A B} (P : event -> Prop) (m : M A) (k : A -> M B) :
  emits P m -> (forall a, emits P (k a)) -> emits P (bind m k).
Proof.
  intros Hm Hk w. unfold bind. destruct (Hm w) as (evs & Hevs & HP).
  destruct (m w) as [[a|e] w1]; simpl in *; [|by exists evs].
  destruct (Hk a w1) as (evs' & Hevs' & HP').
  exists (evs ++ evs')%list. rewrite Hevs', Hevs, <- app_assoc.
  split; [done|]. by apply Forall_app.
Qed.

Lemma emits_ask (target pdf_path csv_path : string) :
  emits attempt_event (ask_groq_for_parser target pdf_path csv_path).
Proof.
  unfold ask_groq_for_parser. apply emits_bind.
  - apply emits_keeps. auto with calls.
  - intros expected w. eexists [_]. split; [reflexivity|].
    by repeat constructor.
Qed.

Lemma emits_run_test (target pdf_path csv_path code : string) :
  emits attempt_event (run_test target pdf_path csv_path code).
Proof.
  intros w. eexists. split; [apply run_test_calls|].
  destruct (is_blank code); by repeat constructor.
Qed.

Lemma attempt_calls (target pdf_path csv_path : string) (max_attempts n : nat)
  (w : World) :
  exists evs,
    calls (attempt target pdf_path csv_path max_attempts n w).2
    = (calls w ++ EvGenerate n :: evs)%list /\
    Forall attempt_event evs.
Proof.
  unfold attempt. unfold bind at 1. unfold print at 1. cbn [fst snd].
  rewrite try_except_calls by (intros e; keeps).
  match goal with
  | |- context [bind (log (EvGenerate n)) ?k] =>
      assert (Hk : emits attempt_event (k tt))
  end.
  { apply emits_bind; [apply emits_ask|]. intros reply.
    apply emits_bind.
    { apply emits_keeps. destruct reply; auto with calls. }
    intros code. apply emits_bind; [apply emits_run_test|].
    intros [ok message]. apply emits_keeps. destruct ok; keeps. }
  unfold bind at 1, log at 1. cbn [fst snd].
  match goal with
  | |- context [calls (?k0 ?w0).2] => destruct (Hk w0) as (evs & Hevs & HP)
  end.
  exists evs. split; [|done].
  etransitivity; [exact Hevs|]. simpl. by rewrite <- app_assoc.
Qed.


Lemma attempts_fail_calls (target pdf_path csv_path : string)
  (max_attempts : nat) (ns : list nat) (w : World) :
  attempts_fail target pdf_path csv_path max_attempts ns w = true ->
  exists gens,
    (attempts target pdf_path csv_path max_attempts ns w).1 = Ok false /\
    calls (attempts target pdf_path csv_path max_attempts ns w).2
    = (calls w ++ gens)%list /\
    List.filter is_generate gens = map EvGenerate ns /\
    Forall (fun e => is_fallback e = false) gens.
Proof.
  revert w. induction ns as [|n ns IH]; intros w; cbn [attempts_fail attempts].
  - intros _. exists []. by rewrite app_nil_r.
  - destruct (attempt_calls target pdf_path csv_path max_attempts n w)
      as (evs & Hevs & HP).
    unfold bind.
    destruct (attempt target pdf_path csv_path max_attempts n w)
      as [[[|]|e] w1]; try done.
    intros Hrest. destruct (IH w1 Hrest) as (gens & Hres & Hcalls & Hgen & Hfb).
    exists (EvGenerate n :: evs ++ gens)%list.
    split; [done|]. split; [|split].
    + rewrite Hcalls. simpl in Hevs. rewrite Hevs.
      by rewrite <- app_assoc.
    + cbn [List.filter is_generate map]. f_equal.
      rewrite List.filter_app, Hgen.
      replace (List.filter is_generate evs) with (@nil event); [done|].
      clear -HP. induction HP as [|e evs [He _] _ IH]; [done|].
      simpl. by rewrite He.
    + constructor; [done|]. apply Forall_app. split; [|done].
      eapply Forall_impl; [exact HP|]. by intros e [_ He].
Qed.





Lemma coerce_columns_exception (names : list string) (df : DataFrame num)
  (e : exn) :
  coerce_columns names df = Raise e -> is_Exception e = true.
Proof.
  revert df. induction names as [|col names IH]; intros df; [done|].
  cbn [coerce_columns]. unfold getitem.
  destruct (positions_from 0 (str_label col) (columns df)) as [|i [|j ps]];
    cbn [res_bind].
  - by intros [= <-].
  - unfold to_numeric. destruct (column_dtype df i); cbn [res_bind];
      try apply IH.
    rewrite res_mapM_coerce. cbn [res_bind]. apply IH.
  - by intros [= <-].
Qed.

Lemma read_csv_as_df_exception (csv_path : string) (w w' : World) (e : exn) :
  (forall text e, pd_read_csv text = Raise e -> is_Exception e = true) ->
  read_csv_as_df csv_path w = (Raise e, w') -> is_Exception e = true.
Proof.
  intros Hlib. unfold read_csv_as_df, bind, read_text, lift.
  destruct (fs w !! csv_path) as [[text|]|]; try by intros [= <- _].
  destruct (pd_read_csv text) as [df|e'] eqn:Hread.
  - intros Heq. pose proof (f_equal fst Heq) as Hco. cbn [fst] in Hco.
    exact (coerce_columns_exception _ _ _ Hco).
  - intros [= <- _]. by eapply Hlib.
Qed.

(** With an oracle that always returns the empty text, every attempt
    fails: the spec's example of the retry bound. *)
Lemma silent_oracle_attempts_fail (target pdf_path csv_path : string)
  (max_attempts : nat) (ns : list nat) (w : World) :
  (forall k prompt, groq_complete k prompt = Ok (Some EmptyString)) ->
  (forall text e, pd_read_csv text = Raise e -> is_Exception e = true) ->
  attempts_fail target pdf_path csv_path max_attempts ns w = true.
Proof.
  intros Hsilent Hlib. revert w.
  induction ns as [|n ns IH]; intros w; [done|].
  cbn [attempts_fail].
  assert (exists w1,
    attempt target pdf_path csv_path max_attempts n w = (Ok false, w1))
    as [w1 ->]; [|apply IH].
  unfold attempt. unfold bind at 1, print at 1. cbn [fst snd].
  unfold try_except. unfold bind at 1, log at 1. cbn [fst snd].
  unfold bind at 1. unfold ask_groq_for_parser. unfold bind at 1.
  match goal with
  | |- context [read_csv_as_df csv_path ?w0] =>
      pose proof (read_csv_as_df_world csv_path w0) as Hw;
      destruct (read_csv_as_df csv_path w0) as [[expected|e] w2] eqn:Href;
      simpl in Hw; subst w2
  end.
  - rewrite Hsilent. cbn [fst snd].
    unfold bind at 1, ret at 1. cbn [fst snd].
    unfold bind at 1. rewrite run_test_unfold. cbn zeta.
    change (is_blank (strip_fence EmptyString)) with true. cbn iota.
    unfold bind, print, ret. cbn. by eexists.
  - rewrite (read_csv_as_df_exception _ _ _ _ Hlib Href).
    unfold bind, print, ret. cbn. by eexists.
Qed.

Lemma sandboxed_app (a b : list event) :
  sandboxed (a ++ b) = (sandboxed a ++ sandboxed b)%list.
Proof.
  induction a as [|e a IH]; [done|]. destruct e; simpl; by rewrite IH.
Qed.

Lemma read_csv_as_df_fs (csv_path : string) (w w' : World) :
  fs w' = fs w ->
  (read_csv_as_df csv_path w').1 = (read_csv_as_df csv_path w).1.
Proof.
  intros Hfs. unfold read_csv_as_df, bind, read_text, lift. rewrite Hfs.
  destruct (fs w !! csv_path) as [[text|]|]; simpl; try done.
  by destruct (pd_read_csv text).
Qed.

Lemma clean_edges_not_blank (inner : string) :
  clean_edges inner -> inner <> EmptyString -> is_blank inner = false.
Proof.
  intros [Hfirst Hlast] Hne. unfold is_blank.
  destruct inner as [|c inner]; [done|]. cbn [PyStr.is_empty orb].
  unfold PyStr.strip, PyStr.strip_by.
  rewrite lstrip_by_first by (intros c0 Hc0; by apply Hfirst).
  rewrite rstrip_by_last by (intros c0 Hc0; by apply Hlast). done.
Qed.

(** What one attempt hands to the sandbox runner when the oracle has
    answered [reply]. *)
Lemma attempt_sandboxed (target pdf_path csv_path reply : string)
  (max_attempts n : nat) (expected : DataFrame num) (w : World) :
  (read_csv_as_df csv_path w).1 = Ok expected ->
  (forall prompt, groq_complete (requests w) prompt = Ok (Some reply)) ->
  sandboxed (calls (attempt target pdf_path csv_path max_attempts n w).2)
  = (sandboxed (calls w) ++
     (if is_blank (strip_fence reply) then [] else [strip_fence reply]))%list.
Proof.
  intros Href Hreply.
  unfold attempt. unfold bind at 1, print at 1. cbn [fst snd].
  rewrite try_except_calls by (intros e; keeps).
  unfold bind at 1, log at 1. cbn [fst snd].
  unfold bind at 1. unfold ask_groq_for_parser. unfold bind at 1.
  match goal with
  | |- context [read_csv_as_df csv_path ?w0] =>
      pose proof (read_csv_as_df_world csv_path w0) as Hw;
      pose proof (read_csv_as_df_fs csv_path w w0 eq_refl) as Hsame;
      destruct (read_csv_as_df csv_path w0) as [r w2];
      simpl in Hw, Hsame; subst w2; rewrite Href in Hsame; subst r
  end.
  cbn [requests add_call add_stdout]. rewrite Hreply. cbn [fst snd].
  unfold bind at 1, ret at 1. cbn [fst snd].
  unfold bind at 1.
  match goal with
  | |- context [run_test target pdf_path csv_path ?c ?w0] =>
      pose proof (run_test_calls target pdf_path csv_path c w0) as Hrun;
      destruct (run_test target pdf_path csv_path c w0)
        as [[[ok message]|e] w3]; simpl in Hrun
  end.
  - assert (Hk : keeps_calls (if ok then
        print message;; save_parser_code target (strip_fence reply);; ret true
      else print ("Attempt " +:+ pretty n +:+ " failed: " +:+ message);;
           ret false)) by (destruct ok; keeps).
    rewrite Hk, Hrun. rewrite !sandboxed_app.
    destruct (is_blank (strip_fence reply)); simpl; by rewrite !app_nil_r.
  - simpl. rewrite Hrun. rewrite !sandboxed_app.
    destruct (is_blank (strip_fence reply)); simpl; by rewrite !app_nil_r.
Qed.

(** C5, as the code has it.  When the oracle answers with a fence opened
    by three backticks and the word python and closed by three backticks,
    with whitespace around the fence and around a program that is not
    empty and has neither whitespace nor a backtick at its edges, the
    attempt hands to the sandbox runner exactly that program, once. *)
Theorem fenced_reply_sandboxed (target pdf_path csv_path : string)
  (max_attempts n : nat) (expected : DataFrame num) (w : World)
  (pre ws1 inner ws2 post : string) :
  whitespace_only pre -> whitespace_only ws1 ->
  whitespace_only ws2 -> whitespace_only post ->
  clean_edges inner -> inner <> EmptyString ->
  (read_csv_as_df csv_path w).1 = Ok expected ->
  (forall prompt,
     groq_complete (requests w) prompt
     = Ok (Some (pre +:+ "```python" +:+ ws1 +:+ inner +:+ ws2 +:+ "```"
                 +:+ post))) ->
  sandboxed (calls (attempt target pdf_path csv_path max_attempts n w).2)
  = (sandboxed (calls w) ++ [inner])%list.
Proof.
  intros Hpre H1 H2 Hpost Hinner Hne Href Hreply.
  rewrite (attempt_sandboxed _ _ _ _ _ _ _ _ Href Hreply).
  rewrite strip_fence_python by done.
  by rewrite (clean_edges_not_blank _ Hinner Hne).
Qed.

End Controller.

(** ** The examples of the sandbox and of the validator *)

Section Examples.
#[local] Existing Instance Demo.libs.
#[local] Existing Instance Demo.silent_host.


Lemma validator_output_written_witness :
  run_test "icici" Demo.sample_pdf Demo.sample_ref make_fallback_parser_code
           Demo.sample_world
  = (Ok (true, success_message "icici"),
     (run_test "icici" Demo.sample_pdf Demo.sample_ref
               make_fallback_parser_code Demo.sample_world).2) /\
  exists df,
    (run_generated_code make_fallback_parser_code Demo.sample_pdf "icici"
       (add_call (EvValidate make_fallback_parser_code) Demo.sample_world)).1
    = Ok (PyFrame df) /\
    success_message "icici" = success_message "icici" /\
    (run_test "icici" Demo.sample_pdf Demo.sample_ref
              make_fallback_parser_code Demo.sample_world).2
    = set_fs (<[output_path "icici" := File (to_csv (reset_index df))]>
                (with_directory "output"
                   (fs (sandbox_world make_fallback_parser_code
                          Demo.sample_pdf "icici" Demo.sample_world))))
             (sandbox_world make_fallback_parser_code Demo.sample_pdf "icici"
                Demo.sample_world).
Proof.
  assert (Hrun :
    run_test "icici" Demo.sample_pdf Demo.sample_ref make_fallback_parser_code
             Demo.sample_world
    = (Ok (true, success_message "icici"),
       (run_test "icici" Demo.sample_pdf Demo.sample_ref
                 make_fallback_parser_code Demo.sample_world).2))
    by (vm_compute; reflexivity).
  split; [exact Hrun|].
  exact (validator_output_written "icici" Demo.sample_pdf Demo.sample_ref
           make_fallback_parser_code true _ Demo.sample_world _ Hrun).
Defined.

Lemma validator_verdict_witness :
  (is_blank make_fallback_parser_code = false /\
   run_generated_code make_fallback_parser_code Demo.sample_pdf "icici"
     (add_call (EvValidate make_fallback_parser_code) Demo.sample_world)
   = (Ok (PyFrame Demo.reference), Demo.after_fallback_run) /\
   read_csv_as_df Demo.sample_ref Demo.after_fallback_run
   = (Ok Demo.reference, Demo.after_fallback_run) /\
   columns Demo.reference = columns Demo.reference) /\
  (run_test "icici" Demo.sample_pdf Demo.sample_ref make_fallback_parser_code
            Demo.sample_world).1
  = Ok (true, success_message "icici").
Proof.
  assert (Hcode : is_blank make_fallback_parser_code = false)
    by (vm_compute; reflexivity).
  assert (Hrun :
    run_generated_code make_fallback_parser_code Demo.sample_pdf "icici"
      (add_call (EvValidate make_fallback_parser_code) Demo.sample_world)
    = (Ok (PyFrame Demo.reference), Demo.after_fallback_run))
    by (vm_compute; reflexivity).
  assert (Href :
    read_csv_as_df Demo.sample_ref Demo.after_fallback_run
    = (Ok Demo.reference, Demo.after_fallback_run))
    by (vm_compute; reflexivity).
  split; [exact (conj Hcode (conj Hrun (conj Href eq_refl)))|].
  pose proof (proj1 (validator_verdict "icici" Demo.sample_pdf Demo.sample_ref
                       make_fallback_parser_code Demo.reference Demo.reference
                       Demo.sample_world _ Hcode Hrun Href eq_refl)
                eq_refl eq_refl) as Hpass.
  destruct (run_test "icici" Demo.sample_pdf Demo.sample_ref
              make_fallback_parser_code Demo.sample_world).1 as [v|e] eqn:Hres.
  - by rewrite Hpass.
  - exfalso. revert Hres. vm_compute. discriminate.
Defined.

(** C3, the claim as stated fails: a candidate whose table has the labels
    and, cell for cell, the values of the reference, stored in object
    columns, is rejected; in this instance the two renderings coincide and
    the message shows an empty diff. *)
Lemma equal_cells_rejected :
  columns Demo.object_frame = columns Demo.reference /\
  rows Demo.object_frame = rows Demo.reference /\
  (read_csv_as_df Demo.sample_ref Demo.sample_world).1 = Ok Demo.reference /\
  (run_generated_code Demo.object_frame_program Demo.sample_pdf "icici"
     Demo.sample_world).1 = Ok (PyFrame Demo.object_frame) /\
  (run_test "icici" Demo.sample_pdf Demo.sample_ref Demo.object_frame_program
            Demo.sample_world).1
  = Ok (false, "Data mismatch. Debug:" +:+ nl).
Proof. repeat split; vm_compute; reflexivity. Qed.

Lemma sandbox_failure_report_witness :
  (prepare_scratch Demo.load_error_program "icici" Demo.sample_world
   = (Ok (Demo.scratch_name, Demo.scratch_file),
      (prepare_scratch Demo.load_error_program "icici" Demo.sample_world).2) /\
   candidate_raises ("custom_parsers." +:+ Demo.scratch_name) Demo.scratch_file
     Demo.sample_pdf
     (fs (prepare_scratch Demo.load_error_program "icici" Demo.sample_world).2)
     (Exn ValueError "boom")
     (fs (prepare_scratch Demo.load_error_program "icici" Demo.sample_world).2) /\
   fs (prepare_scratch Demo.load_error_program "icici" Demo.sample_world).2
     !! Demo.scratch_file <> Some Dir) /\
  (run_generated_code Demo.load_error_program Demo.sample_pdf "icici"
     Demo.sample_world).1 = Raise (Exn ValueError "boom").
Proof.
  assert (Hprep :
    prepare_scratch Demo.load_error_program "icici" Demo.sample_world
    = (Ok (Demo.scratch_name, Demo.scratch_file),
       (prepare_scratch Demo.load_error_program "icici" Demo.sample_world).2))
    by (vm_compute; reflexivity).
  assert (Hcand :
    candidate_raises ("custom_parsers." +:+ Demo.scratch_name) Demo.scratch_file
      Demo.sample_pdf
      (fs (prepare_scratch Demo.load_error_program "icici" Demo.sample_world).2)
      (Exn ValueError "boom")
      (fs (prepare_scratch Demo.load_error_program "icici" Demo.sample_world).2))
    by (left; vm_compute; reflexivity).
  assert (Hdir :
    fs (prepare_scratch Demo.load_error_program "icici" Demo.sample_world).2
      !! Demo.scratch_file <> Some Dir)
    by (vm_compute; discriminate).
  split; [exact (conj Hprep (conj Hcand Hdir))|].
  exact (proj1 (sandbox_failure_report "icici" Demo.sample_pdf Demo.sample_ref
                  Demo.load_error_program _ _ Demo.sample_world _ _ _
                  Hprep Hcand Hdir)).
Defined.

(** C6, the claim as stated fails: a candidate with bad syntax makes the
    run fail with a [SyntaxError], which is no [ImportError]; an entry point
    that raises a [ValueError] makes it fail with that [ValueError], which
    is no [RuntimeError]; and a failure at load and a failure in the entry
    point with the same text give [run_test] the same result. *)
Lemma load_and_run_failures_alike :
  (run_generated_code Demo.bad_syntax_program Demo.sample_pdf "icici"
     Demo.sample_world).1 = Raise (Exn SyntaxError "invalid syntax") /\
  is_ImportError (Exn SyntaxError "invalid syntax") = false /\
  (run_generated_code Demo.run_error_program Demo.sample_pdf "icici"
     Demo.sample_world).1 = Raise (Exn ValueError "boom") /\
  is_RuntimeError (Exn ValueError "boom") = false /\
  (run_generated_code Demo.load_error_program Demo.sample_pdf "icici"
     Demo.sample_world).1 = Raise (Exn ValueError "boom") /\
  (run_test "icici" Demo.sample_pdf Demo.sample_ref Demo.load_error_program
            Demo.sample_world).1
  = (run_test "icici" Demo.sample_pdf Demo.sample_ref Demo.run_error_program
              Demo.sample_world).1.
Proof. repeat split; vm_compute; reflexivity. Qed.



End Examples.

Section FenceExamples.
#[local] Existing Instance Demo.libs.

Lemma fenced_reply_sandboxed_witness :
  (whitespace_only " " /\ whitespace_only nl /\ clean_edges "x = 1" /\
   "x = 1" <> EmptyString /\
   (read_csv_as_df Demo.sample_ref Demo.sample_world).1 = Ok Demo.reference) /\
  sandboxed
    (calls (attempt (Host0 := Demo.host_with (fun _ _ => Ok (Some Demo.python_fenced)))
                    "icici" Demo.sample_pdf Demo.sample_ref 3 1
                    Demo.sample_world).2)
  = (sandboxed (calls Demo.sample_world) ++ ["x = 1"])%list.
Proof.
  assert (Hsp : whitespace_only " ") by (repeat constructor).
  assert (Hnl : whitespace_only nl) by (repeat constructor).
  assert (Hin : clean_edges "x = 1")
    by (split; intros c [= <-]; by vm_compute).
  assert (Hne : "x = 1" <> EmptyString) by discriminate.
  assert (Href :
    (read_csv_as_df Demo.sample_ref Demo.sample_world).1 = Ok Demo.reference)
    by (vm_compute; reflexivity).
  split; [exact (conj Hsp (conj Hnl (conj Hin (conj Hne Href))))|].
  exact (fenced_reply_sandboxed
           (Host0 := Demo.host_with (fun _ _ => Ok (Some Demo.python_fenced)))
           "icici" Demo.sample_pdf Demo.sample_ref 3 1 Demo.reference
           Demo.sample_world " " nl "x = 1" nl nl
           Hsp Hnl Hnl Hnl Hin Hne Href (fun _ => eq_refl)).
Defined.

(** C5, the claim as stated fails: when the oracle wraps the program in a
    fence without the word python, the sandbox runner is handed the
    response with its fence, not the program. *)
Lemma bare_fence_sandboxed :
  sandboxed
    (calls (attempt (Host0 := Demo.host_with (fun _ _ => Ok (Some Demo.bare_fenced)))
                    "icici" Demo.sample_pdf Demo.sample_ref 3 1
                    Demo.sample_world).2)
  = ["```" +:+ nl +:+ "x = 1" +:+ nl +:+ "```"] /\
  "```" +:+ nl +:+ "x = 1" +:+ nl +:+ "```" <> "x = 1".
Proof. split; [vm_compute; reflexivity|by vm_compute]. Qed.

End FenceExamples.

(** * Further properties *)

Section AgentEdges.
Context {num : Type} `{EqDecision num} `{!Libs num} `{!Host num}.

(** X1. With fewer than two arguments, or a first argument other than
    [--target], [main] prints the usage line and exits with status 1,
    having done nothing else. *)
Theorem main_usage_error (argv : list string) (w : World) :
  length argv < 3 \/ nth 1 argv EmptyString <> "--target" ->
  main argv w
  = (Raise (Exn (SystemExit 1) (pretty 1)),
     add_stdout "Usage: python agent.py --target <bank_name>" w).
Proof.
  intros Hbad. unfold main.
  assert ((length argv <? 3)%nat
          || negb (String.eqb (nth 1 argv EmptyString) "--target") = true) as ->.
  { destruct Hbad as [Hlen|Hflag].
    - by rewrite (proj2 (Nat.ltb_lt _ _) Hlen).
    - apply orb_true_iff. right. apply negb_true_iff.
      destruct (String.eqb_spec (nth 1 argv EmptyString) "--target"); done. }
  done.
Qed.

(** X2. A candidate that is empty or whitespace is refused with the message
    of line 106, and nothing is run, read or written. *)
Theorem run_test_blank_code (target pdf_path csv_path code : string) (w : World) :
  whitespace_only code ->
  run_test target pdf_path csv_path code w
  = (Ok (false, "LLM returned empty code."), add_call (EvValidate code) w).
Proof.
  intros Hws. rewrite run_test_unfold. cbn zeta.
  by rewrite (is_blank_whitespace_only _ Hws).
Qed.

(** X3. A candidate whose table has other column labels than the reference is
    rejected with both lists of labels in the message, and no output file
    is written. *)
Theorem run_test_column_mismatch (target pdf_path csv_path code : string)
  (df expected : DataFrame num) (w w1 : World) :
  is_blank code = false ->
  run_generated_code code pdf_path target (add_call (EvValidate code) w)
  = (Ok (PyFrame df), w1) ->
  read_csv_as_df csv_path w1 = (Ok expected, w1) ->
  columns df <> columns expected ->
  run_test target pdf_path csv_path code w
  = (Ok (false, "Mismatch columns." +:+ nl +:+
                "Expected: " +:+ labels_repr (columns expected) +:+ nl +:+
                "Got: " +:+ labels_repr (columns df)), w1).
Proof.
  intros Hcode Hrun Href Hcols.
  rewrite run_test_unfold. cbn zeta. rewrite Hcode, Hrun.
  rewrite (compare_with_reference_unfold _ _ _ _ _ Href).
  by rewrite bool_decide_eq_true_2.
Qed.

Lemma run_test_after_run (target pdf_path csv_path code : string)
  (result : pyobj num) (w w1 : World) :
  is_blank code = false ->
  run_generated_code code pdf_path target (add_call (EvValidate code) w)
  = (Ok result, w1) ->
  run_test target pdf_path csv_path code w
  = compare_with_reference target csv_path result w1.
Proof.
  intros Hcode Hrun. rewrite run_test_unfold. cbn zeta.
  by rewrite Hcode, Hrun.
Qed.

(** X4. The validator guards the run of the candidate only: when the reference
    fails to load after the candidate has returned, [run_test] raises that
    error instead of returning a verdict. *)
Theorem run_test_reference_error_escapes (target pdf_path csv_path code : string)
  (result : pyobj num) (w w1 : World) (e : exn) :
  is_blank code = false ->
  run_generated_code code pdf_path target (add_call (EvValidate code) w)
  = (Ok result, w1) ->
  (read_csv_as_df csv_path w1).1 = Raise e ->
  run_test target pdf_path csv_path code w = (Raise e, w1).
Proof.
  intros Hcode Hrun Href.
  rewrite (run_test_after_run _ _ _ _ _ _ _ Hcode Hrun).
  pose proof (read_csv_as_df_world csv_path w1) as Hw.
  unfold compare_with_reference, bind.
  destruct (read_csv_as_df csv_path w1) as [r w2]. simpl in Hw, Href.
  by subst w2 r.
Qed.

(** X5. When the candidate returns something that is no table, [run_test]
    raises the [AttributeError] of the call to [reset_index] instead of
    returning a verdict. *)
Theorem run_test_not_a_frame (target pdf_path csv_path code repr : string)
  (expected : DataFrame num) (w w1 : World) :
  is_blank code = false ->
  run_generated_code code pdf_path target (add_call (EvValidate code) w)
  = (Ok (PyOther repr), w1) ->
  (read_csv_as_df csv_path w1).1 = Ok expected ->
  run_test target pdf_path csv_path code w
  = (Raise (Exn AttributeError
              ("'" +:+ repr +:+ "' object has no attribute 'reset_index'")),
     w1).
Proof.
  intros Hcode Hrun Href.
  rewrite (run_test_after_run _ _ _ _ _ _ _ Hcode Hrun).
  pose proof (read_csv_as_df_world csv_path w1) as Hw.
  unfold compare_with_reference, bind.
  destruct (read_csv_as_df csv_path w1) as [r w2]. simpl in Hw, Href.
  by subst w2 r.
Qed.

(** X6. An exception of the candidate that is no [Exception], such as
    [SystemExit] or [KeyboardInterrupt], is not turned into a verdict:
    [run_test] raises it. *)
Theorem run_test_passes_base_exception (target pdf_path csv_path code name file : string)
  (w w1 : World) (e : exn) (f' : gmap string node) :
  prepare_scratch code target w = (Ok (name, file), w1) ->
  candidate_raises ("custom_parsers." +:+ name) file pdf_path (fs w1) e f' ->
  f' !! file <> Some Dir ->
  is_blank code = false ->
  is_Exception e = false ->
  (run_test target pdf_path csv_path code w).1 = Raise e.
Proof.
  intros Hprep Hcand Hdir Hcode Hexc. rewrite run_test_unfold. cbn zeta.
  rewrite Hcode.
  pose proof (run_generated_code_candidate_raises code pdf_path target
                name file (add_call (EvValidate code) w)
                (add_call (EvValidate code) w1) e f') as Hrun.
  rewrite prepare_scratch_add_call, Hprep in Hrun.
  specialize (Hrun eq_refl Hcand Hdir).
  destruct (run_generated_code code pdf_path target _) as [r w2].
  simpl in Hrun. subst r. by rewrite Hexc.
Qed.

Lemma attempt_catches_exceptions (target pdf_path csv_path : string)
  (max_attempts n : nat) (w w' : World) (e : exn) :
  attempt target pdf_path csv_path max_attempts n w = (Raise e, w') ->
  is_Exception e = false.
Proof.
  unfold attempt. unfold bind at 1, print at 1. cbn [fst snd].
  unfold try_except.
  match goal with |- context [match ?b with _ => _ end] =>
    destruct b as [[a|e0] w1] end; [done|].
  destruct (is_Exception e0) eqn:Hexc.
  - unfold bind, print, ret. simpl. done.
  - by intros [= <- _].
Qed.

(** X7. The loop of attempts lets no [Exception] escape: whatever it raises is
    a [SystemExit] or a [KeyboardInterrupt]. *)
Theorem loop_catches_exceptions (target pdf_path csv_path : string)
  (max_attempts : nat) (ns : list nat) (w w' : World) (e : exn) :
  attempts target pdf_path csv_path max_attempts ns w = (Raise e, w') ->
  is_Exception e = false.
Proof.
  revert w. induction ns as [|n ns IH]; intros w; [done|].
  cbn [attempts]. unfold bind.
  destruct (attempt target pdf_path csv_path max_attempts n w)
    as [[[|]|e0] w1] eqn:Hatt.
  - done.
  - apply IH.
  - intros [= <- _]. by eapply attempt_catches_exceptions.
Qed.

End AgentEdges.

Section AgentEdges2.
Context {num : Type} `{EqDecision num} `{!Libs num} `{!Host num}.

(** X8. When the reference cannot be loaded, an attempt ends before any request
    is sent: it prints the error and returns to the loop without success,
    having changed nothing but the console and the log of calls. *)
Theorem attempt_reference_unreadable (target pdf_path csv_path : string)
  (max_attempts n : nat) (w : World) (e : exn) :
  (read_csv_as_df csv_path w).1 = Raise e ->
  is_Exception e = true ->
  attempt target pdf_path csv_path max_attempts n w
  = (Ok false,
     add_stdout ("An unexpected error occurred in attempt " +:+ pretty n
                 +:+ ": " +:+ exc_str e)
       (add_call (EvGenerate n)
          (add_stdout (attempt_banner max_attempts n) w))).
Proof.
  intros Href Hexc.
  unfold attempt. unfold bind at 1, print at 1. cbn [fst snd].
  unfold try_except. unfold bind at 1, log at 1. cbn [fst snd].
  unfold bind at 1. unfold ask_groq_for_parser. unfold bind at 1.
  match goal with
  | |- context [read_csv_as_df csv_path ?w0] =>
      pose proof (read_csv_as_df_world csv_path w0) as Hw;
      pose proof (read_csv_as_df_fs csv_path w w0 eq_refl) as Hsame;
      destruct (read_csv_as_df csv_path w0) as [r w2];
      simpl in Hw, Hsame; subst w2; rewrite Href in Hsame; subst r
  end.
  by rewrite Hexc.
Qed.

(** X9. When the completion service answers with no content, or fails with an
    exception, the attempt returns to the loop without success, after one
    request, with no candidate validated and the file system as it was. *)
Theorem attempt_oracle_failure (target pdf_path csv_path : string)
  (max_attempts n : nat) (expected : DataFrame num) (w : World) :
  (read_csv_as_df csv_path w).1 = Ok expected ->
  (groq_complete (requests w)
     (build_prompt target (to_string (head 5 expected))) = Ok None \/
   exists e, is_Exception e = true /\
     groq_complete (requests w)
       (build_prompt target (to_string (head 5 expected))) = Raise e) ->
  (attempt target pdf_path csv_path max_attempts n w).1 = Ok false /\
  calls (attempt target pdf_path csv_path max_attempts n w).2
  = (calls w ++ [EvGenerate n;
                 EvOracle (build_prompt target (to_string (head 5 expected)))])%list /\
  fs (attempt target pdf_path csv_path max_attempts n w).2 = fs w /\
  requests (attempt target pdf_path csv_path max_attempts n w).2
  = S (requests w).
Proof.
  intros Href Hreply.
  assert (exists w', attempt target pdf_path csv_path max_attempts n w
                     = (Ok false, w') /\
    calls w' = (calls w ++ [EvGenerate n;
        EvOracle (build_prompt target (to_string (head 5 expected)))])%list /\
    fs w' = fs w /\ requests w' = S (requests w)) as (w' & -> & Hw');
    [|done].
  unfold attempt. unfold bind at 1, print at 1. cbn [fst snd].
  unfold try_except. unfold bind at 1, log at 1. cbn [fst snd].
  unfold bind at 1. unfold ask_groq_for_parser. unfold bind at 1.
  match goal with
  | |- context [read_csv_as_df csv_path ?w0] =>
      pose proof (read_csv_as_df_world csv_path w0) as Hw;
      pose proof (read_csv_as_df_fs csv_path w w0 eq_refl) as Hsame;
      destruct (read_csv_as_df csv_path w0) as [r w2];
      simpl in Hw, Hsame; subst w2; rewrite Href in Hsame; subst r
  end.
  cbn [requests add_call add_stdout].
  destruct Hreply as [->|(e & Hexc & ->)]; cbn [fst snd].
  - unfold bind at 1, raise at 1. cbn [fst snd is_Exception exc_cls].
    unfold bind, print, ret. cbn. eexists. split; [reflexivity|].
    cbn. by rewrite <- app_assoc.
  - rewrite Hexc. unfold bind, print, ret. cbn. eexists.
    split; [reflexivity|]. cbn. by rewrite <- app_assoc.
Qed.

End AgentEdges2.

Lemma length_append (a b : string) :
  String.length (a +:+ b) = String.length a + String.length b.
Proof.
  induction a as [|c a IH]; [done|]. rewrite append_cons. simpl. by rewrite IH.
Qed.

Lemma contains_slash_cons (c : ascii) (s : string) :
  PyStr.contains "/" (String c s) = Ascii.eqb c "/" || PyStr.contains "/" s.
Proof.
  cbn [PyStr.contains]. f_equal.
  change (String.prefix "/" (String c s))
    with (if ascii_dec "/" c then String.prefix EmptyString s else false).
  destruct (ascii_dec "/" c) as [<-|Hne].
  - by destruct s.
  - symmetry. apply Ascii.eqb_neq. congruence.
Qed.

Lemma contains_slash_app (a b : string) :
  PyStr.contains "/" (a +:+ b)
  = PyStr.contains "/" a || PyStr.contains "/" b.
Proof.
  induction a as [|c a IH]; [done|].
  rewrite append_cons, !contains_slash_cons, IH. by rewrite orb_assoc.
Qed.

(** The directory part of [d / name] is [d] when [name] has no slash. *)
Lemma dirname_path_join (d name : string) :
  PyStr.contains "/" name = false -> dirname (path_join d name) = d.
Proof.
  intros Hname. unfold path_join. induction d as [|c d IH].
  - rewrite append_empty_l. change ("/" +:+ name) with (String "/" name).
    cbn [dirname]. by rewrite Hname.
  - rewrite append_cons. cbn [dirname]. rewrite IH.
    rewrite contains_slash_app.
    change ("/" +:+ name) with (String "/" name).
    rewrite contains_slash_cons. cbn. by rewrite orb_true_r.
Qed.

Lemma path_join_inj (d a b : string) : path_join d a = path_join d b -> a = b.
Proof.
  unfold path_join. induction d as [|c d IH].
  - intros Heq. change (String "/" a = String "/" b) in Heq. by injection Heq.
  - rewrite (append_cons c d), (append_cons c d). intros [= Heq]. by apply IH.
Qed.

Lemma path_join_ne_dir (d a : string) : path_join d a <> d.
Proof.
  intros Heq. apply (f_equal String.length) in Heq.
  unfold path_join in Heq. rewrite !length_append in Heq. simpl in Heq. lia.
Qed.

Lemma parser_path_ne_init (target : string) : parser_path target <> init_path.
Proof.
  unfold parser_path, init_path. intros Heq%path_join_inj.
  pose proof (f_equal String.length Heq) as Hlen.
  rewrite length_append in Hlen. simpl in Hlen.
  destruct target as [|c [|c' t]]; simpl in Hlen; try lia; discriminate.
Qed.

Lemma parent_error_in_dir (f : gmap string node) (d name : string) :
  PyStr.contains "/" name = false ->
  f !! d = Some Dir ->
  parent_error f (path_join d name) = None.
Proof.
  intros Hname Hd. unfold parent_error. rewrite (dirname_path_join _ _ Hname).
  rewrite Hd. by destruct (PyStr.is_empty d).
Qed.

(** X10. Saving a candidate that is not blank, for a target without a slash,
    succeeds when no regular file is in the way of the package directory
    and no directory in the way of the parser file: afterwards the parser
    file holds the candidate, the package directory and its [__init__.py]
    exist, and every other path is as it was. *)
Theorem save_parser_code_saves (target code : string) (w : World) :
  is_blank code = false ->
  PyStr.contains "/" target = false ->
  is_file (fs w) "custom_parsers" = false ->
  fs w !! parser_path target <> Some Dir ->
  (save_parser_code target code w).1 = Ok tt /\
  fs (save_parser_code target code w).2 !! parser_path target
  = Some (File code) /\
  fs (save_parser_code target code w).2 !! "custom_parsers" = Some Dir /\
  is_Some (fs (save_parser_code target code w).2 !! init_path) /\
  (forall p, p <> "custom_parsers" -> p <> init_path ->
             p <> parser_path target ->
             fs (save_parser_code target code w).2 !! p = fs w !! p).
Proof.
  intros Hcode Htarget Hpkg Hdir.
  assert (Hname : PyStr.contains "/" (target +:+ "_parser.py") = false).
  { rewrite contains_slash_app, Htarget. done. }
  assert (exists f',
    save_parser_code target code w
    = (Ok tt, set_fs f' (add_stdout ("✅ Successfully saved parser to "
                                      +:+ parser_path target)
        (add_stdout ("--- CODE END ---" +:+ nl)
        (add_stdout "... (and more)"
        (add_stdout (PyStr.join nl (take 5 (PyStr.split_char "010" code)))
        (add_stdout "--- CODE START ---"
        (add_stdout (nl +:+ "Writing the following code to "
                     +:+ parser_path target +:+ ":") w)))))))  /\
    f' !! parser_path target = Some (File code) /\
    f' !! "custom_parsers" = Some Dir /\
    is_Some (f' !! init_path) /\
    (forall p, p <> "custom_parsers" -> p <> init_path ->
               p <> parser_path target -> f' !! p = fs w !! p))
    as (f' & -> & Hf'); [|done].
  unfold save_parser_code. rewrite Hcode.
  (* the directory *)
  set (f1 := with_directory "custom_parsers" (fs w)).
  assert (Hf1 : f1 !! "custom_parsers" = Some Dir).
  { unfold f1, with_directory, is_file in *.
    destruct (fs w !! "custom_parsers") as [[?|]|] eqn:E; try done.
    by rewrite lookup_insert_eq. }
  assert (Hf1' : forall p, p <> "custom_parsers" -> f1 !! p = fs w !! p).
  { intros p Hp. unfold f1, with_directory.
    destruct (fs w !! "custom_parsers"); [done|]. by rewrite lookup_insert_ne. }
  assert (Hmk : mkdir_exist_ok "custom_parsers" w = (Ok tt, set_fs f1 w)).
  { unfold mkdir_exist_ok, f1, with_directory, is_file in *.
    destruct (fs w !! "custom_parsers") as [[?|]|] eqn:E; try done.
    by destruct w. }
  unfold bind at 1. rewrite Hmk. cbn [fst snd].
  (* the package file *)
  set (f2 := match f1 !! init_path with
             | Some _ => f1 | None => <[init_path:=File EmptyString]> f1 end).
  assert (Htouch : touch (path_join "custom_parsers" "__init__.py") (set_fs f1 w)
                   = (Ok tt, set_fs f2 w)).
  { unfold touch, f2. fold init_path. cbn [fs set_fs].
    destruct (f1 !! init_path) eqn:E; [done|].
    unfold init_path. rewrite parent_error_in_dir by done. done. }
  unfold bind at 1. rewrite Htouch. cbn [fst snd].
  assert (Hf2 : f2 !! "custom_parsers" = Some Dir).
  { unfold f2. destruct (f1 !! init_path); [done|].
    rewrite lookup_insert_ne; [done|]. apply path_join_ne_dir. }
  assert (Hf2i : is_Some (f2 !! init_path)).
  { unfold f2. destruct (f1 !! init_path) eqn:E; [by rewrite E|].
    by rewrite lookup_insert_eq. }
  assert (Hf2' : forall p, p <> "custom_parsers" -> p <> init_path ->
                           f2 !! p = fs w !! p).
  { intros p Hp Hi. unfold f2. destruct (f1 !! init_path).
    - by apply Hf1'.
    - rewrite lookup_insert_ne by done. by apply Hf1'. }
  unfold bind, print, write_text. cbn [fst snd fs set_fs add_stdout].
  assert (Hpp : f2 !! parser_path target = fs w !! parser_path target).
  { apply Hf2'; [apply path_join_ne_dir|apply parser_path_ne_init]. }
  rewrite Hpp.
  exists (<[parser_path target := File code]> f2).
  split.
  - destruct (fs w !! parser_path target) as [[?|]|] eqn:E; try done.
    unfold parser_path at 1. rewrite parent_error_in_dir by done. done.
  - split; [by rewrite lookup_insert_eq|].
    split.
    { rewrite lookup_insert_ne; [done|]. apply path_join_ne_dir. }
    split.
    { rewrite lookup_insert_ne; [done|]. apply parser_path_ne_init. }
    intros p Hp Hi Hpar. rewrite lookup_insert_ne by done. by apply Hf2'.
Qed.

Lemma output_ne_package (x : string) :
  output_path x <> "custom_parsers" /\
  output_path x <> init_path /\
  forall target, output_path x <> parser_path target.
Proof.
  unfold output_path, init_path, parser_path, path_join.
  split; [|split; [|intros target]]; intros Heq;
    apply (f_equal first_char) in Heq; discriminate.
Qed.

Lemma mkdir_frame (d p : string) (w w' : World) :
  mkdir_exist_ok d w = (Ok tt, w') -> p <> d -> fs w' !! p = fs w !! p.
Proof.
  unfold mkdir_exist_ok. intros Hmk Hp.
  repeat case_match; simplify_eq; try done.
  cbn. by rewrite lookup_insert_ne.
Qed.

Lemma touch_frame (d p : string) (w w' : World) :
  touch d w = (Ok tt, w') -> p <> d -> fs w' !! p = fs w !! p.
Proof.
  unfold touch. intros Hmk Hp.
  repeat case_match; simplify_eq; try done.
  cbn. by rewrite lookup_insert_ne.
Qed.

Lemma write_text_ok (d text : string) (w w' : World) :
  write_text d text w = (Ok tt, w') ->
  fs w' !! d = Some (File text) /\
  forall p, p <> d -> fs w' !! p = fs w !! p.
Proof.
  unfold write_text. intros Hmk.
  repeat case_match; simplify_eq; cbn;
    (split; [by rewrite lookup_insert_eq|]);
    intros p Hp; by rewrite lookup_insert_ne.
Qed.

(** What a call of [save_parser_code] that returns has done, for a text
    that is not blank. *)
Lemma save_parser_code_ok (target code : string) (w w' : World) :
  is_blank code = false ->
  save_parser_code target code w = (Ok tt, w') ->
  fs w' !! parser_path target = Some (File code) /\
  forall p, p <> "custom_parsers" -> p <> init_path ->
            p <> parser_path target -> fs w' !! p = fs w !! p.
Proof.
  intros Hcode. unfold save_parser_code. rewrite Hcode.
  unfold bind at 1.
  destruct (mkdir_exist_ok "custom_parsers" w) as [[[]|e] w1] eqn:Hmk; [|done].
  unfold bind at 1.
  destruct (touch (path_join "custom_parsers" "__init__.py") w1)
    as [[[]|e] w2] eqn:Htouch; [|done].
  unfold bind, print. cbn [fst snd].
  match goal with |- context [write_text ?p ?t ?w0] =>
    destruct (write_text p t w0) as [[[]|e] w3] eqn:Hwrite end; [|done].
  intros [= <-]. cbn [fs add_stdout].
  destruct (write_text_ok _ _ _ _ Hwrite) as [Hfile Hframe].
  split; [done|]. intros p Hp Hi Hpar.
  rewrite Hframe by done. cbn [fs add_stdout].
  rewrite (touch_frame _ _ _ _ Htouch) by done.
  by rewrite (mkdir_frame _ _ _ _ Hmk).
Qed.

Section Success.
Context {num : Type} `{EqDecision num} `{!Libs num} `{!Host num}.

(** A pass verdict of [run_test] leaves the output file written, and the
    candidate was not blank. *)
Lemma run_test_pass_written (target pdf_path csv_path code message : string)
  (w w' : World) :
  run_test target pdf_path csv_path code w = (Ok (true, message), w') ->
  is_blank code = false /\
  exists text, fs w' !! output_path target = Some (File text).
Proof.
  rewrite run_test_unfold. cbn zeta.
  destruct (is_blank code); [done|].
  destruct (run_generated_code code pdf_path target _)
    as [[result|e] w1] eqn:Hrun.
  - pose proof (read_csv_as_df_world csv_path w1) as Hw.
    destruct (read_csv_as_df csv_path w1) as [[expected|e] w2] eqn:Href;
      simpl in Hw; subst w2.
    + destruct result as [df|repr].
      * rewrite (compare_with_reference_unfold _ _ _ _ _ Href).
        destruct (bool_decide (columns df <> columns expected)); [done|].
        destruct (equals (reset_index df) (reset_index expected)); [|done].
        destruct (save_output_cases target (to_csv (reset_index df)) w1)
          as [(e & He & _)|[Hok Hw1]]; intros Hres.
        -- rewrite Hres in He. done.
        -- rewrite Hres in Hw1. simpl in Hw1. subst w'. cbn.
           split; [done|]. eexists. by rewrite lookup_insert_eq.
      * unfold compare_with_reference, bind. by rewrite Href.
    + unfold compare_with_reference, bind. by rewrite Href.
  - by destruct (is_Exception e).
Qed.

(** X11. When an attempt succeeds, a candidate that is not blank has been run in
    the sandbox, the parser file holds exactly that candidate, and the
    output file has been written. *)
Theorem attempt_success_artifacts (target pdf_path csv_path : string)
  (max_attempts n : nat) (w w' : World) :
  attempt target pdf_path csv_path max_attempts n w = (Ok true, w') ->
  exists code text,
    is_blank code = false /\
    In (EvSandbox code) (calls w') /\
    fs w' !! parser_path target = Some (File code) /\
    fs w' !! output_path target = Some (File text).
Proof.
  unfold attempt. unfold bind at 1, print at 1. cbn [fst snd].
  unfold try_except. unfold bind at 1, log at 1. cbn [fst snd].
  unfold bind at 1.
  match goal with |- context [ask_groq_for_parser ?a ?b ?c ?w0] =>
    destruct (ask_groq_for_parser a b c w0) as [[reply|e] w1] end;
    cbn [fst snd]; cycle 1.
  { destruct (is_Exception e); [|done]. unfold bind, print, ret. by cbn. }
  unfold bind at 1.
  destruct reply as [text0|]; cycle 1.
  { unfold raise. cbn. unfold bind, print, ret. by cbn. }
  unfold ret at 1. cbn [fst snd].
  unfold bind at 1.
  destruct (run_test target pdf_path csv_path (strip_fence text0) w1)
    as [[[ok message]|e] w2] eqn:Hrun; cycle 1.
  { destruct (is_Exception e); [|done]. unfold bind, print, ret. by cbn. }
  destruct ok; cycle 1.
  { unfold bind, print, ret. by cbn. }
  unfold bind at 1, print at 1. cbn [fst snd].
  unfold bind at 1.
  destruct (save_parser_code target (strip_fence text0) (add_stdout message w2))
    as [[[]|e] w3] eqn:Hsave; cycle 1.
  { destruct (is_Exception e); [|done]. unfold bind, print, ret. by cbn. }
  unfold ret. intros [= <-].
  destruct (run_test_pass_written _ _ _ _ _ _ _ Hrun) as [Hcode [text Hout]].
  destruct (save_parser_code_ok _ _ _ _ Hcode Hsave) as [Hfile Hframe].
  destruct (output_ne_package target) as (Ho1 & Ho2 & Ho3).
  exists (strip_fence text0), text. split; [done|]. split; [|split; [done|]].
  - pose proof (keeps_calls_save_parser_code target (strip_fence text0)
                  (add_stdout message w2)) as Hk.
    rewrite Hsave in Hk. cbn in Hk. rewrite Hk.
    pose proof (run_test_calls target pdf_path csv_path (strip_fence text0) w1)
      as Hc. rewrite Hrun, Hcode in Hc. cbn in Hc. rewrite Hc.
    apply in_or_app. right. right. by left.
  - rewrite Hframe by done. done.
Qed.

End Success.

Section Loop.
Context {num : Type} `{EqDecision num} `{!Libs num} `{!Host num}.

Lemma attempts_app (target pdf_path csv_path : string) (max_attempts : nat)
  (ns1 ns2 : list nat) (w : World) :
  attempts_fail target pdf_path csv_path max_attempts ns1 w = true ->
  attempts target pdf_path csv_path max_attempts (ns1 ++ ns2) w
  = attempts target pdf_path csv_path max_attempts ns2
      (attempts target pdf_path csv_path max_attempts ns1 w).2.
Proof.
  revert w. induction ns1 as [|n ns1 IH]; intros w; [done|].
  cbn [attempts_fail attempts app]. unfold bind.
  destruct (attempt target pdf_path csv_path max_attempts n w)
    as [[[|]|e] w1]; try done.
  apply IH.
Qed.

Lemma main_run (prog target : string) (rest : list string) (w : World) :
  is_Some (fs w !! sample_pdf_path target) ->
  is_Some (fs w !! sample_csv_path target) ->
  main (prog :: "--target" :: target :: rest) w
  = (let* success := attempts target (sample_pdf_path target)
                              (sample_csv_path target) 3 (seq 1 3) in
     if negb success
     then fallback target (sample_pdf_path target) (sample_csv_path target)
     else ret tt) (loop_start target w).
Proof.
  intros Hpdf Hcsv. unfold main. cbn [length Nat.ltb Nat.leb nth orb negb].
  change (String.eqb "--target" "--target") with true. cbn [negb orb].
  unfold bind at 1, print at 1. cbn [fst snd].
  fold (loop_start target w).
  unfold bind at 1, path_exists at 1.
  change (fs (loop_start target w)) with (fs w).
  rewrite (bool_decide_eq_true_2 _ Hpdf).
  unfold bind at 1, path_exists at 1.
  change (fs (loop_start target w)) with (fs w).
  by rewrite (bool_decide_eq_true_2 _ Hcsv).
Qed.

(** X12. [main] stops at the first attempt that succeeds: it returns normally,
    the later attempts are not made and the fallback program is not
    taken. *)
Theorem main_stops_at_success (prog target : string) (rest : list string)
  (ns1 ns2 : list nat) (n : nat) (w w' : World) :
  is_Some (fs w !! sample_pdf_path target) ->
  is_Some (fs w !! sample_csv_path target) ->
  seq 1 3 = (ns1 ++ n :: ns2)%list ->
  attempts_fail target (sample_pdf_path target) (sample_csv_path target) 3
                ns1 (loop_start target w) = true ->
  attempt target (sample_pdf_path target) (sample_csv_path target) 3 n
    (attempts target (sample_pdf_path target) (sample_csv_path target) 3
              ns1 (loop_start target w)).2 = (Ok true, w') ->
  main (prog :: "--target" :: target :: rest) w = (Ok tt, w') /\
  exists evs,
    calls w' = (calls w ++ evs)%list /\
    List.filter is_generate evs = map EvGenerate (ns1 ++ [n]) /\
    Forall (fun e => is_fallback e = false) evs.
Proof.
  intros Hpdf Hcsv Hseq Hfail Hok.
  rewrite (main_run _ _ _ _ Hpdf Hcsv). rewrite Hseq.
  unfold bind at 1. rewrite (attempts_app _ _ _ _ _ _ _ Hfail).
  destruct (attempts_fail_calls _ _ _ _ _ _ Hfail)
    as (gens & _ & Hcalls & Hgen & Hfb).
  destruct (attempt_calls target (sample_pdf_path target)
              (sample_csv_path target) 3 n
              (attempts target (sample_pdf_path target)
                 (sample_csv_path target) 3 ns1 (loop_start target w)).2)
    as (evs & Hevs & HP).
  cbn [attempts]. unfold bind at 1. rewrite Hok in *. cbn [fst snd negb] in *.
  split; [done|].
  exists (gens ++ EvGenerate n :: evs)%list. split; [|split].
  - rewrite Hevs, Hcalls. cbn. by rewrite <- app_assoc.
  - rewrite List.filter_app, Hgen, map_app. f_equal.
    cbn [List.filter is_generate map]. f_equal.
    clear -HP. induction HP as [|e evs [He _] _ IH]; [done|].
    simpl. by rewrite He.
  - apply Forall_app. split; [done|]. constructor; [done|].
    eapply Forall_impl; [exact HP|]. by intros e [_ He].
Qed.

(** X13. When every attempt has failed and the fallback program is rejected as
    well, [main] prints the verdict and returns normally: the exit status
    is 0 and nothing tells the caller that no parser was saved. *)
Theorem main_fallback_failure_returns (prog target message : string)
  (rest : list string) (w w' : World) :
  is_Some (fs w !! sample_pdf_path target) ->
  is_Some (fs w !! sample_csv_path target) ->
  every_attempt_fails target w = true ->
  run_test target (sample_pdf_path target) (sample_csv_path target)
           make_fallback_parser_code (fallback_start target w)
  = (Ok (false, message), w') ->
  main (prog :: "--target" :: target :: rest) w
  = (Ok tt,
     add_stdout ("❌ Fallback parser did NOT match expected CSV. Debug:"
                 +:+ nl +:+ message) w').
Proof.
  intros Hpdf Hcsv Hfail Hrun.
  rewrite (main_run _ _ _ _ Hpdf Hcsv).
  unfold every_attempt_fails in Hfail.
  destruct (attempts_fail_calls _ _ _ _ _ _ Hfail) as (gens & Hres & _).
  unfold fallback_start in Hrun. unfold bind at 1.
  destruct (attempts target (sample_pdf_path target) (sample_csv_path target)
              3 (seq 1 3) (loop_start target w)) as [r w3].
  cbn [fst snd] in *. subst r. cbn [negb].
  unfold fallback. unfold bind at 1, print at 1. cbn [fst snd].
  unfold bind at 1, log at 1. cbn [fst snd].
  unfold bind at 1. by rewrite Hrun.
Qed.

End Loop.

Section Loader.
Context {num : Type} `{EqDecision num} `{!Libs num}.

Lemma res_mapM_length {A B} (f : A -> res B) (l : list A) (l' : list B) :
  res_mapM f l = Ok l' -> length l' = length l.
Proof.
  revert l'. induction l as [|x l IH]; intros l'; simpl.
  - by intros [= <-].
  - destruct (f x) as [y|e]; simpl; [|done].
    destruct (res_mapM f l) as [ys|e]; simpl; [|done].
    intros [= <-]. simpl. by rewrite (IH ys).
Qed.

Lemma to_numeric_ok (errors : errors_mode) (df : DataFrame num) (p : picked)
  (i : nat) (dt : dtype) (values : list (cell num)) :
  to_numeric errors df p = Ok (i, dt, values) ->
  p = OneColumn i /\ length values = length (rows df).
Proof.
  unfold to_numeric. destruct p as [j|ps]; [|done].
  destruct (column_dtype df j);
    try (intros [= <- <- <-]; split; [done|];
         unfold column_cells; by rewrite length_map).
  destruct (res_mapM _ _) as [vs|e] eqn:Hvs; simpl; [|done].
  intros [= <- <- <-]. split; [done|].
  rewrite (res_mapM_length _ _ _ Hvs). unfold column_cells.
  by rewrite length_map.
Qed.

Lemma set_column_cells (df : DataFrame num) (i j : nat) (dt : dtype)
  (values : list (cell num)) :
  length values = length (rows df) -> i <> j ->
  column_cells (set_column df i dt values) j = column_cells df j.
Proof.
  unfold column_cells, set_column. cbn [rows].
  generalize (rows df). intros rs. revert values.
  induction rs as [|r rs IH]; intros [|v values] Hlen Hij;
    simpl in *; try done.
  f_equal; [|apply IH; [lia|done]].
  unfold row_cell. by rewrite list_lookup_insert_ne.
Qed.

Lemma getitem_one (df : DataFrame num) (l : label num) (i : nat) :
  getitem df l = Ok (OneColumn i) -> positions_from 0 l (columns df) = [i].
Proof.
  unfold getitem. destruct (positions_from 0 l (columns df)) as [|j [|k ps]];
    try done. by intros [= ->].
Qed.

(** What the loop of the loader keeps: the labels, the index, the number
    of rows, and every column that is not one of the columns it casts. *)
Lemma coerce_columns_preserves (names : list string) (df df' : DataFrame num) :
  coerce_columns names df = Ok df' ->
  columns df' = columns df /\
  index df' = index df /\
  length (rows df') = length (rows df) /\
  forall j, (forall col, In col names ->
               positions_from 0 (str_label col) (columns df) <> [j]) ->
            column_cells df' j = column_cells df j.
Proof.
  revert df. induction names as [|col names IH]; intros df.
  - intros [= <-]. done.
  - cbn [coerce_columns].
    destruct (getitem df (str_label col)) as [p|e] eqn:Hget; simpl; [|done].
    destruct (to_numeric ErrorsCoerce df p) as [[[i dt] values]|e] eqn:Hnum;
      simpl; [|done].
    destruct (to_numeric_ok _ _ _ _ _ _ Hnum) as [-> Hlen].
    apply getitem_one in Hget.
    intros Hrest. destruct (IH _ Hrest) as (Hc & Hi & Hl & Hcells).
    cbn [columns index set_column] in Hc, Hi.
    split; [done|]. split; [done|]. split.
    + rewrite Hl. unfold set_column. cbn [rows].
      rewrite length_zip_with. lia.
    + intros j Hj. rewrite Hcells.
      * apply set_column_cells; [done|]. intros ->.
        by apply (Hj col); [left|].
      * intros col' Hin. cbn [columns set_column]. apply Hj. by right.
Qed.

(** X14. When the loader of the reference returns a table, the world is as it
    was, the file exists and was read by [pd.read_csv], and the cast of the
    three amount columns has kept the column labels, the row labels, the
    number of rows and every cell of the other columns. *)
Theorem read_csv_as_df_preserves (csv_path : string) (df' : DataFrame num)
  (w w' : World) :
  read_csv_as_df csv_path w = (Ok df', w') ->
  w' = w /\
  exists text df,
    fs w !! csv_path = Some (File text) /\
    pd_read_csv text = Ok df /\
    columns df' = columns df /\
    index df' = index df /\
    length (rows df') = length (rows df) /\
    forall j, (forall col, In col numeric_names ->
                 positions_from 0 (str_label col) (columns df) <> [j]) ->
              column_cells df' j = column_cells df j.
Proof.
  intros Hread. pose proof (read_csv_as_df_world csv_path w) as Hw.
  rewrite Hread in Hw. simpl in Hw. split; [done|].
  revert Hread. unfold read_csv_as_df, bind, read_text, lift.
  destruct (fs w !! csv_path) as [[text|]|]; try done.
  destruct (pd_read_csv text) as [df|e] eqn:Hcsv; [|done].
  intros Heq. pose proof (f_equal fst Heq) as Hco. cbn [fst] in Hco.
  exists text, df. split; [done|]. split; [done|].
  by apply coerce_columns_preserves.
Qed.

(** X15. A reference file without one of the three amount columns makes the
    loader raise, with a [KeyError] or a [TypeError], and leaves the world
    as it was. *)
Theorem read_csv_as_df_missing_column (csv_path text col : string)
  (df : DataFrame num) (w : World) :
  fs w !! csv_path = Some (File text) ->
  pd_read_csv text = Ok df ->
  In col numeric_names ->
  positions_from 0 (str_label col) (columns df) = [] ->
  exists e, read_csv_as_df csv_path w = (Raise e, w) /\
            (exc_cls e = KeyError \/ exc_cls e = TypeError).
Proof.
  intros Hfile Hcsv Hin Hmiss.
  unfold read_csv_as_df, bind, read_text, lift. rewrite Hfile, Hcsv.
  assert (exists e, coerce_columns numeric_names df = Raise e /\
                    (exc_cls e = KeyError \/ exc_cls e = TypeError))
    as (e & -> & He); [|by exists e].
  clear Hfile Hcsv. revert Hin Hmiss. generalize numeric_names.
  intros names. revert df.
  induction names as [|c names IH]; intros df Hin Hmiss; [done|].
  cbn [coerce_columns]. unfold getitem.
  destruct (decide (c = col)) as [->|Hne].
  - rewrite Hmiss. simpl. eexists. split; [done|]. by left.
  - destruct Hin as [?|Hin]; [done|].
    destruct (positions_from 0 (str_label c) (columns df)) as [|i [|j ps]];
      simpl.
    + eexists. split; [done|]. by left.
    + unfold to_numeric. 
      destruct (column_dtype df i); simpl;
        try (apply IH; [done|by cbn [columns set_column]]).
      rewrite res_mapM_coerce. simpl.
      apply IH; [done|by cbn [columns set_column]].
    + eexists. split; [done|]. by right.
Qed.

End Loader.

(** ** The numeric cast of the loader *)

Section LoaderCast.
Context {num : Type} `{EqDecision num} `{!Libs num}.

Lemma positions_from_label (k i : nat) (l : label num) (cs : list (label num)) :
  In i (positions_from k l cs) -> k <= i /\ cs !! (i - k) = Some l.
Proof.
  revert k. induction cs as [|c cs IH]; intros k; cbn [positions_from]; [done|].
  assert (Hrest : In i (positions_from (S k) l cs) ->
                  k <= i /\ (c :: cs) !! (i - k) = Some l).
  { intros [Hle Hl]%IH. split; [lia|].
    replace (i - k) with (S (i - S k)) by lia. done. }
  destruct (decide (c = l)) as [->|]; [|done].
  intros [<-|Hin]; [|by apply Hrest].
  split; [lia|]. by rewrite Nat.sub_diag.
Qed.

Lemma positions_distinct (a b : string) (i j : nat) (cs : list (label num)) :
  a <> b ->
  positions_from 0 (str_label a) cs = [i] ->
  positions_from 0 (str_label b) cs = [j] ->
  i <> j.
Proof.
  intros Hab Ha Hb ->.
  destruct (positions_from_label 0 j (str_label a) cs) as [_ Hla];
    [rewrite Ha; by left|].
  destruct (positions_from_label 0 j (str_label b) cs) as [_ Hlb];
    [rewrite Hb; by left|].
  rewrite Hla in Hlb. by injection Hlb as ->.
Qed.

(** The column written by [df[col] = values] holds the values, when they
    are computed cell by cell from the column itself and a missing cell
    stays missing. *)
Lemma set_column_written (df : DataFrame num) (i : nat) (dt : dtype)
  (f : cell num -> cell num) :
  f VNaN = VNaN ->
  column_cells (set_column df i dt (map f (column_cells df i))) i
  = map f (column_cells df i).
Proof.
  intros Hnan. unfold column_cells, set_column. cbn [rows].
  rewrite map_map, zip_with_map_r, map_map. apply map_ext. intros r.
  unfold row_cell. destruct (decide (i < length r)) as [Hlt|Hge].
  - by rewrite list_lookup_insert_eq.
  - rewrite list_insert_ge by lia.
    rewrite (lookup_ge_None_2 r i) by lia. cbn. by rewrite Hnan.
Qed.

Lemma to_numeric_coerce (df : DataFrame num) (i : nat) :
  exists dt values,
    to_numeric ErrorsCoerce df (OneColumn i) = Ok (i, dt, values) /\
    length values = length (rows df) /\
    column_cells (set_column df i dt values) i = values /\
    (column_dtype df i = DObject ->
     values = map coerce_cell (column_cells df i)) /\
    (column_dtype df i <> DObject -> values = column_cells df i).
Proof.
  unfold to_numeric.
  assert (Hid : column_cells (set_column df i (column_dtype df i)
                                (column_cells df i)) i
                = column_cells df i).
  { pose proof (set_column_written df i (column_dtype df i) id eq_refl) as H.
    by rewrite !map_id in H. }
  assert (Hlen : length (column_cells df i) = length (rows df))
    by (unfold column_cells; by rewrite length_map).
  destruct (column_dtype df i) eqn:Hdt.
  - rewrite res_mapM_coerce. cbn [res_bind]. eexists _, _.
    split; [reflexivity|]. split; [by rewrite length_map|].
    split; [by apply set_column_written|]. by split.
  - eexists _, _. split; [reflexivity|]. by repeat split.
  - eexists _, _. split; [reflexivity|]. by repeat split.
  - eexists _, _. split; [reflexivity|]. by repeat split.
Qed.

(** The loop of lines 30 and 31 on columns that are there, each once: it
    returns, and each of its columns is cast cell by cell when it is an
    object column, and is as it was otherwise. *)
Lemma coerce_columns_cast (names : list string) (df : DataFrame num) :
  NoDup names ->
  (forall col, In col names ->
     exists i, positions_from 0 (str_label col) (columns df) = [i]) ->
  exists df',
    coerce_columns names df = Ok df' /\
    length (rows df') = length (rows df) /\
    forall col i,
      In col names ->
      positions_from 0 (str_label col) (columns df) = [i] ->
      (column_dtype df i = DObject ->
       column_cells df' i = map coerce_cell (column_cells df i)) /\
      (column_dtype df i <> DObject ->
       column_cells df' i = column_cells df i).
Proof.
  intros Hnodup. revert df.
  induction Hnodup as [|c names Hc Hnodup IH]; intros df Hthere.
  - exists df. by repeat split.
  - destruct (Hthere c) as [i0 Hi0]; [by left|].
    cbn [coerce_columns]. unfold getitem. rewrite Hi0. cbn [res_bind].
    destruct (to_numeric_coerce df i0)
      as (dt & values & -> & Hlen & Hwritten & Hobj & Hnum).
    cbn [res_bind].
    set (df1 := set_column df i0 dt values).
    assert (Hcols : columns df1 = columns df) by done.
    destruct (IH df1) as (df' & Hdf' & Hrows & Hcast).
    { intros col Hcol. rewrite Hcols. apply Hthere. by right. }
    exists df'. split; [done|].
    destruct (coerce_columns_preserves _ _ _ Hdf') as (_ & _ & _ & Hkeep).
    split.
    { rewrite Hrows. unfold df1, set_column. cbn [rows].
      rewrite length_zip_with. lia. }
    intros col i [<-|Hcol] Hi.
    + assert (i = i0) as -> by congruence.
      assert (Hsame : column_cells df' i0 = values).
      { rewrite Hkeep; [done|]. intros col' Hcol'. rewrite Hcols.
        intros Hpos.
        refine (positions_distinct col' c i0 i0 _ _ Hpos Hi0 eq_refl).
        intros ->. by apply Hc, list_elem_of_In. }
      rewrite Hsame. by split.
    + assert (Hne : i0 <> i).
      { apply (positions_distinct c col i0 i (columns df)); [|done..].
        intros ->. by apply Hc, list_elem_of_In. }
      assert (Hdt : column_dtype df1 i = column_dtype df i).
      { unfold column_dtype, df1, set_column. cbn [dtypes].
        by rewrite list_lookup_insert_ne. }
      assert (Hcells : column_cells df1 i = column_cells df i)
        by (by apply set_column_cells).
      destruct (Hcast col i Hcol) as [Ho Hn]; [by rewrite Hcols|].
      rewrite Hdt, Hcells in Ho, Hn. by split.
Qed.

Lemma numeric_names_nodup : NoDup numeric_names.
Proof.
  apply (bool_decide_unpack _). vm_compute. exact I.
Qed.

(** C4. The numeric cast of the reference loader is total.  When the file
    is read into a table that has the three amount columns, each once, and
    holds text in object columns only, the loader returns and does not
    change the world; every cell of an amount column then holds a number or
    the missing marker, and a text placed in an amount column has become
    the number it reads as, or the missing marker when it does not read as
    a number: never an exception, never another number in its place. *)
Theorem numeric_cast_total (csv_path text : string) (df : DataFrame num)
  (w : World) :
  fs w !! csv_path = Some (File text) ->
  pd_read_csv text = Ok df ->
  (forall col, In col numeric_names ->
     exists i, positions_from 0 (str_label col) (columns df) = [i]) ->
  (forall i, column_dtype df i <> DObject ->
             Forall (fun c => is_amount c = true) (column_cells df i)) ->
  exists df',
    read_csv_as_df csv_path w = (Ok df', w) /\
    forall col i,
      In col numeric_names ->
      positions_from 0 (str_label col) (columns df) = [i] ->
      Forall (fun c => is_amount c = true) (column_cells df' i) /\
      forall k r s,
        rows df !! k = Some r ->
        row_cell i r = VStr s ->
        exists r',
          rows df' !! k = Some r' /\
          row_cell i r' = match parse_number s with
                          | Some x => VNum x
                          | None => VNaN
                          end.
Proof.
  intros Hfile Hcsv Hthere Htyped.
  destruct (coerce_columns_cast numeric_names df numeric_names_nodup Hthere)
    as (df' & Hdf' & Hlen & Hcast).
  exists df'. split.
  { unfold read_csv_as_df, bind, read_text, lift.
    by rewrite Hfile, Hcsv, Hdf'. }
  intros col i Hcol Hi. destruct (Hcast col i Hcol Hi) as [Hobj Hnum].
  destruct (decide (column_dtype df i = DObject)) as [Hdt|Hdt].
  - rewrite (Hobj Hdt). split.
    + apply Forall_map, Forall_true. intros c. apply coerce_cell_amount.
    + intros k r s Hr Hs.
      assert (Hk : column_cells df' i !! k = Some (coerce_cell (VStr s))).
      { rewrite (Hobj Hdt). unfold column_cells.
        by rewrite !list_lookup_fmap, Hr, <- Hs. }
      unfold column_cells in Hk. rewrite list_lookup_fmap in Hk.
      destruct (rows df' !! k) as [r'|]; [|done].
      exists r'. split; [done|]. by injection Hk.
  - rewrite (Hnum Hdt). split; [by apply Htyped|].
    intros k r s Hr Hs. exfalso.
    assert (Hin : column_cells df i !! k = Some (VStr s)).
    { unfold column_cells. by rewrite list_lookup_fmap, Hr, <- Hs. }
    pose proof (Forall_lookup_1 _ _ _ _ (Htyped i Hdt) Hin) as Hamount.
    done.
Qed.

End LoaderCast.

Section SandboxFrame.
Context {num : Type} `{EqDecision num} `{!Libs num} `{!Host num}.

(** What preparing the scratch file changes: the scratch file, the package
    directory and its [__init__.py], one random draw; nothing else. *)
Lemma prepare_scratch_ok (code target name file : string) (w w1 : World) :
  prepare_scratch code target w = (Ok (name, file), w1) ->
  name = target +:+ "_parser_" +:+ urandom_hex (draws w) /\
  file = path_join "custom_parsers" (name +:+ ".py") /\
  fs w1 !! file = Some (File code) /\
  (forall p, p <> file -> p <> "custom_parsers" -> p <> init_path ->
             fs w1 !! p = fs w !! p) /\
  sys_modules w1 = sys_modules w /\
  draws w1 = S (draws w).
Proof.
  unfold prepare_scratch. unfold bind at 1. cbn [fst snd].
  unfold bind at 1.
  destruct (mkdir_exist_ok "custom_parsers" (add_draw w))
    as [[[]|e] w2] eqn:Hmk; [|done].
  unfold bind at 1.
  destruct (touch (path_join "custom_parsers" "__init__.py") w2)
    as [[[]|e] w3] eqn:Htouch; [|done].
  unfold bind at 1.
  match goal with |- context [write_text ?p ?t ?w0] =>
    destruct (write_text p t w0) as [[[]|e] w4] eqn:Hwrite end; [|done].
  unfold ret. intros [= <- <- <-].
  destruct (write_text_ok _ _ _ _ Hwrite) as [Hfile Hframe].
  split; [done|]. split; [done|]. split; [done|]. split.
  - intros p Hp Hpkg Hinit. rewrite Hframe by done.
    rewrite (touch_frame _ _ _ _ Htouch) by done.
    by rewrite (mkdir_frame _ _ _ _ Hmk).
  - clear Hfile Hframe. revert Hmk Htouch Hwrite.
    unfold mkdir_exist_ok, touch, write_text. intros.
    repeat case_match; simplify_eq; done.
Qed.

(** X16. A run of a candidate that does not touch the file system itself, under
    a scratch name that was free, leaves every path as it was, except the
    package directory and its [__init__.py], which it creates and keeps. *)
Theorem run_generated_code_frame (code pdf_path target name file : string)
  (w w1 : World) :
  prepare_scratch code target w = (Ok (name, file), w1) ->
  fs w !! file = None ->
  candidate_neutral ("custom_parsers." +:+ name) file pdf_path (fs w1) ->
  forall p, p <> "custom_parsers" -> p <> init_path ->
            fs (run_generated_code code pdf_path target w).2 !! p = fs w !! p.
Proof.
  intros Hprep Hfresh Hneutral p Hpkg Hinit.
  destruct (prepare_scratch_ok _ _ _ _ _ _ Hprep)
    as (_ & _ & Hfile & Hframe & _).
  assert (Hfs : fs (run_generated_code code pdf_path target w).2
                = delete file (fs w1)).
  { unfold run_generated_code, bind, log. cbn [fst snd].
    rewrite prepare_scratch_add_call, Hprep. cbn [fst snd].
    rewrite try_finally_world.
    unfold candidate_neutral in Hneutral.
    unfold bind, load_module, call_parse. cbn [fs add_call add_module].
    destruct (exec_module _ file (fs w1)) as [e f'|f' [parse|]].
    - subst f'. cbn [snd].
      unfold remove_scratch, bind, path_exists, unlink. cbn.
      rewrite Hfile. cbn. by rewrite Hfile.
    - destruct Hneutral as [-> Hparse]. cbn [fs set_fs].
      destruct (parse pdf_path (fs w1)) as [r f2]. cbn in Hparse. subst f2.
      cbn [snd].
      unfold remove_scratch, bind, path_exists, unlink. cbn.
      rewrite Hfile. cbn. by rewrite Hfile.
    - subst f'. unfold raise. cbn [snd].
      unfold remove_scratch, bind, path_exists, unlink. cbn.
      rewrite Hfile. cbn. by rewrite Hfile. }
  rewrite Hfs. destruct (decide (p = file)) as [->|Hp].
  - by rewrite lookup_delete_eq, Hfresh.
  - rewrite lookup_delete_ne by done. by apply Hframe.
Qed.

Lemma remove_scratch_keeps (file : string) (w : World) :
  sys_modules (remove_scratch file w).2 = sys_modules w /\
  draws (remove_scratch file w).2 = draws w.
Proof.
  unfold remove_scratch, bind, path_exists, unlink, ret, raise. cbn.
  destruct (fs w !! file) as [[?|]|] eqn:E; cbn; rewrite ?E; by cbn.
Qed.

Lemma run_generated_code_world (code pdf_path target name file : string)
  (w w1 : World) :
  prepare_scratch code target w = (Ok (name, file), w1) ->
  (run_generated_code code pdf_path target w).2
  = (remove_scratch file
       ((let* parse_attr := load_module ("custom_parsers." +:+ name) file in
         call_parse ("custom_parsers." +:+ name) parse_attr pdf_path)
          (add_call (EvSandbox code) w1)).2).2.
Proof.
  intros Hprep. unfold run_generated_code, bind at 1, log. cbn [fst snd].
  unfold bind at 1. rewrite prepare_scratch_add_call, Hprep. cbn [fst snd].
  by rewrite try_finally_world.
Qed.

(** X17. Each run draws one random suffix, and the module it loads stays
    registered in [sys.modules] under its scratch name after the run:
    the cleanup removes the file only. *)
Theorem run_generated_code_registers (code pdf_path target name file : string)
  (w w1 : World) :
  prepare_scratch code target w = (Ok (name, file), w1) ->
  sys_modules (run_generated_code code pdf_path target w).2
  = ("custom_parsers." +:+ name) :: sys_modules w /\
  draws (run_generated_code code pdf_path target w).2 = S (draws w).
Proof.
  intros Hprep.
  destruct (prepare_scratch_ok _ _ _ _ _ _ Hprep)
    as (_ & _ & _ & _ & Hmods & Hdraws).
  rewrite (run_generated_code_world _ _ _ _ _ _ _ Hprep).
  match goal with |- context [remove_scratch file ?w0] =>
    destruct (remove_scratch_keeps file w0) as [-> ->];
    assert (Hbody : sys_modules w0 = ("custom_parsers." +:+ name) :: sys_modules w1
                    /\ draws w0 = draws w1); [|by rewrite <- Hmods, <- Hdraws] end.
  unfold bind, load_module, call_parse, ret, raise.
  cbn [fs add_call add_module].
  destruct (exec_module _ file (fs w1)) as [e f'|f' [parse|]]; cbn; try done.
  by destruct (parse pdf_path f') as [r f2].
Qed.

(** X18. A candidate that loads and defines no [parse] makes the run fail with
    an [AttributeError] that names the scratch module; the scratch file is
    removed all the same. *)
Theorem run_generated_code_no_entry_point (code pdf_path target name file : string)
  (w w1 : World) (f1 : gmap string node) :
  prepare_scratch code target w = (Ok (name, file), w1) ->
  exec_module ("custom_parsers." +:+ name) file (fs w1) = Loaded f1 None ->
  f1 !! file <> Some Dir ->
  (run_generated_code code pdf_path target w).1
  = Raise (Exn AttributeError
             ("module 'custom_parsers." +:+ name
              +:+ "' has no attribute 'parse'")) /\
  is_file (fs (run_generated_code code pdf_path target w).2) file = false.
Proof.
  intros Hprep Hload Hdir. split.
  - unfold run_generated_code, bind, log. cbn [fst snd].
    rewrite prepare_scratch_add_call, Hprep. cbn [fst snd].
    unfold try_finally, bind, load_module, call_parse, remove_scratch, bind,
      path_exists, unlink, ret, raise. cbn [fs add_call add_module].
    rewrite Hload. cbn.
    destruct (f1 !! file) as [[?|]|] eqn:E; cbn; rewrite ?E; cbn; try done.
  - unfold run_generated_code, bind, log. cbn [fst snd].
    rewrite prepare_scratch_add_call, Hprep. cbn [fst snd].
    rewrite try_finally_world. apply remove_scratch_removes.
Qed.

End SandboxFrame.

Section FallbackEdges.
Context {num : Type} `{EqDecision num} `{!Libs num}.

Lemma concat_width (tables : list grid) :
  columns (concat (num:=num) tables) = range_index (table_width tables) /\
  dtypes (concat (num:=num) tables) = replicate (table_width tables) DObject /\
  Forall (fun r => length r = table_width tables)
         (rows (concat (num:=num) tables)).
Proof.
  unfold concat, table_width. split; [done|]. split; [done|].
  simpl. apply Forall_forall. intros r Hr.
  apply list_elem_of_In, in_flat_map in Hr as (g & _ & Hr).
  apply in_map_iff in Hr as (r0 & <- & _). by rewrite length_resize.
Qed.

Lemma first_header_from (rs : list (list (cell num))) (i : nat) :
  Forall (fun r => 2 <= length r) rs ->
  (find_header i rs = Ok (-1)%Z /\ Forall (fun r => is_header r = false) rs) \/
  (exists n r,
     find_header i rs = Ok (Z.of_nat (i + n)) /\
     rs !! n = Some r /\ is_header r = true /\
     Forall (fun r => is_header r = false) (take n rs)).
Proof.
  intros Hrs. revert i. induction Hrs as [|r rs Hr Hrs IH]; intros i.
  - left. by split.
  - cbn [find_header]. unfold row_getitem.
    destruct r as [|c0 [|c1 r]]; simpl in Hr; try lia. cbn [lookup list_lookup res_bind].
    assert (Hhead : is_header (c0 :: c1 :: r)
                    = PyStr.contains "Date" (py_str c0) &&
                      PyStr.contains "Description" (py_str c1)) by done.
    destruct (PyStr.contains "Date" (py_str c0) &&
              PyStr.contains "Description" (py_str c1)) eqn:Htest.
    + apply andb_true_iff in Htest as [-> ->]. right.
      exists 0, (c0 :: c1 :: r). rewrite Nat.add_0_r. by repeat split.
    + assert (Hnext : (if PyStr.contains "Date" (py_str c0)
                       then if PyStr.contains "Description" (py_str c1)
                            then Ok (Z.of_nat i) else find_header (S i) rs
                       else find_header (S i) rs) = find_header (S i) rs).
      { destruct (PyStr.contains "Date" (py_str c0)); [|done].
        by destruct (PyStr.contains "Description" (py_str c1)). }
      rewrite Hnext.
      destruct (IH (S i)) as [[Hnone Hall]|(n & r0 & Hfound & Hr0 & Hh & Hbefore)].
      * left. split; [done|]. by constructor.
      * right. exists (S n), r0.
        replace (i + S n) with (S i + n) by lia.
        split; [done|]. split; [done|]. split; [done|].
        cbn [take]. by constructor.
Qed.

(** X19. The loop that looks for the header row stops at the first row that
    passes the test of line 159, and gives [-1] when no row passes it. *)
Theorem find_header_first (rs : list (list (cell num))) :
  Forall (fun r => 2 <= length r) rs ->
  (find_header 0 rs = Ok (-1)%Z /\ Forall (fun r => is_header r = false) rs) \/
  (exists n r,
     find_header 0 rs = Ok (Z.of_nat n) /\
     rs !! n = Some r /\ is_header r = true /\
     Forall (fun r => is_header r = false) (take n rs)).
Proof. intros Hrs. exact (first_header_from rs 0 Hrs). Qed.

Lemma find_header_bound (rs : list (list (cell num))) (i : nat) (h : Z) :
  find_header i rs = Ok h ->
  h = (-1)%Z \/ exists n, h = Z.of_nat (i + n) /\ n < length rs.
Proof.
  revert i. induction rs as [|r rs IH]; intros i; cbn [find_header].
  - intros [= <-]. by left.
  - assert (Hnext : find_header (S i) rs = Ok h ->
              h = (-1)%Z \/ exists n, h = Z.of_nat (i + n) /\ n < length (r :: rs)).
    { intros [->|(n & -> & Hn)]%IH; [by left|]. right. exists (S n).
      split; [f_equal; lia|simpl; lia]. }
    destruct (row_getitem r 0) as [c0|e]; cbn [res_bind]; [|done].
    destruct (PyStr.contains "Date" (py_str c0)); [|done].
    destruct (row_getitem r 1) as [c1|e]; cbn [res_bind]; [|done].
    destruct (PyStr.contains "Description" (py_str c1)); [|done].
    intros [= <-]. right. exists 0. split; [f_equal; lia|simpl; lia].
Qed.

Lemma positions_from_range (i w : nat) :
  positions_from (num:=num) i (LPos i) (map LPos (seq i w))
  = match w with 0 => [] | S _ => [i] end.
Proof.
  destruct w as [|w]; [done|]. cbn [seq map positions_from].
  rewrite decide_True by done. f_equal.
  assert (Hnone : forall k j, i < j ->
            positions_from (num:=num) k (LPos i) (map LPos (seq j w)) = []).
  { clear. induction w as [|w IH]; intros k j Hj; [done|].
    cbn [seq map positions_from]. rewrite decide_False by (intros [= ?]; lia).
    apply IH. lia. }
  apply Hnone. lia.
Qed.

Lemma select_rows_header_wrong_width (tables : list grid) (h : Z) :
  tables <> [] ->
  find_header 0 (rows (concat (num:=num) tables)) = Ok h ->
  h <> (-1)%Z ->
  table_width tables <> 5 ->
  select_rows (num:=num) tables = Raise (Exn KeyError "0").
Proof.
  intros Hne Hfind Hh Hw.
  destruct (concat_width tables) as (Hcols & Hdts & Hrows).
  unfold select_rows. destruct tables as [|g tables]; [done|].
  set (df := concat (g :: tables)) in *. rewrite Hfind. cbn [res_bind].
  destruct (find_header_bound _ _ _ Hfind) as [->|(n & -> & Hn)]; [done|].
  cbn [Nat.add] in *.
  destruct (lookup_lt_is_Some_2 _ _ Hn) as [r Hr].
  unfold promote_header. rewrite bool_decide_eq_true_2 by done.
  rewrite Nat2Z.id, Hr. change (default [] (Some r)) with r.
  unfold assign_schema, ncols, reset_index. cbn [columns].
  rewrite length_map, (Forall_lookup_1 _ _ _ _ Hrows Hr).
  destruct (Nat.eqb_spec (table_width (g :: tables)) 5) as [|_]; [done|].
  unfold getitem. cbn [columns]. by rewrite positions_from_LPos_LVal.
Qed.

(** X20. When a header row is found and the frame is not five columns wide, the
    fallback parser fails with [KeyError] on [df[0]]: the header has
    replaced the positions as column labels. *)
Theorem fallback_header_wrong_width (tables : list grid) (h : Z) :
  tables <> [] ->
  find_header 0 (rows (concat (num:=num) tables)) = Ok h ->
  h <> (-1)%Z ->
  table_width tables <> 5 ->
  parse_tables (num:=num) tables = Raise (Exn KeyError "0").
Proof.
  intros Hne Hfind Hh Hw. unfold parse_tables.
  by rewrite (select_rows_header_wrong_width tables h).
Qed.

Lemma assign_schema_no_header (df : DataFrame num) (w : nat) :
  0 < w -> w <> 5 ->
  columns df = range_index w ->
  dtypes df = replicate w DObject ->
  text_only (rows df) ->
  assign_schema df
  = set_columns (iloc_cols 5 (filter_rows date_ok df)) schema.
Proof.
  intros Hpos Hw Hcols Hdts Htext. unfold assign_schema, ncols.
  rewrite Hcols, length_range_index.
  destruct (Nat.eqb_spec w 5) as [|_]; [done|].
  unfold getitem. rewrite Hcols. unfold range_index.
  rewrite (positions_from_range 0 w). destruct w as [|w]; [lia|].
  cbn [res_bind]. rewrite str_accessor_text; [done|..].
  - unfold column_dtype. rewrite Hdts. by apply default_object, Forall_replicate.
  - unfold column_cells. apply Forall_map.
    eapply Forall_impl; [exact Htext|]. intros r Hr. by apply row_cell_text.
Qed.

Lemma select_rows_narrow (tables : list grid) :
  tables <> [] ->
  find_header 0 (rows (concat (num:=num) tables)) = Ok (-1)%Z ->
  0 < table_width tables < 5 ->
  select_rows (num:=num) tables
  = Raise (Exn ValueError
             ("Length mismatch: Expected axis has " +:+ pretty (table_width tables)
              +:+ " elements, new values have 5 elements")).
Proof.
  intros Hne Hfind [Hpos Hlt].
  destruct (concat_width tables) as (Hcols & Hdts & Hrows).
  pose proof (concat_text (num:=num) tables) as Htext.
  unfold select_rows. destruct tables as [|g tables]; [done|].
  set (df := concat (g :: tables)) in *. rewrite Hfind. cbn [res_bind].
  unfold promote_header. rewrite bool_decide_eq_false_2 by (intros ?; done).
  rewrite (assign_schema_no_header df (table_width (g :: tables)))
    by (done || lia).
  unfold set_columns, ncols, iloc_cols, filter_rows. cbn [columns].
  rewrite length_take, Hcols, length_range_index.
  replace (5 `min` table_width (g :: tables)) with (table_width (g :: tables))
    by lia.
  change (length schema) with 5.
  destruct (Nat.eqb_spec 5 (table_width (g :: tables))) as [|_]; [lia|].
  done.
Qed.

(** X21. Without a header row, a frame of one to four columns makes the fallback
    parser fail with the length mismatch of the assignment of the five
    names. *)
Theorem fallback_narrow_no_header (tables : list grid) :
  tables <> [] ->
  find_header 0 (rows (concat (num:=num) tables)) = Ok (-1)%Z ->
  0 < table_width tables < 5 ->
  parse_tables (num:=num) tables
  = Raise (Exn ValueError
             ("Length mismatch: Expected axis has " +:+ pretty (table_width tables)
              +:+ " elements, new values have 5 elements")).
Proof.
  intros Hne Hfind Hw. unfold parse_tables.
  by rewrite (select_rows_narrow tables).
Qed.

Lemma filter_take_date (rs : list (list (cell num))) :
  List.filter date_ok (map (take 5) (List.filter date_ok rs))
  = List.filter date_ok (map (take 5) rs).
Proof.
  assert (Hcell : forall r : list (cell num), date_ok (take 5 r) = date_ok r).
  { intros r. unfold date_ok, row_cell. by destruct r. }
  induction rs as [|r rs IH]; [done|]. cbn [List.filter map].
  destruct (date_ok r) eqn:Hr; cbn [List.filter map]; rewrite Hcell, Hr;
    by rewrite IH.
Qed.

Lemma select_rows_wide (tables : list grid) :
  tables <> [] ->
  find_header 0 (rows (concat (num:=num) tables)) = Ok (-1)%Z ->
  5 <= table_width tables ->
  exists mid,
    select_rows (num:=num) tables = Ok mid /\
    List.filter date_ok (rows mid)
    = List.filter date_ok (map (take 5) (rows (concat tables))).
Proof.
  intros Hne Hfind Hwide.
  destruct (concat_width tables) as (Hcols & Hdts & Hrows).
  pose proof (concat_text (num:=num) tables) as Htext.
  unfold select_rows. destruct tables as [|g tables]; [done|].
  set (df := concat (g :: tables)) in *. rewrite Hfind. cbn [res_bind].
  unfold promote_header. rewrite bool_decide_eq_false_2 by (intros ?; done).
  destruct (decide (table_width (g :: tables) = 5)) as [Hfive|Hfive].
  - unfold assign_schema, set_columns, ncols.
    rewrite Hcols, length_range_index, Hfive.
    change (length (schema (num:=num))) with 5. cbn [Nat.eqb].
    eexists. split; [reflexivity|].
    cbn [rows]. f_equal. rewrite Hfive in Hrows. clear -Hrows.
    induction Hrows as [|r rs Hr _ IH]; [done|]. cbn [map].
    by rewrite take_ge, <- IH by lia.
  - rewrite (assign_schema_no_header df (table_width (g :: tables)))
      by (done || lia).
    unfold set_columns, ncols, iloc_cols, filter_rows. cbn [columns].
    rewrite length_take, Hcols, length_range_index.
    replace (5 `min` table_width (g :: tables)) with 5 by lia.
    change (length (schema (num:=num))) with 5. cbn [Nat.eqb].
    eexists. split; [reflexivity|]. cbn [rows]. apply filter_take_date.
Qed.

Lemma normalise_index (mid df : DataFrame num) :
  normalise mid = Ok df -> index df = range_index (length (rows df)).
Proof.
  unfold normalise. intros Hdf.
  repeat match type of Hdf with
  | res_bind ?m _ = _ => destruct m; cbn [res_bind] in Hdf; [|done]
  end.
  by injection Hdf as <-.
Qed.

(** X22. Without a header row, a frame of five columns or more gives a table:
    the first five cells of every row whose first cell starts with a date,
    cleaned and cast, under a fresh index. *)
Theorem fallback_wide_no_header (tables : list grid) :
  tables <> [] ->
  find_header 0 (rows (concat (num:=num) tables)) = Ok (-1)%Z ->
  5 <= table_width tables ->
  exists df,
    parse_tables (num:=num) tables = Ok df /\
    columns df = schema /\
    index df = range_index (length (rows df)) /\
    rows df = map clean_row
                (List.filter date_ok (map (take 5) (rows (concat tables)))).
Proof.
  intros Hne Hfind Hwide.
  destruct (select_rows_wide tables Hne Hfind Hwide) as (mid & Hmid & Hfilter).
  destruct (parse_tables_returns _ _ Hmid) as [df Hdf].
  exists df. split; [done|].
  destruct (select_rows_inv _ _ Hmid) as (Hc & Hd & Hr).
  unfold parse_tables in Hdf. rewrite Hmid in Hdf. cbn [res_bind] in Hdf.
  destruct (normalise_spec _ _ Hc Hd Hr Hdf) as [Hcols' Hrows'].
  split; [done|]. split; [by eapply normalise_index|].
  by rewrite Hrows', Hfilter.
Qed.

(** X23. In a frame of five columns with a header row, the fallback parser
    returns a table made of the rows below the header only: the header row
    and every row above it are left out, rows with a date included. *)
Theorem fallback_header_dropped (tables : list grid) (n : nat) :
  tables <> [] ->
  find_header 0 (rows (concat (num:=num) tables)) = Ok (Z.of_nat n) ->
  table_width tables = 5 ->
  exists df,
    parse_tables (num:=num) tables = Ok df /\
    rows df = map clean_row
                (List.filter date_ok (drop (S n) (rows (concat tables)))).
Proof.
  intros Hne Hfind Hfive.
  destruct (concat_width tables) as (Hcols & Hdts & Hrows).
  assert (Hsel : exists mid,
            select_rows (num:=num) tables = Ok mid /\
            rows mid = drop (S n) (rows (concat tables))).
  { unfold select_rows. destruct tables as [|g tables]; [done|].
    set (df := concat (g :: tables)) in *. rewrite Hfind. cbn [res_bind].
    destruct (find_header_bound _ _ _ Hfind) as [?|(k & Hk & Hlt)]; [lia|].
    cbn [Nat.add] in Hk. apply Nat2Z.inj in Hk as ->.
    destruct (lookup_lt_is_Some_2 _ _ Hlt) as [r Hr].
    unfold promote_header. rewrite bool_decide_eq_true_2 by lia.
    rewrite Nat2Z.id, Hr. change (default [] (Some r)) with r.
    unfold assign_schema, set_columns, ncols, reset_index. cbn [columns].
    rewrite length_map, (Forall_lookup_1 _ _ _ _ Hrows Hr), Hfive.
    change (length (schema (num:=num))) with 5. cbn [Nat.eqb].
    eexists. split; reflexivity. }
  destruct Hsel as (mid & Hmid & Hrows').
  destruct (parse_tables_returns _ _ Hmid) as [df Hdf].
  exists df. split; [done|].
  destruct (select_rows_inv _ _ Hmid) as (Hc & Hd & Hr).
  unfold parse_tables in Hdf. rewrite Hmid in Hdf. cbn [res_bind] in Hdf.
  destruct (normalise_spec _ _ Hc Hd Hr Hdf) as [_ ->]. by rewrite Hrows'.
Qed.

(** X24. On a frame of two columns or more, the fallback parser returns a table
    exactly when the frame is five columns wide, or wider with no header
    row. *)
Theorem fallback_returns_iff (tables : list grid) :
  tables <> [] ->
  2 <= table_width tables ->
  is_raise (parse_tables (num:=num) tables) = false <->
  table_width tables = 5 \/
  (5 < table_width tables /\
   find_header 0 (rows (concat (num:=num) tables)) = Ok (-1)%Z).
Proof.
  intros Hne Hwide.
  destruct (concat_width tables) as (Hcols & Hdts & Hrows).
  destruct (find_header_total (rows (concat (num:=num) tables)) 0)
    as (h & Hfind & _).
  { eapply Forall_impl; [exact Hrows|]. simpl. lia. }
  split.
  - intros Hok. destruct (decide (table_width tables = 5)) as [|Hfive];
      [by left|right].
    destruct (decide (h = (-1)%Z)) as [->|Hh].
    + split; [|done].
      destruct (decide (table_width tables < 5)) as [Hlt|]; [|lia].
      unfold parse_tables in Hok.
      rewrite select_rows_narrow in Hok by (done || lia). done.
    + unfold parse_tables in Hok.
      by rewrite (select_rows_header_wrong_width tables h) in Hok.
  - intros [Hfive|[Hlt Hnone]].
    + destruct (parse_tables_five_wide tables Hne Hfive) as [df ->]. done.
    + destruct (select_rows_wide tables Hne Hnone) as (mid & Hmid & _);
        [lia|].
      by destruct (parse_tables_returns _ _ Hmid) as [df ->].
Qed.

End FallbackEdges.

Section TestParserProps.
Context {num : Type} `{EqDecision num} `{!Libs num} `{!Host num}.

Lemma equals_columns (a b : DataFrame num) :
  equals a b = true -> columns a = columns b.
Proof.
  unfold equals. intros Heq.
  repeat (apply andb_true_iff in Heq as [Heq _]).
  by apply bool_decide_eq_true_1 in Heq.
Qed.

(** X25. The test and the validator of the agent agree: on the table that the
    saved parser returns, the test passes when [run_test] would report
    success, and fails with [AssertionError] when it would report a
    mismatch. *)
Theorem test_agrees_with_validator (parse : entry_point num)
  (df : DataFrame num) (f1 : gmap string node) (w : World)
  (ok : bool) (message : string) :
  parse (sample_pdf_path "icici") (fs w) = (Ok (PyFrame df), f1) ->
  (compare_with_reference "icici" (sample_csv_path "icici") (PyFrame df)
     (set_fs f1 w)).1 = Ok (ok, message) ->
  (test_icici_parser_output parse w).1
  = if ok then Ok tt
    else Raise (Exn (OtherException "AssertionError")
                    "Parsed DataFrame does not match the expected CSV.").
Proof.
  intros Hparse.
  change (sample_pdf_path "icici") with "data/icici/icici_sample.pdf" in Hparse.
  change (sample_csv_path "icici") with "data/icici/icici_sample.csv".
  unfold test_icici_parser_output, compare_with_reference, read_csv_as_df.
  cbv zeta. unfold bind, lift, ret, raise. rewrite Hparse. cbn [fst snd].
  destruct (read_text "data/icici/icici_sample.csv" (set_fs f1 w))
    as [[text|e] w1]; [|done].
  destruct (pd_read_csv text) as [raw|e]; [|done].
  destruct (coerce_columns numeric_names raw) as [expected|e]; [|done].
  case_bool_decide as Hcols.
  - intros [= <- _].
    destruct (equals (reset_index df) (reset_index expected)) eqn:Heq; [|done].
    by apply equals_columns in Heq.
  - destruct (equals (reset_index df) (reset_index expected)) eqn:Heq.
    + destruct (mkdir_exist_ok "output" w1) as [[[]|e] w2]; [|done].
      destruct (write_text _ _ w2) as [[[]|e] w3]; [|done].
      by intros [= <- _].
    + by intros [= <- _].
Qed.

End TestParserProps.

Section IciciProps.
Context {num : Type} `{EqDecision num} `{!Libs num}.
Import icici_parser.

Lemma length_extend_row (k : nat) (r : list (cell num)) :
  length (extend_row k r) = length r + k.
Proof.
  induction k as [|k IH]; cbn [extend_row]; [lia|].
  rewrite length_app, IH. simpl. lia.
Qed.

Lemma row_cell_app_l (i : nat) (a b : list (cell num)) :
  i < length a -> row_cell i (a ++ b) = row_cell i a.
Proof. intros Hi. unfold row_cell. by rewrite lookup_app_l. Qed.

Lemma row_cell_app_r (a b : list (cell num)) (i : nat) :
  row_cell (length a + i) (a ++ b) = row_cell i b.
Proof.
  unfold row_cell. rewrite lookup_app_r by lia. f_equal. f_equal. lia.
Qed.

Lemma extend_row_text (k : nat) (r : list (cell num)) :
  k <= 2 -> Forall (fun c => is_num_cell c = false) r ->
  Forall (fun c => is_num_cell c = false) (extend_row k r).
Proof.
  intros Hk Hr. induction k as [|k IH]; [done|]. cbn [extend_row].
  apply Forall_app. split; [apply IH; lia|]. constructor; [|done].
  destruct k as [|[|k]]; [| |lia]; cbn [new_cell].
  - destruct (row_cell 0 _) as [s| |]; cbn; [|done..].
    by destruct (date_search s).
  - by destruct (row_cell 1 _).
Qed.

Lemma coerce_cell_idem (c : cell num) :
  is_amount c = true -> coerce_cell c = c.
Proof. by destruct c. Qed.

Lemma extend_row_amount (k j : nat) (r : list (cell num)) :
  length r + 2 <= j < length r + k ->
  is_amount (row_cell j (extend_row k r)) = true.
Proof.
  induction k as [|k IH]; [lia|]. intros Hj. cbn [extend_row].
  destruct (decide (j < length r + k)) as [Hlt|Hge].
  - rewrite row_cell_app_l by (rewrite length_extend_row; lia).
    apply IH. lia.
  - assert (j = length (extend_row k r) + 0) as ->
      by (rewrite length_extend_row; lia).
    rewrite row_cell_app_r. unfold row_cell. cbn [lookup list_lookup default].
    destruct k as [|[|k]]; [lia..|]. cbn [new_cell from_option id].
    apply coerce_cell_amount.
Qed.

Lemma positions_from_app (i : nat) (l : label num) (a b : list (label num)) :
  positions_from i l (a ++ b)
  = (positions_from i l a ++ positions_from (i + length a) l b)%list.
Proof.
  revert i. induction a as [|c a IH]; intros i; cbn [positions_from app length].
  - by rewrite Nat.add_0_r.
  - rewrite IH. replace (S i + length a) with (i + S (length a)) by lia.
    by destruct (decide (c = l)).
Qed.

Lemma positions_from_LVal_range (i : nat) (c : cell num) (ns : list nat) :
  positions_from i (LVal c) (map LPos ns) = [].
Proof.
  revert i. induction ns as [|n ns IH]; intros i; cbn [map positions_from];
    [done|].
  rewrite decide_False by done. apply IH.
Qed.

Lemma positions_in_frame (w : nat) (l : label num) (c : cell num)
  (names : list (label num)) :
  l = LVal c ->
  positions_from 0 l (range_index w ++ names) = positions_from w l names.
Proof.
  intros ->. rewrite positions_from_app. unfold range_index.
  by rewrite positions_from_LVal_range, length_map, length_seq.
Qed.

Lemma setitem_fresh (cols : list (label num)) (dts : list dtype)
  (idx : list (label num)) (rs : list (list (cell num))) (name : string)
  (dt : dtype) (f : list (cell num) -> cell num) :
  positions_from 0 (str_label name) cols = [] ->
  setitem (Frame cols dts idx rs) name dt (map f rs)
  = Frame (cols ++ [str_label name])%list (dts ++ [dt])%list idx
          (map (fun r => (r ++ [f r])%list) rs).
Proof.
  intros Hpos. unfold setitem. cbn [columns dtypes index rows].
  by rewrite Hpos, zip_with_map_r.
Qed.

Lemma to_numeric_column (df : DataFrame num) (i : nat) :
  column_dtype df i = DObject \/
  Forall (fun c => is_amount c = true) (column_cells df i) ->
  exists dt,
    to_numeric ErrorsCoerce df (OneColumn i)
    = Ok (i, dt, map coerce_cell (column_cells df i)).
Proof.
  intros Hcol. unfold to_numeric.
  assert (Hsame : forall cs : list (cell num),
            Forall (fun c => is_amount c = true) cs -> cs = map coerce_cell cs).
  { intros cs Hall. induction Hall as [|c cs Hc _ IH]; [done|].
    cbn [map]. rewrite (coerce_cell_idem c Hc). by f_equal. }
  destruct (column_dtype df i) eqn:Hdt.
  - rewrite res_mapM_coerce. cbn [res_bind]. by eexists.
  - destruct Hcol as [|Hall]; [done|]. eexists. by rewrite <- Hsame.
  - destruct Hcol as [|Hall]; [done|]. eexists. by rewrite <- Hsame.
  - destruct Hcol as [|Hall]; [done|]. eexists. by rewrite <- Hsame.
Qed.

Lemma schema_positions_from (k : nat) :
  positions_from k (str_label "Date") (schema (num:=num)) = [k] /\
  positions_from k (str_label "Description") (schema (num:=num)) = [S k] /\
  positions_from k (str_label "Debit Amt") (schema (num:=num)) = [S (S k)] /\
  positions_from k (str_label "Credit Amt") (schema (num:=num)) = [S (S (S k))] /\
  positions_from k (str_label "Balance") (schema (num:=num))
  = [S (S (S (S k)))].
Proof. repeat split; reflexivity. Qed.

Lemma last_five (w : nat) (l : list (cell num)) :
  length l = w + 5 ->
  [row_cell w l; row_cell (S w) l; row_cell (S (S w)) l;
   row_cell (S (S (S w))) l; row_cell (S (S (S (S w)))) l]
  = drop w l.
Proof.
  intros Hlen.
  assert (Hl : l = (take w l ++ drop w l)%list) by (by rewrite take_drop).
  assert (Hw : length (take w l) = w) by (rewrite length_take; lia).
  assert (Hd : length (drop w l) = 5) by (rewrite length_drop; lia).
  remember (take w l) as tk eqn:Htk. remember (drop w l) as dr eqn:Hdr.
  clear Htk Hdr. subst l w.
  destruct dr as [|a [|b [|c [|d [|e [|? ?]]]]]]; simpl in Hd; try lia.
  replace (length tk) with (length tk + 0) at 1 by lia.
  replace (S (length tk)) with (length tk + 1) by lia.
  replace (S (length tk + 1)) with (length tk + 2) by lia.
  replace (S (length tk + 2)) with (length tk + 3) by lia.
  replace (S (length tk + 3)) with (length tk + 4) by lia.
  by rewrite !row_cell_app_r.
Qed.

(** The frame after [k] assignments. *)
Lemma clean_spec (w : nat) (idx : list (label num))
  (rs : list (list (cell num))) :
  0 < w ->
  Forall (fun r => length r = w) rs ->
  text_only rs ->
  exists dts,
    clean (Frame (range_index w) (replicate w DObject) idx rs)
    = Ok (Frame schema dts (select_by_mask (map has_date rs) idx)
                (map parsed_row (List.filter has_date rs))).
Proof.
  intros Hw Hlen Htext.
  set (rs1 := List.filter has_date rs).
  assert (Hlen1 : Forall (fun r => length r = w) rs1).
  { apply Forall_forall. intros r Hr.
    apply list_elem_of_In, filter_In in Hr as [Hr _].
    apply list_elem_of_In in Hr. exact (proj1 (Forall_forall _ _) Hlen r Hr). }
  assert (Htext1 : text_only rs1) by (by apply filter_text).
  (* The column at a position below [w + 2] is an object column. *)
  assert (Hobj : forall cols (nd : list dtype) idx0 rs0 i,
            i < w + 2 ->
            column_dtype (Frame (num:=num) cols
                            (replicate (w + 2) DObject ++ nd) idx0 rs0) i
            = DObject).
  { intros cols nd idx0 rs0 i Hi. unfold column_dtype. cbn [dtypes].
    rewrite lookup_app_l by (rewrite length_replicate; lia).
    by rewrite lookup_replicate_2. }
  (* The text columns. *)
  assert (Hstr : forall n cols idx0 (rs0 : list (list (cell num))) i,
            text_only rs0 ->
            str_accessor (Frame cols (replicate n DObject) idx0 rs0)
                         (OneColumn i) = Ok i).
  { intros n cols idx0 rs0 i Hrs0. apply str_accessor_text.
    - apply column_dtype_object. by apply Forall_replicate.
    - unfold column_cells. cbn [rows]. apply Forall_map.
      eapply Forall_impl; [exact Hrs0|]. intros r Hr.
      by apply row_cell_text. }
  assert (Htext2 : text_only (map (extend_row 1) rs1)).
  { apply Forall_map. eapply Forall_impl; [exact Htext1|].
    intros r Hr. apply extend_row_text; [lia|done]. }
  (* The numeric columns. *)
  assert (Hnum : forall k cols nd idx0,
            2 <= k ->
            exists dt,
              to_numeric ErrorsCoerce
                (Frame cols (replicate (w + 2) DObject ++ nd) idx0
                       (map (extend_row k) rs1)) (OneColumn k)
              = Ok (k, dt, map (fun r => new_cell k (extend_row k r)) rs1)).
  { intros k cols nd idx0 Hk.
    match goal with |- exists dt, to_numeric _ ?F _ = _ =>
      destruct (to_numeric_column F k) as [dt Hdt] end.
    - destruct (decide (k < w + 2)) as [Hlt|Hge]; [left; by apply Hobj|].
      right. unfold column_cells. cbn [rows]. rewrite map_map.
      apply Forall_map. eapply Forall_impl; [exact Hlen1|].
      intros r Hr. cbn beta in *. apply extend_row_amount. lia.
    - exists dt. rewrite Hdt. unfold column_cells. cbn [rows].
      rewrite !map_map. do 3 f_equal.
      destruct k as [|[|k]]; [lia..|]. done. }
  set (idx1 := select_by_mask (map has_date rs) idx).
  set (c0 := range_index (num:=num) w).
  set (c1 := (c0 ++ [str_label "Date"])%list).
  set (c2 := (c1 ++ [str_label "Description"])%list).
  set (c3 := (c2 ++ [str_label "Debit Amt"])%list).
  set (c4 := (c3 ++ [str_label "Credit Amt"])%list).
  set (c5 := (c4 ++ [str_label "Balance"])%list).
  assert (Hc5 : c5 = (c0 ++ schema)%list).
  { unfold c5, c4, c3, c2, c1. by rewrite <- !app_assoc. }
  assert (Hfresh : forall (name : string) (k : nat) (names : list (label num)),
            positions_from w (str_label name) names = [] ->
            positions_from 0 (str_label name) (c0 ++ names) = []).
  { intros name k names Hpos.
    by rewrite (positions_in_frame w _ (VStr name)). }
  assert (Hncols : forall k (cols : list (label num)) dts idx0 rs0,
            length cols = w + k ->
            iloc (Frame cols dts idx0 rs0) k = Ok (OneColumn k)).
  { intros k cols dts idx0 rs0 Hcols. unfold iloc, ncols. cbn [columns].
    rewrite Hcols. destruct (Nat.ltb_spec k (w + k)) as [_|]; [done|lia]. }
  assert (Hl0 : length c0 = w + 0)
    by (unfold c0; rewrite length_range_index; lia).
  assert (Hl1 : length c1 = w + 1)
    by (unfold c1; rewrite length_app, Hl0; simpl; lia).
  assert (Hl2 : length c2 = w + 2)
    by (unfold c2; rewrite length_app, Hl1; simpl; lia).
  assert (Hl3 : length c3 = w + 3)
    by (unfold c3; rewrite length_app, Hl2; simpl; lia).
  assert (Hl4 : length c4 = w + 4)
    by (unfold c4; rewrite length_app, Hl3; simpl; lia).
  set (d2 := (replicate (w + 2) DObject ++ [])%list).
  assert (Hd2 : (replicate (w + 1) DObject ++ [DObject])%list = d2).
  { unfold d2. rewrite app_nil_r.
    change [DObject] with (replicate 1 DObject).
    rewrite <- replicate_add. f_equal. lia. }
  set (F0 := Frame (num:=num) c0 (replicate w DObject) idx rs).
  set (F1 := Frame (num:=num) c0 (replicate w DObject) idx1 rs1).
  set (F2 := Frame (num:=num) c1 (replicate (w + 1) DObject) idx1
                   (map (extend_row 1) rs1)).
  set (F3 := Frame (num:=num) c2 d2 idx1 (map (extend_row 2) rs1)).
  assert (E0 : filter_rows (fun r => str_contains_cell (row_cell 0 r)) F0 = F1)
    by done.
  assert (E1 : setitem F1 "Date" DObject
                 (map str_extract_cell (column_cells F1 0)) = F2).
  { unfold F1, column_cells. cbn [rows]. rewrite map_map.
    rewrite (setitem_fresh c0 _ _ rs1 "Date" DObject
               (fun r => str_extract_cell (row_cell 0 r)))
      by (unfold c0, range_index; apply positions_from_LVal_range).
    unfold F2. f_equal. change [DObject] with (replicate 1 DObject).
    by rewrite <- replicate_add. }
  assert (E2 : setitem F2 "Description" DObject
                 (map str_replace_cell (column_cells F2 1)) = F3).
  { unfold F2, column_cells. cbn [rows].
    rewrite (map_map (row_cell 1) str_replace_cell).
    rewrite (setitem_fresh c1 _ _ _ "Description" DObject
               (fun r => str_replace_cell (row_cell 1 r)))
      by (by apply (Hfresh _ 0)).
    unfold F3. by rewrite map_map, Hd2. }
  destruct (Hnum 2 c2 [] idx1) as [dt1 Hdt1]; [lia|].
  fold d2 in Hdt1. fold F3 in Hdt1.
  set (F4 := Frame (num:=num) c3 (d2 ++ [dt1])%list idx1
                   (map (extend_row 3) rs1)).
  assert (E3 : setitem F3 "Debit Amt" dt1
                 (map (fun r => new_cell 2 (extend_row 2 r)) rs1) = F4).
  { unfold F3. rewrite <- (map_map (extend_row 2) (new_cell 2)).
    rewrite (setitem_fresh c2 _ _ _ "Debit Amt" dt1 (new_cell 2))
      by (unfold c2, c1; rewrite <- app_assoc; by apply (Hfresh _ 0)).
    unfold F4. by rewrite map_map. }
  destruct (Hnum 3 c3 ([] ++ [dt1])%list idx1) as [dt2 Hdt2]; [lia|].
  rewrite (app_assoc (replicate (w + 2) DObject)) in Hdt2.
  fold d2 in Hdt2. fold F4 in Hdt2.
  set (F5 := Frame (num:=num) c4 ((d2 ++ [dt1]) ++ [dt2])%list idx1
                   (map (extend_row 4) rs1)).
  assert (E4 : setitem F4 "Credit Amt" dt2
                 (map (fun r => new_cell 3 (extend_row 3 r)) rs1) = F5).
  { unfold F4. rewrite <- (map_map (extend_row 3) (new_cell 3)).
    rewrite (setitem_fresh c3 _ _ _ "Credit Amt" dt2 (new_cell 3))
      by (unfold c3, c2, c1; rewrite <- !app_assoc; by apply (Hfresh _ 0)).
    unfold F5. by rewrite map_map. }
  destruct (Hnum 4 c4 (([] ++ [dt1]) ++ [dt2])%list idx1) as [dt3 Hdt3];
    [lia|].
  rewrite !(app_assoc (replicate (w + 2) DObject)) in Hdt3.
  fold d2 in Hdt3. fold F5 in Hdt3.
  set (F6 := Frame (num:=num) c5 (((d2 ++ [dt1]) ++ [dt2]) ++ [dt3])%list idx1
                   (map (extend_row 5) rs1)).
  assert (E5 : setitem F5 "Balance" dt3
                 (map (fun r => new_cell 4 (extend_row 4 r)) rs1) = F6).
  { unfold F5. rewrite <- (map_map (extend_row 4) (new_cell 4)).
    rewrite (setitem_fresh c4 _ _ _ "Balance" dt3 (new_cell 4))
      by (unfold c4, c3, c2, c1; rewrite <- !app_assoc; by apply (Hfresh _ 0)).
    unfold F6. by rewrite map_map. }
  assert (I0 : iloc F0 0 = Ok (OneColumn 0)) by (by apply (Hncols 0)).
  assert (I1 : iloc F1 0 = Ok (OneColumn 0)) by (by apply (Hncols 0)).
  assert (I2 : iloc F2 1 = Ok (OneColumn 1)) by (by apply (Hncols 1)).
  assert (I3 : iloc F3 2 = Ok (OneColumn 2)) by (by apply (Hncols 2)).
  assert (I4 : iloc F4 3 = Ok (OneColumn 3)) by (by apply (Hncols 3)).
  assert (I5 : iloc F5 4 = Ok (OneColumn 4)) by (by apply (Hncols 4)).
  assert (S0 : str_accessor F0 (OneColumn 0) = Ok 0) by (by apply Hstr).
  assert (S1 : str_accessor F1 (OneColumn 0) = Ok 0) by (by apply Hstr).
  assert (S2 : str_accessor F2 (OneColumn 1) = Ok 1) by (by apply Hstr).
  assert (G6 : getitem_list F6 schema_names
               = Ok (Frame schema
                       (map (column_dtype F6)
                            [w; S w; S (S w); S (S (S w)); S (S (S (S w)))])
                       idx1 (map parsed_row rs1))).
  { unfold getitem_list, F6. cbn [columns dtypes index rows]. rewrite Hc5.
    destruct (schema_positions_from w) as (Hp0 & Hp1 & Hp2 & Hp3 & Hp4).
    unfold schema_names. cbn [List.filter flat_map].
    unfold c0. rewrite !(positions_in_frame w _ (VStr _)) by done.
    rewrite Hp0, Hp1, Hp2, Hp3, Hp4. cbn [app map].
    rewrite !(bool_decide_eq_false_2 ([_] = [])) by done.
    rewrite bool_decide_eq_true_2 by done.
    f_equal. f_equal. rewrite map_map.
    apply map_ext_Forall. eapply Forall_impl; [exact Hlen1|].
    intros r Hr. cbn beta in *. unfold parsed_row.
    rewrite last_five by (rewrite length_extend_row; lia). by rewrite Hr. }
  clearbody F0 F1 F2 F3 F4 F5 F6.
  unfold clean. rewrite I0. cbn [res_bind]. rewrite S0. cbn [res_bind].
  rewrite E0, I1. cbn [res_bind]. rewrite S1. cbn [res_bind].
  rewrite E1, I2. cbn [res_bind]. rewrite S2. cbn [res_bind].
  rewrite E2, I3. cbn [res_bind]. rewrite Hdt1. cbn [res_bind].
  rewrite E3, I4. cbn [res_bind]. rewrite Hdt2. cbn [res_bind].
  rewrite E4, I5. cbn [res_bind]. rewrite Hdt3. cbn [res_bind].
  rewrite E5, G6. by eexists.
Qed.

Lemma parse_tables_spec (tables : list grid) :
  tables <> [] ->
  0 < table_width tables ->
  exists dts,
    icici_parser.parse_tables (num:=num) tables
    = Ok (Frame schema dts
                (select_by_mask (map has_date (rows (concat (num:=num) tables)))
                                (index (concat tables)))
                (map parsed_row (List.filter has_date (rows (concat tables))))).
Proof.
  intros Hne Hw. unfold icici_parser.parse_tables, pd_concat.
  destruct tables as [|g tables]; [done|]. cbn [res_bind].
  destruct (concat_width (num:=num) (g :: tables)) as (Hcols & Hdts & Hrows).
  pose proof (concat_text (num:=num) (g :: tables)) as Htext.
  destruct (concat (g :: tables)) as [cols dts idx rs]. cbn in Hcols, Hdts.
  subst cols dts. cbn [rows index] in *. by apply clean_spec.
Qed.

Lemma parsed_row_cells (r : list (cell num)) :
  parsed_row r
  = [new_cell 0 r; new_cell 1 (extend_row 1 r); new_cell 2 (extend_row 2 r);
     new_cell 3 (extend_row 3 r); new_cell 4 (extend_row 4 r)].
Proof.
  unfold parsed_row. cbn [extend_row]. rewrite <- !app_assoc.
  by rewrite drop_app_length.
Qed.

Lemma extend_row_cell (k i : nat) (r : list (cell num)) :
  i < length r -> row_cell i (extend_row k r) = row_cell i r.
Proof.
  intros Hi. induction k as [|k IH]; [done|]. cbn [extend_row].
  rewrite row_cell_app_l by (rewrite length_extend_row; lia). done.
Qed.

Lemma parsed_row_wide (r : list (cell num)) :
  5 <= length r -> parsed_row r = transaction_row r.
Proof.
  intros Hr. rewrite parsed_row_cells. unfold transaction_row.
  cbn [new_cell]. by rewrite !extend_row_cell by lia.
Qed.

Lemma date_search_match (s t : string) :
  date_search s = Some t -> PyStr.date_match t = true.
Proof.
  induction s as [|c s IH]; cbn [date_search].
  - destruct (PyStr.date_match EmptyString) eqn:Hm; [|done]. by intros [= <-].
  - destruct (PyStr.date_match (String c s)) eqn:Hm; [by intros [= <-]|done].
Qed.

Lemma date_match_substring (t : string) :
  PyStr.date_match t = true ->
  PyStr.date_match (String.substring 0 10 t) = true /\
  String.length (String.substring 0 10 t) = 10.
Proof.
  intros Hm.
  do 10 (destruct t as [|? t]; [done|]).
  assert (Hend : String.substring 0 0 t = EmptyString) by (by destruct t).
  cbn [String.substring String.length]. rewrite Hend. split; [|reflexivity].
  rewrite <- Hm. reflexivity.
Qed.

Lemma parse_tables_no_columns (tables : list grid) :
  tables <> [] ->
  table_width tables = 0 ->
  icici_parser.parse_tables (num:=num) tables
  = Raise (Exn (OtherException "IndexError")
               "single positional indexer is out-of-bounds").
Proof.
  intros Hne Hzero. destruct tables as [|g tables]; [done|].
  unfold icici_parser.parse_tables, pd_concat. cbn [res_bind].
  destruct (concat_width (num:=num) (g :: tables)) as (Hcols & _).
  unfold clean, iloc at 1, ncols. rewrite Hcols, Hzero. done.
Qed.

(** X26. In a frame of five columns or more, the saved parser keeps the rows
    whose first cell holds a date somewhere, under the row labels they had,
    and makes of each the date found, the description with line breaks
    replaced, and the three amounts cast. *)
Theorem icici_parse_rows (tables : list grid) :
  tables <> [] ->
  5 <= table_width tables ->
  exists df,
    icici_parser.parse_tables (num:=num) tables = Ok df /\
    columns df = schema /\
    index df = select_by_mask (map has_date (rows (concat (num:=num) tables)))
                 (range_index (length (rows (concat (num:=num) tables)))) /\
    rows df = map transaction_row
                (List.filter has_date (rows (concat tables))).
Proof.
  intros Hne Hw.
  destruct (parse_tables_spec tables Hne) as [dts ->]; [lia|].
  eexists. split; [done|]. cbn [columns index rows].
  split; [done|]. split; [done|].
  apply map_ext_Forall, Forall_forall. intros r Hr.
  apply list_elem_of_In, filter_In in Hr as [Hr _].
  apply list_elem_of_In in Hr.
  destruct (concat_width (num:=num) tables) as (_ & _ & Hrows).
  apply parsed_row_wide.
  rewrite (proj1 (Forall_forall _ _) Hrows r Hr). done.
Qed.

(** X27. The saved parser fails on an empty list of tables and on tables without
    columns; on every other input it returns a table with the five named
    columns and one row for each row with a date, however few columns the
    tables have. *)
Theorem icici_parse_outcome (tables : list grid) :
  match tables with
  | [] =>
      icici_parser.parse_tables (num:=num) tables
      = Raise (Exn ValueError "No objects to concatenate")
  | _ =>
      if (table_width tables =? 0)%nat then
        icici_parser.parse_tables (num:=num) tables
        = Raise (Exn (OtherException "IndexError")
                     "single positional indexer is out-of-bounds")
      else
        exists df,
          icici_parser.parse_tables (num:=num) tables = Ok df /\
          columns df = schema /\
          length (rows df)
          = length (List.filter has_date (rows (concat (num:=num) tables)))
  end.
Proof.
  destruct tables as [|g tables]; [done|].
  destruct (Nat.eqb_spec (table_width (g :: tables)) 0) as [Hzero|Hpos].
  - by apply parse_tables_no_columns.
  - destruct (parse_tables_spec (g :: tables)) as [dts ->]; [done|lia|].
    eexists. split; [done|]. cbn [columns rows]. split; [done|].
    by rewrite length_map.
Qed.

(** X28. Whenever the saved parser returns a table, its columns are the five
    named ones, and every row starts with a date of ten characters and
    carries a number or the missing marker in each amount. *)
Theorem icici_result_shape (tables : list grid) (df : DataFrame num) :
  icici_parser.parse_tables tables = Ok df ->
  columns df = schema /\
  Forall (fun r => exists d t a b c,
            r = [VStr d; t; a; b; c] /\ PyStr.date_match d = true /\
            String.length d = 10 /\
            is_amount a = true /\ is_amount b = true /\ is_amount c = true)
         (rows df).
Proof.
  intros Hdf.
  assert (Hne : tables <> []) by (intros ->; done).
  assert (Hw : 0 < table_width tables).
  { pose proof (parse_tables_no_columns tables) as Haux.
    destruct (decide (table_width tables = 0)) as [Hzero|]; [|lia].
    by rewrite (Haux Hne Hzero) in Hdf. }
  destruct (parse_tables_spec tables Hne Hw) as [dts Hspec].
  rewrite Hspec in Hdf. injection Hdf as <-. cbn [columns rows].
  split; [done|]. apply Forall_map, Forall_forall. intros r Hr.
  apply list_elem_of_In, filter_In in Hr as [_ Hdate].
  rewrite parsed_row_cells. cbn [new_cell].
  unfold has_date, str_contains_cell in Hdate.
  destruct (row_cell 0 r) as [s| |]; [|done..].
  apply bool_decide_eq_true_1 in Hdate as [t Ht].
  cbn [str_extract_cell]. rewrite Ht.
  destruct (date_match_substring t (date_search_match _ _ Ht)) as [Hm Hl].
  eexists _, _, _, _, _. split; [reflexivity|].
  by rewrite !coerce_cell_amount.
Qed.

End IciciProps.

(** ** The examples of the further properties *)

Section EdgeExamples.
#[local] Existing Instance Demo.libs.
#[local] Existing Instance Demo.silent_host.

Lemma main_usage_error_witness :
  (length ["agent.py"] < 3 \/ nth 1 ["agent.py"] EmptyString <> "--target") /\
  main ["agent.py"] Demo.sample_world
  = (Raise (Exn (SystemExit 1) (pretty 1)),
     add_stdout "Usage: python agent.py --target <bank_name>" Demo.sample_world).
Proof.
  assert (Hargs : length ["agent.py"] < 3 \/
                  nth 1 ["agent.py"] EmptyString <> "--target")
    by (left; simpl; lia).
  split; [exact Hargs|].
  exact (main_usage_error ["agent.py"] Demo.sample_world Hargs).
Defined.

Lemma run_test_blank_code_witness :
  whitespace_only " " /\
  run_test "icici" Demo.sample_pdf Demo.sample_ref " " Demo.sample_world
  = (Ok (false, "LLM returned empty code."),
     add_call (EvValidate " ") Demo.sample_world).
Proof.
  assert (Hws : whitespace_only " ") by (repeat constructor).
  split; [exact Hws|].
  exact (run_test_blank_code "icici" Demo.sample_pdf Demo.sample_ref " "
           Demo.sample_world Hws).
Defined.

Lemma run_test_column_mismatch_witness :
  (is_blank Edge.two_columns_program = false /\
   run_generated_code (Host0 := Edge.host_with (fun _ _ => Ok None))
     Edge.two_columns_program Demo.sample_pdf "icici"
     (add_call (EvValidate Edge.two_columns_program) Demo.sample_world)
   = (Ok (PyFrame Edge.two_columns),
      (run_generated_code (Host0 := Edge.host_with (fun _ _ => Ok None))
         Edge.two_columns_program Demo.sample_pdf "icici"
         (add_call (EvValidate Edge.two_columns_program) Demo.sample_world)).2) /\
   columns Edge.two_columns <> columns Demo.reference) /\
  (run_test (Host0 := Edge.host_with (fun _ _ => Ok None))
     "icici" Demo.sample_pdf Demo.sample_ref Edge.two_columns_program
     Demo.sample_world).1
  = Ok (false, "Mismatch columns." +:+ nl +:+
               "Expected: " +:+ labels_repr (columns Demo.reference) +:+ nl +:+
               "Got: " +:+ labels_repr (columns Edge.two_columns)).
Proof.
  set (host := Edge.host_with (fun _ _ => Ok None)).
  set (w1 := (run_generated_code (Host0 := host)
                Edge.two_columns_program Demo.sample_pdf "icici"
                (add_call (EvValidate Edge.two_columns_program)
                          Demo.sample_world)).2).
  assert (Hcode : is_blank Edge.two_columns_program = false)
    by (vm_compute; reflexivity).
  assert (Hrun :
    run_generated_code (Host0 := host)
      Edge.two_columns_program Demo.sample_pdf "icici"
      (add_call (EvValidate Edge.two_columns_program) Demo.sample_world)
    = (Ok (PyFrame Edge.two_columns), w1))
    by (vm_compute; reflexivity).
  assert (Href : read_csv_as_df Demo.sample_ref w1 = (Ok Demo.reference, w1))
    by (vm_compute; reflexivity).
  assert (Hcols : columns Edge.two_columns <> columns Demo.reference)
    by (vm_compute; discriminate).
  split; [exact (conj Hcode (conj Hrun Hcols))|].
  exact (f_equal fst
           (run_test_column_mismatch (Host0 := host)
              "icici" Demo.sample_pdf Demo.sample_ref Edge.two_columns_program
              Edge.two_columns Demo.reference Demo.sample_world w1
              Hcode Hrun Href Hcols)).
Defined.

Lemma run_test_reference_error_escapes_witness :
  (is_blank Demo.object_frame_program = false /\
   (run_generated_code Demo.object_frame_program Demo.sample_pdf "icici"
      (add_call (EvValidate Demo.object_frame_program) Demo.empty_world)).1
   = Ok (PyFrame Demo.object_frame)) /\
  (run_test "icici" Demo.sample_pdf Demo.sample_ref Demo.object_frame_program
            Demo.empty_world).1
  = Raise (no_such_file Demo.sample_ref).
Proof.
  set (w1 := (run_generated_code Demo.object_frame_program Demo.sample_pdf
                "icici" (add_call (EvValidate Demo.object_frame_program)
                                  Demo.empty_world)).2).
  assert (Hcode : is_blank Demo.object_frame_program = false)
    by (vm_compute; reflexivity).
  assert (Hrun :
    run_generated_code Demo.object_frame_program Demo.sample_pdf "icici"
      (add_call (EvValidate Demo.object_frame_program) Demo.empty_world)
    = (Ok (PyFrame Demo.object_frame), w1))
    by (vm_compute; reflexivity).
  assert (Href : (read_csv_as_df Demo.sample_ref w1).1
                 = Raise (no_such_file Demo.sample_ref))
    by (vm_compute; reflexivity).
  split; [exact (conj Hcode (f_equal fst Hrun))|].
  exact (f_equal fst
           (run_test_reference_error_escapes
              "icici" Demo.sample_pdf Demo.sample_ref Demo.object_frame_program
              (PyFrame Demo.object_frame) Demo.empty_world w1
              (no_such_file Demo.sample_ref) Hcode Hrun Href)).
Defined.

Lemma run_test_not_a_frame_witness :
  (is_blank Edge.none_program = false /\
   (run_generated_code (Host0 := Edge.host_with (fun _ _ => Ok None))
      Edge.none_program Demo.sample_pdf "icici"
      (add_call (EvValidate Edge.none_program) Demo.sample_world)).1
   = Ok (PyOther "NoneType")) /\
  (run_test (Host0 := Edge.host_with (fun _ _ => Ok None))
     "icici" Demo.sample_pdf Demo.sample_ref Edge.none_program
     Demo.sample_world).1
  = Raise (Exn AttributeError
             "'NoneType' object has no attribute 'reset_index'").
Proof.
  set (host := Edge.host_with (fun _ _ => Ok None)).
  set (w1 := (run_generated_code (Host0 := host)
                Edge.none_program Demo.sample_pdf "icici"
                (add_call (EvValidate Edge.none_program) Demo.sample_world)).2).
  assert (Hcode : is_blank Edge.none_program = false)
    by (vm_compute; reflexivity).
  assert (Hrun :
    run_generated_code (Host0 := host)
      Edge.none_program Demo.sample_pdf "icici"
      (add_call (EvValidate Edge.none_program) Demo.sample_world)
    = (Ok (PyOther "NoneType"), w1))
    by (vm_compute; reflexivity).
  assert (Href : (read_csv_as_df Demo.sample_ref w1).1 = Ok Demo.reference)
    by (vm_compute; reflexivity).
  split; [exact (conj Hcode (f_equal fst Hrun))|].
  exact (f_equal fst
           (run_test_not_a_frame (Host0 := host)
              "icici" Demo.sample_pdf Demo.sample_ref Edge.none_program
              "NoneType" Demo.reference Demo.sample_world w1
              Hcode Hrun Href)).
Defined.

Lemma run_test_passes_base_exception_witness :
  (prepare_scratch (Host0 := Edge.host_with (fun _ _ => Ok None))
     Edge.exit_program "icici" Demo.sample_world
   = (Ok (Demo.scratch_name, Demo.scratch_file),
      (prepare_scratch (Host0 := Edge.host_with (fun _ _ => Ok None))
         Edge.exit_program "icici" Demo.sample_world).2) /\
   is_blank Edge.exit_program = false /\
   is_Exception (Exn (SystemExit 2) "2") = false) /\
  (run_test (Host0 := Edge.host_with (fun _ _ => Ok None))
     "icici" Demo.sample_pdf Demo.sample_ref Edge.exit_program
     Demo.sample_world).1
  = Raise (Exn (SystemExit 2) "2").
Proof.
  set (host := Edge.host_with (fun _ _ => Ok None)).
  set (w1 := (prepare_scratch (Host0 := host) Edge.exit_program "icici"
                Demo.sample_world).2).
  assert (Hprep :
    prepare_scratch (Host0 := host) Edge.exit_program "icici" Demo.sample_world
    = (Ok (Demo.scratch_name, Demo.scratch_file), w1))
    by (vm_compute; reflexivity).
  assert (Hcand :
    candidate_raises (Host0 := host)
      ("custom_parsers." +:+ Demo.scratch_name) Demo.scratch_file
      Demo.sample_pdf (fs w1) (Exn (SystemExit 2) "2") (fs w1))
    by (left; vm_compute; reflexivity).
  assert (Hdir : fs w1 !! Demo.scratch_file <> Some Dir)
    by (vm_compute; discriminate).
  assert (Hcode : is_blank Edge.exit_program = false)
    by (vm_compute; reflexivity).
  split; [exact (conj Hprep (conj Hcode eq_refl))|].
  exact (run_test_passes_base_exception (Host0 := host)
           "icici" Demo.sample_pdf Demo.sample_ref Edge.exit_program
           Demo.scratch_name Demo.scratch_file Demo.sample_world w1
           (Exn (SystemExit 2) "2") (fs w1) Hprep Hcand Hdir Hcode eq_refl).
Defined.

Lemma loop_catches_exceptions_witness :
  (attempts (Host0 := Edge.host_with (fun _ _ => Ok (Some Edge.exit_program)))
     "icici" Demo.sample_pdf Demo.sample_ref 3 [1; 2; 3] Demo.sample_world).1
  = Raise (Exn (SystemExit 2) "2") /\
  is_Exception (Exn (SystemExit 2) "2") = false.
Proof.
  set (host := Edge.host_with (fun _ _ => Ok (Some Edge.exit_program))).
  assert (Hrun :
    attempts (Host0 := host)
      "icici" Demo.sample_pdf Demo.sample_ref 3 [1; 2; 3] Demo.sample_world
    = (Raise (Exn (SystemExit 2) "2"),
       (attempts (Host0 := host)
          "icici" Demo.sample_pdf Demo.sample_ref 3 [1; 2; 3]
          Demo.sample_world).2))
    by (vm_compute; reflexivity).
  split; [exact (f_equal fst Hrun)|].
  exact (loop_catches_exceptions (Host0 := host)
           "icici" Demo.sample_pdf Demo.sample_ref 3 [1; 2; 3]
           Demo.sample_world _ _ Hrun).
Defined.

Lemma attempt_reference_unreadable_witness :
  ((read_csv_as_df Demo.sample_ref Demo.empty_world).1
   = Raise (no_such_file Demo.sample_ref) /\
   is_Exception (no_such_file Demo.sample_ref) = true) /\
  attempt "icici" Demo.sample_pdf Demo.sample_ref 3 1 Demo.empty_world
  = (Ok false,
     add_stdout ("An unexpected error occurred in attempt " +:+ pretty 1
                 +:+ ": " +:+ exc_str (no_such_file Demo.sample_ref))
       (add_call (EvGenerate 1)
          (add_stdout (attempt_banner 3 1) Demo.empty_world))).
Proof.
  assert (Href : (read_csv_as_df Demo.sample_ref Demo.empty_world).1
                 = Raise (no_such_file Demo.sample_ref))
    by (vm_compute; reflexivity).
  split; [exact (conj Href eq_refl)|].
  exact (attempt_reference_unreadable "icici" Demo.sample_pdf Demo.sample_ref
           3 1 Demo.empty_world (no_such_file Demo.sample_ref) Href eq_refl).
Defined.

Lemma attempt_oracle_failure_witness :
  (read_csv_as_df Demo.sample_ref Demo.sample_world).1 = Ok Demo.reference /\
  (attempt (Host0 := Demo.host_with (fun _ _ => Ok None))
     "icici" Demo.sample_pdf Demo.sample_ref 3 1 Demo.sample_world).1
  = Ok false /\
  calls (attempt (Host0 := Demo.host_with (fun _ _ => Ok None))
           "icici" Demo.sample_pdf Demo.sample_ref 3 1 Demo.sample_world).2
  = (calls Demo.sample_world ++
     [EvGenerate 1;
      EvOracle (build_prompt "icici" (to_string (head 5 Demo.reference)))])%list /\
  fs (attempt (Host0 := Demo.host_with (fun _ _ => Ok None))
        "icici" Demo.sample_pdf Demo.sample_ref 3 1 Demo.sample_world).2
  = fs Demo.sample_world /\
  requests (attempt (Host0 := Demo.host_with (fun _ _ => Ok None))
              "icici" Demo.sample_pdf Demo.sample_ref 3 1 Demo.sample_world).2
  = S (requests Demo.sample_world).
Proof.
  assert (Href : (read_csv_as_df Demo.sample_ref Demo.sample_world).1
                 = Ok Demo.reference)
    by (vm_compute; reflexivity).
  split; [exact Href|].
  exact (attempt_oracle_failure (Host0 := Demo.host_with (fun _ _ => Ok None))
           "icici" Demo.sample_pdf Demo.sample_ref 3 1 Demo.reference
           Demo.sample_world Href (or_introl eq_refl)).
Defined.

Lemma save_parser_code_saves_witness :
  (is_blank "x = 1" = false /\
   PyStr.contains "/" "icici" = false /\
   is_file (fs Demo.sample_world) "custom_parsers" = false /\
   fs Demo.sample_world !! parser_path "icici" <> Some Dir) /\
  (save_parser_code "icici" "x = 1" Demo.sample_world).1 = Ok tt /\
  fs (save_parser_code "icici" "x = 1" Demo.sample_world).2
    !! parser_path "icici" = Some (File "x = 1") /\
  fs (save_parser_code "icici" "x = 1" Demo.sample_world).2
    !! "custom_parsers" = Some Dir /\
  is_Some (fs (save_parser_code "icici" "x = 1" Demo.sample_world).2
             !! init_path) /\
  (forall p, p <> "custom_parsers" -> p <> init_path ->
             p <> parser_path "icici" ->
             fs (save_parser_code "icici" "x = 1" Demo.sample_world).2 !! p
             = fs Demo.sample_world !! p).
Proof.
  assert (Hcode : is_blank "x = 1" = false) by (vm_compute; reflexivity).
  assert (Hslash : PyStr.contains "/" "icici" = false)
    by (vm_compute; reflexivity).
  assert (Hpkg : is_file (fs Demo.sample_world) "custom_parsers" = false)
    by (vm_compute; reflexivity).
  assert (Hdir : fs Demo.sample_world !! parser_path "icici" <> Some Dir)
    by (vm_compute; discriminate).
  split; [exact (conj Hcode (conj Hslash (conj Hpkg Hdir)))|].
  exact (save_parser_code_saves "icici" "x = 1" Demo.sample_world
           Hcode Hslash Hpkg Hdir).
Defined.

Lemma attempt_success_artifacts_witness :
  (attempt (Host0 := Demo.host_with
                       (fun _ _ => Ok (Some make_fallback_parser_code)))
     "icici" Demo.sample_pdf Demo.sample_ref 3 1 Demo.sample_world).1
  = Ok true /\
  exists code text,
    is_blank code = false /\
    In (EvSandbox code)
       (calls (attempt (Host0 := Demo.host_with
                          (fun _ _ => Ok (Some make_fallback_parser_code)))
                 "icici" Demo.sample_pdf Demo.sample_ref 3 1
                 Demo.sample_world).2) /\
    fs (attempt (Host0 := Demo.host_with
                   (fun _ _ => Ok (Some make_fallback_parser_code)))
          "icici" Demo.sample_pdf Demo.sample_ref 3 1 Demo.sample_world).2
      !! parser_path "icici" = Some (File code) /\
    fs (attempt (Host0 := Demo.host_with
                   (fun _ _ => Ok (Some make_fallback_parser_code)))
          "icici" Demo.sample_pdf Demo.sample_ref 3 1 Demo.sample_world).2
      !! output_path "icici" = Some (File text).
Proof.
  set (host := Demo.host_with (fun _ _ => Ok (Some make_fallback_parser_code))).
  assert (Hrun :
    attempt (Host0 := host)
      "icici" Demo.sample_pdf Demo.sample_ref 3 1 Demo.sample_world
    = (Ok true,
       (attempt (Host0 := host)
          "icici" Demo.sample_pdf Demo.sample_ref 3 1 Demo.sample_world).2))
    by (vm_compute; reflexivity).
  split; [exact (f_equal fst Hrun)|].
  exact (attempt_success_artifacts (Host0 := host)
           "icici" Demo.sample_pdf Demo.sample_ref 3 1 Demo.sample_world _
           Hrun).
Defined.

Lemma main_stops_at_success_witness :
  (is_Some (fs Demo.sample_world !! sample_pdf_path "icici") /\
   is_Some (fs Demo.sample_world !! sample_csv_path "icici") /\
   attempts_fail (Host0 := Demo.host_with Edge.second_time)
     "icici" (sample_pdf_path "icici") (sample_csv_path "icici") 3 [1]
     (loop_start "icici" Demo.sample_world) = true /\
   (attempt (Host0 := Demo.host_with Edge.second_time)
      "icici" (sample_pdf_path "icici") (sample_csv_path "icici") 3 2
      (attempts (Host0 := Demo.host_with Edge.second_time)
         "icici" (sample_pdf_path "icici") (sample_csv_path "icici") 3 [1]
         (loop_start "icici" Demo.sample_world)).2).1 = Ok true) /\
  main (Host0 := Demo.host_with Edge.second_time)
    ["agent.py"; "--target"; "icici"] Demo.sample_world
  = (Ok tt,
     (attempt (Host0 := Demo.host_with Edge.second_time)
        "icici" (sample_pdf_path "icici") (sample_csv_path "icici") 3 2
        (attempts (Host0 := Demo.host_with Edge.second_time)
           "icici" (sample_pdf_path "icici") (sample_csv_path "icici") 3 [1]
           (loop_start "icici" Demo.sample_world)).2).2) /\
  exists evs,
    calls (attempt (Host0 := Demo.host_with Edge.second_time)
             "icici" (sample_pdf_path "icici") (sample_csv_path "icici") 3 2
             (attempts (Host0 := Demo.host_with Edge.second_time)
                "icici" (sample_pdf_path "icici") (sample_csv_path "icici") 3
                [1] (loop_start "icici" Demo.sample_world)).2).2
    = (calls Demo.sample_world ++ evs)%list /\
    List.filter is_generate evs = map EvGenerate ([1] ++ [2]) /\
    Forall (fun e => is_fallback e = false) evs.
Proof.
  set (host := Demo.host_with Edge.second_time).
  set (w1 := (attempts (Host0 := host)
                "icici" (sample_pdf_path "icici") (sample_csv_path "icici") 3
                [1] (loop_start "icici" Demo.sample_world)).2).
  set (w' := (attempt (Host0 := host)
                "icici" (sample_pdf_path "icici") (sample_csv_path "icici") 3
                2 w1).2).
  assert (Hpdf : is_Some (fs Demo.sample_world !! sample_pdf_path "icici"))
    by (eexists; vm_compute; reflexivity).
  assert (Hcsv : is_Some (fs Demo.sample_world !! sample_csv_path "icici"))
    by (eexists; vm_compute; reflexivity).
  assert (Hfail :
    attempts_fail (Host0 := host)
      "icici" (sample_pdf_path "icici") (sample_csv_path "icici") 3 [1]
      (loop_start "icici" Demo.sample_world) = true)
    by (vm_compute; reflexivity).
  assert (Hrun :
    attempt (Host0 := host)
      "icici" (sample_pdf_path "icici") (sample_csv_path "icici") 3 2 w1
    = (Ok true, w'))
    by (vm_compute; reflexivity).
  assert (Hseq : seq 1 3 = ([1] ++ 2 :: [3])%list) by reflexivity.
  split; [exact (conj Hpdf (conj Hcsv (conj Hfail (f_equal fst Hrun))))|].
  exact (main_stops_at_success (Host0 := host)
           "agent.py" "icici" [] [1] [3] 2 Demo.sample_world w'
           Hpdf Hcsv Hseq Hfail Hrun).
Defined.

Lemma main_fallback_failure_returns_witness :
  (is_Some (fs Edge.other_world !! sample_pdf_path "icici") /\
   is_Some (fs Edge.other_world !! sample_csv_path "icici") /\
   every_attempt_fails "icici" Edge.other_world = true /\
   (run_test "icici" (sample_pdf_path "icici") (sample_csv_path "icici")
             make_fallback_parser_code
             (fallback_start "icici" Edge.other_world)).1
   = Ok (false,
         PyStr.join nl
           ["Data mismatch. Debug:"; "--- "; "+++ ";
            "-Date Description Debit Amt Credit Amt Balance";
            "-01-04-2024 UPI Payment 1 NaN 10000";
            "+Date Description Debit Amt Credit Amt Balance";
            "+01-04-2024 UPI Payment 500 NaN 10000";
            "+02-04-2024 Salary April NaN NaN 12000"])) /\
  exit_status (main ["agent.py"; "--target"; "icici"] Edge.other_world).1 = 0.
Proof.
  set (message :=
         PyStr.join nl
           ["Data mismatch. Debug:"; "--- "; "+++ ";
            "-Date Description Debit Amt Credit Amt Balance";
            "-01-04-2024 UPI Payment 1 NaN 10000";
            "+Date Description Debit Amt Credit Amt Balance";
            "+01-04-2024 UPI Payment 500 NaN 10000";
            "+02-04-2024 Salary April NaN NaN 12000"]).
  set (w' := (run_test "icici" (sample_pdf_path "icici")
                (sample_csv_path "icici") make_fallback_parser_code
                (fallback_start "icici" Edge.other_world)).2).
  assert (Hpdf : is_Some (fs Edge.other_world !! sample_pdf_path "icici"))
    by (eexists; vm_compute; reflexivity).
  assert (Hcsv : is_Some (fs Edge.other_world !! sample_csv_path "icici"))
    by (eexists; vm_compute; reflexivity).
  assert (Hfail : every_attempt_fails "icici" Edge.other_world = true)
    by (vm_compute; reflexivity).
  assert (Hrun :
    run_test "icici" (sample_pdf_path "icici") (sample_csv_path "icici")
             make_fallback_parser_code (fallback_start "icici" Edge.other_world)
    = (Ok (false, message), w'))
    by (vm_compute; reflexivity).
  split; [exact (conj Hpdf (conj Hcsv (conj Hfail (f_equal fst Hrun))))|].
  rewrite (main_fallback_failure_returns "agent.py" "icici" message []
             Edge.other_world w' Hpdf Hcsv Hfail Hrun).
  reflexivity.
Defined.

Lemma read_csv_as_df_preserves_witness :
  read_csv_as_df Demo.sample_ref Demo.sample_world
  = (Ok Demo.reference, Demo.sample_world) /\
  Demo.sample_world = Demo.sample_world /\
  exists text df,
    fs Demo.sample_world !! Demo.sample_ref = Some (File text) /\
    pd_read_csv text = Ok df /\
    columns Demo.reference = columns df /\
    index Demo.reference = index df /\
    length (rows Demo.reference) = length (rows df) /\
    forall j, (forall col, In col numeric_names ->
                 positions_from 0 (str_label col) (columns df) <> [j]) ->
              column_cells Demo.reference j = column_cells df j.
Proof.
  assert (Hload : read_csv_as_df Demo.sample_ref Demo.sample_world
                  = (Ok Demo.reference, Demo.sample_world))
    by (vm_compute; reflexivity).
  split; [exact Hload|].
  exact (read_csv_as_df_preserves Demo.sample_ref Demo.reference
           Demo.sample_world Demo.sample_world Hload).
Defined.

Lemma read_csv_as_df_missing_column_witness :
  (fs Edge.short_world !! Demo.sample_ref = Some (File Edge.short_csv) /\
   pd_read_csv Edge.short_csv
   = Ok (Frame [str_label "Date"; str_label "Description"] [DObject; DObject]
               [LPos 0] [[VStr "01-04-2024"; VStr "UPI Payment"]]) /\
   In "Debit Amt" numeric_names) /\
  exists e, read_csv_as_df Demo.sample_ref Edge.short_world
            = (Raise e, Edge.short_world) /\
            (exc_cls e = KeyError \/ exc_cls e = TypeError).
Proof.
  assert (Hfile : fs Edge.short_world !! Demo.sample_ref
                  = Some (File Edge.short_csv))
    by (vm_compute; reflexivity).
  assert (Hcsv :
    pd_read_csv Edge.short_csv
    = Ok (Frame [str_label "Date"; str_label "Description"] [DObject; DObject]
                [LPos 0] [[VStr "01-04-2024"; VStr "UPI Payment"]]))
    by (vm_compute; reflexivity).
  assert (Hcol : In "Debit Amt" numeric_names) by (left; reflexivity).
  split; [exact (conj Hfile (conj Hcsv Hcol))|].
  exact (read_csv_as_df_missing_column Demo.sample_ref Edge.short_csv
           "Debit Amt" _ Edge.short_world Hfile Hcsv Hcol eq_refl).
Defined.

Lemma run_generated_code_frame_witness :
  (prepare_scratch Demo.object_frame_program "icici" Demo.sample_world
   = (Ok (Demo.scratch_name, Demo.scratch_file),
      (prepare_scratch Demo.object_frame_program "icici" Demo.sample_world).2) /\
   fs Demo.sample_world !! Demo.scratch_file = None /\
   candidate_neutral ("custom_parsers." +:+ Demo.scratch_name)
     Demo.scratch_file Demo.sample_pdf
     (fs (prepare_scratch Demo.object_frame_program "icici"
            Demo.sample_world).2)) /\
  forall p, p <> "custom_parsers" -> p <> init_path ->
            fs (run_generated_code Demo.object_frame_program Demo.sample_pdf
                  "icici" Demo.sample_world).2 !! p
            = fs Demo.sample_world !! p.
Proof.
  set (w1 := (prepare_scratch Demo.object_frame_program "icici"
                Demo.sample_world).2).
  assert (Hprep :
    prepare_scratch Demo.object_frame_program "icici" Demo.sample_world
    = (Ok (Demo.scratch_name, Demo.scratch_file), w1))
    by (vm_compute; reflexivity).
  assert (Hfresh : fs Demo.sample_world !! Demo.scratch_file = None)
    by (vm_compute; reflexivity).
  assert (Hexec :
    exec_module ("custom_parsers." +:+ Demo.scratch_name) Demo.scratch_file
      (fs w1)
    = Loaded (fs w1) (Some (fun _ f' => (Ok (PyFrame Demo.object_frame), f'))))
    by (vm_compute; reflexivity).
  assert (Hneutral :
    candidate_neutral ("custom_parsers." +:+ Demo.scratch_name)
      Demo.scratch_file Demo.sample_pdf (fs w1))
    by (unfold candidate_neutral; rewrite Hexec; split; reflexivity).
  split; [exact (conj Hprep (conj Hfresh Hneutral))|].
  exact (run_generated_code_frame Demo.object_frame_program Demo.sample_pdf
           "icici" Demo.scratch_name Demo.scratch_file Demo.sample_world w1
           Hprep Hfresh Hneutral).
Defined.

Lemma run_generated_code_registers_witness :
  prepare_scratch Demo.run_error_program "icici" Demo.sample_world
  = (Ok (Demo.scratch_name, Demo.scratch_file),
     (prepare_scratch Demo.run_error_program "icici" Demo.sample_world).2) /\
  sys_modules (run_generated_code Demo.run_error_program Demo.sample_pdf
                 "icici" Demo.sample_world).2
  = ("custom_parsers." +:+ Demo.scratch_name) :: sys_modules Demo.sample_world /\
  draws (run_generated_code Demo.run_error_program Demo.sample_pdf "icici"
           Demo.sample_world).2
  = S (draws Demo.sample_world).
Proof.
  assert (Hprep :
    prepare_scratch Demo.run_error_program "icici" Demo.sample_world
    = (Ok (Demo.scratch_name, Demo.scratch_file),
       (prepare_scratch Demo.run_error_program "icici" Demo.sample_world).2))
    by (vm_compute; reflexivity).
  split; [exact Hprep|].
  exact (run_generated_code_registers Demo.run_error_program Demo.sample_pdf
           "icici" _ _ Demo.sample_world _ Hprep).
Defined.

Lemma run_generated_code_no_entry_point_witness :
  (prepare_scratch Demo.no_entry_program "icici" Demo.sample_world
   = (Ok (Demo.scratch_name, Demo.scratch_file),
      (prepare_scratch Demo.no_entry_program "icici" Demo.sample_world).2) /\
   exec_module ("custom_parsers." +:+ Demo.scratch_name) Demo.scratch_file
     (fs (prepare_scratch Demo.no_entry_program "icici" Demo.sample_world).2)
   = Loaded (fs (prepare_scratch Demo.no_entry_program "icici"
                   Demo.sample_world).2) None) /\
  (run_generated_code Demo.no_entry_program Demo.sample_pdf "icici"
     Demo.sample_world).1
  = Raise (Exn AttributeError
             ("module 'custom_parsers." +:+ Demo.scratch_name
              +:+ "' has no attribute 'parse'")) /\
  is_file (fs (run_generated_code Demo.no_entry_program Demo.sample_pdf
                 "icici" Demo.sample_world).2) Demo.scratch_file = false.
Proof.
  set (w1 := (prepare_scratch Demo.no_entry_program "icici"
                Demo.sample_world).2).
  assert (Hprep :
    prepare_scratch Demo.no_entry_program "icici" Demo.sample_world
    = (Ok (Demo.scratch_name, Demo.scratch_file), w1))
    by (vm_compute; reflexivity).
  assert (Hload :
    exec_module ("custom_parsers." +:+ Demo.scratch_name) Demo.scratch_file
      (fs w1) = Loaded (fs w1) None)
    by (vm_compute; reflexivity).
  assert (Hdir : fs w1 !! Demo.scratch_file <> Some Dir)
    by (vm_compute; discriminate).
  split; [exact (conj Hprep Hload)|].
  exact (run_generated_code_no_entry_point Demo.no_entry_program
           Demo.sample_pdf "icici" Demo.scratch_name Demo.scratch_file
           Demo.sample_world w1 (fs w1) Hprep Hload Hdir).
Defined.

Lemma find_header_first_witness :
  Forall (fun r : list (cell Z) => 2 <= length r)
         (rows (concat Demo.sample_grids)) /\
  ((find_header 0 (rows (concat (num:=Z) Demo.sample_grids)) = Ok (-1)%Z /\
    Forall (fun r => is_header r = false) (rows (concat Demo.sample_grids))) \/
   (exists n r,
      find_header 0 (rows (concat (num:=Z) Demo.sample_grids))
      = Ok (Z.of_nat n) /\
      rows (concat Demo.sample_grids) !! n = Some r /\ is_header r = true /\
      Forall (fun r => is_header r = false)
             (take n (rows (concat Demo.sample_grids))))).
Proof.
  assert (Hrows : Forall (fun r : list (cell Z) => 2 <= length r)
                         (rows (concat Demo.sample_grids)))
    by (vm_compute; repeat constructor).
  split; [exact Hrows|].
  exact (find_header_first (rows (concat Demo.sample_grids)) Hrows).
Defined.

Lemma fallback_header_dropped_witness :
  (Demo.sample_grids <> [] /\
   find_header 0 (rows (concat (num:=Z) Demo.sample_grids))
   = Ok (Z.of_nat 0) /\
   table_width Demo.sample_grids = 5) /\
  exists df,
    parse_tables (num:=Z) Demo.sample_grids = Ok df /\
    rows df = map clean_row
                (List.filter date_ok
                   (drop 1 (rows (concat Demo.sample_grids)))).
Proof.
  assert (Hne : Demo.sample_grids <> []) by discriminate.
  assert (Hfind : find_header 0 (rows (concat (num:=Z) Demo.sample_grids))
                  = Ok (Z.of_nat 0))
    by (vm_compute; reflexivity).
  assert (Hwide : table_width Demo.sample_grids = 5)
    by (vm_compute; reflexivity).
  split; [exact (conj Hne (conj Hfind Hwide))|].
  exact (fallback_header_dropped Demo.sample_grids 0 Hne Hfind Hwide).
Defined.

Lemma fallback_header_wrong_width_witness :
  (Edge.header_grids <> [] /\
   find_header 0 (rows (concat (num:=Z) Edge.header_grids)) = Ok 0%Z /\
   0%Z <> (-1)%Z /\
   table_width Edge.header_grids <> 5) /\
  parse_tables (num:=Z) Edge.header_grids = Raise (Exn KeyError "0").
Proof.
  assert (Hne : Edge.header_grids <> []) by discriminate.
  assert (Hfind : find_header 0 (rows (concat (num:=Z) Edge.header_grids))
                  = Ok 0%Z)
    by (vm_compute; reflexivity).
  assert (Hh : 0%Z <> (-1)%Z) by discriminate.
  assert (Hwide : table_width Edge.header_grids <> 5)
    by (vm_compute; discriminate).
  split; [exact (conj Hne (conj Hfind (conj Hh Hwide)))|].
  exact (fallback_header_wrong_width Edge.header_grids 0%Z Hne Hfind Hh Hwide).
Defined.

Lemma fallback_narrow_no_header_witness :
  (Edge.narrow_grids <> [] /\
   find_header 0 (rows (concat (num:=Z) Edge.narrow_grids)) = Ok (-1)%Z /\
   0 < table_width Edge.narrow_grids < 5) /\
  parse_tables (num:=Z) Edge.narrow_grids
  = Raise (Exn ValueError
             ("Length mismatch: Expected axis has "
              +:+ pretty (table_width Edge.narrow_grids)
              +:+ " elements, new values have 5 elements")).
Proof.
  assert (Hne : Edge.narrow_grids <> []) by discriminate.
  assert (Hfind : find_header 0 (rows (concat (num:=Z) Edge.narrow_grids))
                  = Ok (-1)%Z)
    by (vm_compute; reflexivity).
  assert (Hwide : 0 < table_width Edge.narrow_grids < 5)
    by (change (table_width Edge.narrow_grids) with 3; lia).
  split; [exact (conj Hne (conj Hfind Hwide))|].
  exact (fallback_narrow_no_header Edge.narrow_grids Hne Hfind Hwide).
Defined.

Lemma fallback_wide_no_header_witness :
  (Edge.wide_grids <> [] /\
   find_header 0 (rows (concat (num:=Z) Edge.wide_grids)) = Ok (-1)%Z /\
   5 <= table_width Edge.wide_grids) /\
  exists df,
    parse_tables (num:=Z) Edge.wide_grids = Ok df /\
    columns df = schema /\
    index df = range_index (length (rows df)) /\
    rows df = map clean_row
                (List.filter date_ok
                   (map (take 5) (rows (concat Edge.wide_grids)))).
Proof.
  assert (Hne : Edge.wide_grids <> []) by discriminate.
  assert (Hfind : find_header 0 (rows (concat (num:=Z) Edge.wide_grids))
                  = Ok (-1)%Z)
    by (vm_compute; reflexivity).
  assert (Hwide : 5 <= table_width Edge.wide_grids)
    by (change (table_width Edge.wide_grids) with 6; lia).
  split; [exact (conj Hne (conj Hfind Hwide))|].
  exact (fallback_wide_no_header Edge.wide_grids Hne Hfind Hwide).
Defined.

Lemma fallback_returns_iff_witness :
  (Demo.sample_grids <> [] /\ 2 <= table_width Demo.sample_grids) /\
  (is_raise (parse_tables (num:=Z) Demo.sample_grids) = false <->
   table_width Demo.sample_grids = 5 \/
   (5 < table_width Demo.sample_grids /\
    find_header 0 (rows (concat (num:=Z) Demo.sample_grids)) = Ok (-1)%Z)).
Proof.
  assert (Hne : Demo.sample_grids <> []) by discriminate.
  assert (Hwide : 2 <= table_width Demo.sample_grids)
    by (change (table_width Demo.sample_grids) with 5; lia).
  split; [exact (conj Hne Hwide)|].
  exact (fallback_returns_iff Demo.sample_grids Hne Hwide).
Defined.

Lemma test_agrees_with_validator_witness :
  (icici_parser.parse_tables Demo.sample_grids = Ok Edge.icici_frame /\
   (compare_with_reference "icici" (sample_csv_path "icici")
      (PyFrame Edge.icici_frame)
      (set_fs (fs Demo.sample_world) Demo.sample_world)).1
   = Ok (true, success_message "icici")) /\
  (test_icici_parser_output
     (fun _ f => (Ok (PyFrame Edge.icici_frame), f)) Demo.sample_world).1
  = Ok tt.
Proof.
  assert (Hparse : icici_parser.parse_tables Demo.sample_grids
                   = Ok Edge.icici_frame)
    by (vm_compute; reflexivity).
  assert (Hcheck :
    (compare_with_reference "icici" (sample_csv_path "icici")
       (PyFrame Edge.icici_frame)
       (set_fs (fs Demo.sample_world) Demo.sample_world)).1
    = Ok (true, success_message "icici"))
    by (vm_compute; reflexivity).
  split; [exact (conj Hparse Hcheck)|].
  exact (test_agrees_with_validator
           (fun _ f => (Ok (PyFrame Edge.icici_frame), f)) Edge.icici_frame
           (fs Demo.sample_world) Demo.sample_world true
           (success_message "icici") eq_refl Hcheck).
Defined.

Lemma icici_parse_rows_witness :
  (Demo.sample_grids <> [] /\ 5 <= table_width Demo.sample_grids) /\
  exists df,
    icici_parser.parse_tables (num:=Z) Demo.sample_grids = Ok df /\
    columns df = schema /\
    index df = select_by_mask
                 (map icici_parser.has_date
                      (rows (concat (num:=Z) Demo.sample_grids)))
                 (range_index (length (rows (concat (num:=Z) Demo.sample_grids)))) /\
    rows df = map icici_parser.transaction_row
                (List.filter icici_parser.has_date
                   (rows (concat Demo.sample_grids))).
Proof.
  assert (Hne : Demo.sample_grids <> []) by discriminate.
  assert (Hwide : 5 <= table_width Demo.sample_grids)
    by (change (table_width Demo.sample_grids) with 5; lia).
  split; [exact (conj Hne Hwide)|].
  exact (icici_parse_rows Demo.sample_grids Hne Hwide).
Defined.

Lemma icici_result_shape_witness :
  icici_parser.parse_tables Demo.sample_grids = Ok Edge.icici_frame /\
  columns Edge.icici_frame = schema /\
  Forall (fun r => exists d t a b c,
            r = [VStr d; t; a; b; c] /\ PyStr.date_match d = true /\
            String.length d = 10 /\
            is_amount a = true /\ is_amount b = true /\ is_amount c = true)
         (rows Edge.icici_frame).
Proof.
  assert (Hparse : icici_parser.parse_tables Demo.sample_grids
                   = Ok Edge.icici_frame)
    by (vm_compute; reflexivity).
  split; [exact Hparse|].
  exact (icici_result_shape Demo.sample_grids Edge.icici_frame Hparse).
Defined.

Lemma numeric_cast_total_witness :
  (fs Demo.sample_world !! Demo.sample_ref = Some (File Demo.sample_csv) /\
   pd_read_csv Demo.sample_csv = Ok Edge.raw_reference /\
   (forall col, In col numeric_names ->
      exists i, positions_from 0 (str_label col) (columns Edge.raw_reference)
                = [i]) /\
   (forall i, column_dtype Edge.raw_reference i <> DObject ->
              Forall (fun c => is_amount c = true)
                     (column_cells Edge.raw_reference i))) /\
  exists df',
    read_csv_as_df Demo.sample_ref Demo.sample_world
    = (Ok df', Demo.sample_world) /\
    forall col i,
      In col numeric_names ->
      positions_from 0 (str_label col) (columns Edge.raw_reference) = [i] ->
      Forall (fun c => is_amount c = true) (column_cells df' i) /\
      forall k r s,
        rows Edge.raw_reference !! k = Some r ->
        row_cell i r = VStr s ->
        exists r',
          rows df' !! k = Some r' /\
          row_cell i r' = match parse_number s with
                          | Some x => VNum x
                          | None => VNaN
                          end.
Proof.
  assert (Hfile : fs Demo.sample_world !! Demo.sample_ref
                  = Some (File Demo.sample_csv))
    by (vm_compute; reflexivity).
  assert (Hcsv : pd_read_csv Demo.sample_csv = Ok Edge.raw_reference)
    by (vm_compute; reflexivity).
  assert (Hthere : forall col, In col numeric_names ->
            exists i, positions_from 0 (str_label col)
                        (columns Edge.raw_reference) = [i])
    by (intros col [<-|[<-|[<-|[]]]]; eexists; vm_compute; reflexivity).
  assert (Htyped : forall i, column_dtype Edge.raw_reference i <> DObject ->
            Forall (fun c => is_amount c = true)
                   (column_cells Edge.raw_reference i)).
  { intros i Hi. exfalso. apply Hi.
    do 5 (destruct i as [|i]; [reflexivity|]). reflexivity. }
  split; [exact (conj Hfile (conj Hcsv (conj Hthere Htyped)))|].
  exact (numeric_cast_total Demo.sample_ref Demo.sample_csv Edge.raw_reference
           Demo.sample_world Hfile Hcsv Hthere Htyped).
Defined.

End EdgeExamples.
